(** * Supermarket sales dashboard (supermarket6.py)

    A shallow embedding of the data pipeline of the dashboard script:
    the sidebar's column probing and filter construction, the filter
    loop of the main page, the role lists obtained by keyword matching
    on column names, the KPI and chart tables, and the CSV export.

    pandas and streamlit are libraries the script calls.  The frames they
    work on are modelled as a schema (column name and dtype) over a list of
    rows; cells are strings, numbers, timestamps, monthly periods or null.
    A number is an int64 cell, whose sums wrap around, or a float64 cell,
    held as the rational number (or the infinity) it is; the rounding of
    float arithmetic is the library's.  Column names are ASCII strings.
    Row labels (the index) are not modelled, as no statement of the script
    reads them and the export drops them. *)

From Stdlib Require Import List ZArith QArith Lia Lqa Bool String Ascii.
From Stdlib Require Import DecimalString.
From Stdlib Require Import Sorting.Sorted Permutation OrderedTypeEx.
Import ListNotations.

Local Open Scope string_scope.
Local Open Scope list_scope.
Local Open Scope Z_scope.

(* ================================================================== *)
(** ** Exceptions *)

Inductive Exception :=
| KeyError (col : string)
| IndexError
| TypeError
| ValueError
| StreamlitDuplicateElementId.

Inductive result (A : Type) :=
| Ok (a : A)
| Raise (e : Exception).

Arguments Ok {A} a.
Arguments Raise {A} e.

Definition bind {A B} (m : result A) (k : A -> result B) : result B :=
  match m with
  | Ok a => k a
  | Raise e => Raise e
  end.

Notation "x <- m ;; k" := (bind m (fun x => k))
  (at level 61, m at next level, right associativity).

Fixpoint mapM {A B} (f : A -> result B) (l : list A) : result (list B) :=
  match l with
  | [] => Ok []
  | a :: t => b <- f a ;; bs <- mapM f t ;; Ok (b :: bs)
  end.

Fixpoint foldM {A S} (f : S -> A -> result S) (l : list A) (s : S) : result S :=
  match l with
  | [] => Ok s
  | a :: t => s' <- f s a ;; foldM f t s'
  end.

(* ================================================================== *)
(** ** Cells *)

Record Date := mkDate { d_year : Z; d_month : Z; d_day : Z }.

(** A timestamp is a calendar date and the nanoseconds elapsed in that day. *)
Record Timestamp := mkTs { ts_date : Date; ts_nanos : Z }.

(** A float64 that is not NaN: the rational number it is, in lowest terms,
    or an infinity.  The two zeros are one cell. *)
Inductive Float :=
| Finite (q : Q)
| Inf (negative : bool).

Inductive Value :=
| VStr (s : string)
| VNum (z : Z)          (* an integer: an int64 cell, a Python int *)
| VFloat (x : Float)    (* a float that is not NaN *)
| VDate (t : Timestamp)
| VPeriod (p : Z)       (* monthly period: months since 1970-01 *)
| VNull.                (* NaN, NaT, None *)

(** A bool column, numeric for [is_numeric_dtype], is taken as an int64
    column of the numbers 0 and 1. *)
Inductive Dtype := DtObject | DtInt64 | DtFloat64 | DtDatetime | DtPeriod.

Definition lex (c1 c2 : comparison) : comparison :=
  match c1 with Eq => c2 | _ => c1 end.

Definition date_compare (a b : Date) : comparison :=
  lex (d_year a ?= d_year b)
      (lex (d_month a ?= d_month b) (d_day a ?= d_day b)).

Definition ts_compare (a b : Timestamp) : comparison :=
  lex (date_compare (ts_date a) (ts_date b)) (ts_nanos a ?= ts_nanos b).

Definition ts_leb (a b : Timestamp) : bool :=
  match ts_compare a b with Gt => false | _ => true end.

Definition ts_eqb (a b : Timestamp) : bool :=
  match ts_compare a b with Eq => true | _ => false end.

Definition float_eqb (x y : Float) : bool :=
  match x, y with
  | Finite p, Finite q => (Z.eqb (Qnum p) (Qnum q) && Pos.eqb (Qden p) (Qden q))%bool
  | Inf a, Inf b => Bool.eqb a b
  | _, _ => false
  end.

(** Floats in the order of their values; two fractions of one value, which
    cells in lowest terms never are, are told apart by their numerators. *)
Definition float_compare (x y : Float) : comparison :=
  match x, y with
  | Finite p, Finite q =>
      lex (Qcompare p q) (lex (Qnum p ?= Qnum q) (Pos.compare (Qden p) (Qden q)))
  | Inf true, Inf true => Eq
  | Inf true, _ => Lt
  | _, Inf true => Gt
  | Inf false, Inf false => Eq
  | Inf false, _ => Gt
  | _, Inf false => Lt
  end.

(** Equality of cells.  An object column read from a sheet holds a whole
    number as an integer only, so an integer and a float are never the same
    cell. *)
Definition value_eqb (a b : Value) : bool :=
  match a, b with
  | VStr s, VStr s' => String.eqb s s'
  | VNum z, VNum z' => Z.eqb z z'
  | VFloat x, VFloat y => float_eqb x y
  | VDate t, VDate t' => ts_eqb t t'
  | VPeriod p, VPeriod p' => Z.eqb p p'
  | VNull, VNull => true
  | _, _ => false
  end.

(** Order used when pandas sorts group keys and values.  Keys of one kind
    are in their natural order, integers and floats together in the order
    of their values; across kinds, numbers come before strings, and time
    keys are placed in between. *)
Definition kind_rank (v : Value) : Z :=
  match v with
  | VNum _ => 0
  | VFloat _ => 1
  | VDate _ => 2
  | VPeriod _ => 3
  | VStr _ => 4
  | VNull => 5
  end.

(** The float of an integer, exact for the integers a double holds (up to
    2^53 in size), as the whole numbers of a sheet are. *)
Definition float_of_int (z : Z) : Float := Finite (inject_Z z).

Definition value_compare (a b : Value) : comparison :=
  match a, b with
  | VStr s, VStr s' => String.compare s s'
  | VNum z, VNum z' => z ?= z'
  | VFloat x, VFloat y => float_compare x y
  | VNum z, VFloat y => lex (float_compare (float_of_int z) y) Lt
  | VFloat x, VNum z' => lex (float_compare x (float_of_int z')) Gt
  | VDate t, VDate t' => ts_compare t t'
  | VPeriod p, VPeriod p' => p ?= p'
  | _, _ => kind_rank a ?= kind_rank b
  end.

Definition value_leb (a b : Value) : bool :=
  match value_compare a b with Gt => false | _ => true end.

Definition value_ltb (a b : Value) : bool :=
  match value_compare a b with Lt => true | _ => false end.

Definition notna (v : Value) : bool :=
  match v with VNull => false | _ => true end.

(* ================================================================== *)
(** ** Strings: [str.lower] and the [in] operator *)

Definition lower_ascii (c : ascii) : ascii :=
  let n := nat_of_ascii c in
  if (Nat.leb 65 n && Nat.leb n 90)%bool then ascii_of_nat (n + 32) else c.

Fixpoint lower (s : string) : string :=
  match s with
  | EmptyString => EmptyString
  | String c t => String (lower_ascii c) (lower t)
  end.

(** [contains sub s] is Python's [sub in s]. *)
Fixpoint contains (sub s : string) : bool :=
  (prefix sub s ||
   match s with
   | EmptyString => false
   | String _ t => contains sub t
   end)%bool.

Definition string_of_Z (z : Z) : string := NilZero.string_of_int (Z.to_int z).

(* ================================================================== *)
(** ** Figures

    What the script hands to [st.plotly_chart]: the figure of a chart that
    has its columns, made from the table of the chart, or the empty figure
    of the [else] branch. *)

Inductive Figure :=
| EmptyLine                                        (* px.line() *)
| Scatter (points : list (string * Value))         (* go.Figure, one Scatter trace *)
| EmptyBar                                         (* px.bar() *)
| Bar (label : string) (items : list (Value * Value))
                                                   (* px.bar(s, labels={'value': label}) *)
| BarXY (x y : string) (table : list (Value * Value))
                                                   (* px.bar(t, x=x, y=y, range_y=[0, 5]) *)
| EmptyPie                                         (* px.pie() *)
| Pie (table : list (Value * Z)).                  (* px.pie(t, names=.., values=.., hole=0.4) *)

Fixpoint list_eqb {A} (eqb : A -> A -> bool) (l l' : list A) : bool :=
  match l, l' with
  | [], [] => true
  | a :: t, b :: t' => (eqb a b && list_eqb eqb t t')%bool
  | _, _ => false
  end.

Definition figure_eqb (f g : Figure) : bool :=
  match f, g with
  | EmptyLine, EmptyLine | EmptyBar, EmptyBar | EmptyPie, EmptyPie => true
  | Scatter p, Scatter p' =>
      list_eqb (fun a b => (String.eqb (fst a) (fst b) && value_eqb (snd a) (snd b))%bool) p p'
  | Bar l i, Bar l' i' =>
      (String.eqb l l'
       && list_eqb (fun a b => (value_eqb (fst a) (fst b) && value_eqb (snd a) (snd b))%bool)
                   i i')%bool
  | BarXY x y t, BarXY x' y' t' =>
      (String.eqb x x' && String.eqb y y'
       && list_eqb (fun a b => (value_eqb (fst a) (fst b) && value_eqb (snd a) (snd b))%bool)
                   t t')%bool
  | Pie t, Pie t' =>
      list_eqb (fun a b => (value_eqb (fst a) (fst b) && Z.eqb (snd a) (snd b))%bool) t t'
  | _, _ => false
  end.

(* ================================================================== *)
(** ** Library behaviour left open

    What pandas does on inputs whose treatment depends on its parsers, on
    Python's object protocol and on the rounding of float arithmetic, and
    what the installed Streamlit does with a chart, is taken as a parameter
    of the model. *)

Class PandasOps := {
  (** dtype that [read_excel] infers for a column from its cells *)
  infer_dtype : list Value -> Dtype;
  (** [pd.to_datetime] on a string cell and on a number cell: a timestamp,
      NaT ([None]) or an exception *)
  datetime_of_string : string -> result (option Timestamp);
  datetime_of_number : Z -> result (option Timestamp);
  datetime_of_float : Float -> result (option Timestamp);
  (** [sum] of the cells of an object column *)
  object_sum : list Value -> result Value;
  (** [Series.sum()] of the floats of a float64 column, and the sum a
      group-by makes of the floats of one group: a float or NaN ([None]) *)
  float_sum : list Float -> option Float;
  group_float_sum : list Float -> option Float;
  (** [mean] of the cells of a column of the given dtype (a float division) *)
  series_mean : Dtype -> list Value -> result Value;
  (** text of a timestamp cell and of a float cell in [to_csv] *)
  csv_timestamp : Timestamp -> string;
  csv_float : Float -> string;
  (** [st.plotly_chart(fig)] after the figures drawn so far in the run: a
      Streamlit that gives each chart an identity made from its figure
      raises [StreamlitDuplicateElementId] on a figure drawn before *)
  plotly_chart : list Figure -> Figure -> result unit
}.

(* ================================================================== *)
(** ** Series and frames *)

Record Series := mkSeries { s_dtype : Dtype; s_values : list Value }.

Record DataFrame := mkDF {
  schema : list (string * Dtype);
  rows : list (list Value)
}.

(** [df.columns] *)
Definition columns (df : DataFrame) : list string := map fst (schema df).

Fixpoint position (c : string) (sch : list (string * Dtype)) : option (nat * Dtype) :=
  match sch with
  | [] => None
  | (n, d) :: t =>
      if String.eqb n c then Some (O, d)
      else match position c t with
           | Some (i, d') => Some (S i, d')
           | None => None
           end
  end.

Definition cell (i : nat) (r : list Value) : Value := nth i r VNull.

(** [df[c]]: the column as a series, [KeyError] when there is none. *)
Definition getitem (df : DataFrame) (c : string) : result Series :=
  match position c (schema df) with
  | Some (i, d) => Ok (mkSeries d (map (cell i) (rows df)))
  | None => Raise (KeyError c)
  end.

(** [df[mask]]: the rows whose mask entry is [True]. *)
Fixpoint select {A} (l : list A) (mask : list bool) : list A :=
  match l, mask with
  | a :: l', b :: mask' => if b then a :: select l' mask' else select l' mask'
  | _, _ => []
  end.

Definition loc_mask (df : DataFrame) (mask : list bool) : DataFrame :=
  mkDF (schema df) (select (rows df) mask).

Fixpoint set_cell (i : nat) (v : Value) (r : list Value) : list Value :=
  match i, r with
  | O, [] => [v]
  | O, _ :: t => v :: t
  | S i', [] => VNull :: set_cell i' v []
  | S i', x :: t => x :: set_cell i' v t
  end.

Fixpoint set_dtype (i : nat) (d : Dtype) (sch : list (string * Dtype)) : list (string * Dtype) :=
  match i, sch with
  | _, [] => []
  | O, (n, _) :: t => (n, d) :: t
  | S i', x :: t => x :: set_dtype i' d t
  end.

(** [df[c] = s]: replaces the column in place when [c] exists, appends it
    as the last column otherwise. *)
Definition setitem (df : DataFrame) (c : string) (s : Series) : DataFrame :=
  match position c (schema df) with
  | Some (i, _) =>
      mkDF (set_dtype i (s_dtype s) (schema df))
           (map (fun rv => set_cell i (snd rv) (fst rv)) (combine (rows df) (s_values s)))
  | None =>
      mkDF (schema df ++ [(c, s_dtype s)])
           (map (fun rv => set_cell (List.length (schema df)) (snd rv) (fst rv))
                (combine (rows df) (s_values s)))
  end.

(** [Series.dropna], [Series.unique] (order of first occurrence) and
    [Series.nunique] (nulls are not counted). *)
Definition dropna (l : list Value) : list Value := filter notna l.

Fixpoint unique (l : list Value) : list Value :=
  match l with
  | [] => []
  | v :: t => v :: filter (fun w => negb (value_eqb v w)) (unique t)
  end.

Definition nunique (s : Series) : nat := List.length (unique (dropna (s_values s))).

(** [Series.isin(vals)] *)
Definition isin (s : Series) (vals : list Value) : list bool :=
  map (fun v => existsb (value_eqb v) vals) (s_values s).

Definition is_datetime64_any_dtype (s : Series) : bool :=
  match s_dtype s with DtDatetime => true | _ => false end.

Definition is_numeric_dtype (s : Series) : bool :=
  match s_dtype s with DtInt64 | DtFloat64 => true | _ => false end.

(** Stable insertion sorts: [sort_by leb] puts an element before the
    elements of the sorted tail that it is [leb] to. *)
Fixpoint insert_by {A} (leb : A -> A -> bool) (x : A) (l : list A) : list A :=
  match l with
  | [] => [x]
  | y :: t => if leb x y then x :: y :: t else y :: insert_by leb x t
  end.

Fixpoint sort_by {A} (leb : A -> A -> bool) (l : list A) : list A :=
  match l with
  | [] => []
  | x :: t => insert_by leb x (sort_by leb t)
  end.

(** The calendar month of a timestamp and its text, [YYYY-MM]. *)
Definition to_period_M (t : Timestamp) : Z :=
  (d_year (ts_date t) - 1970) * 12 + (d_month (ts_date t) - 1).

Definition period_year (p : Z) : Z := 1970 + p / 12.
Definition period_month (p : Z) : Z := p mod 12 + 1.

Definition two_digits (z : Z) : string :=
  if z <? 10 then "0" ++ string_of_Z z else string_of_Z z.

Definition period_str (p : Z) : string :=
  string_of_Z (period_year p) ++ "-" ++ two_digits (period_month p).

Definition timestamp_of_date (d : Date) : Timestamp := mkTs d 0.

Definition zsum (l : list Z) : Z := fold_right Z.add 0 l.

(** Two's complement: the int64 that an integer is modulo 2^64. *)
Definition wrap64 (z : Z) : Z := (z + 2 ^ 63) mod 2 ^ 64 - 2 ^ 63.

(** The integers and the floats among the cells of a column. *)
Fixpoint numbers (l : list Value) : list Z :=
  match l with
  | [] => []
  | VNum z :: t => z :: numbers t
  | _ :: t => numbers t
  end.

Fixpoint floats (l : list Value) : list Float :=
  match l with
  | [] => []
  | VFloat x :: t => x :: floats t
  | _ :: t => floats t
  end.

Definition float_value (x : option Float) : Value :=
  match x with
  | Some x => VFloat x
  | None => VNull
  end.

(** The cell of a column of a dtype made from a cell of the sheet: in a
    float64 column the integers are floats. *)
Definition astype (d : Dtype) (v : Value) : Value :=
  match d, v with
  | DtFloat64, VNum z => VFloat (float_of_int z)
  | _, _ => v
  end.

(* ================================================================== *)
(** ** The uploaded file *)

Record Workbook := mkWb { wb_header : list string; wb_rows : list (list Value) }.

Inductive Upload :=
| Unreadable
| Sheet (wb : Workbook).

(** Streamlit widgets: what the user picks.  [multiselect label options
    default] is the list of selected options; [date_input label default] is
    the tuple of dates picked so far. *)
Record Widgets := mkWidgets {
  multiselect : string -> list Value -> list Value -> list Value;
  date_input : string -> option Timestamp * option Timestamp -> result (list Date)
}.

(** A value of [filter_options]: the list a multiselect returned, or the
    pair of dates of a complete date range. *)
Inductive FilterVal :=
| FList (selected : list Value)
| FRange (start stop : Date).

(** [filter_options]: a dict, in insertion order. *)
Definition FilterOptions := list (string * FilterVal).

Fixpoint dict_set (k : string) (v : FilterVal) (d : FilterOptions) : FilterOptions :=
  match d with
  | [] => [(k, v)]
  | (k', v') :: t => if String.eqb k' k then (k, v) :: t else (k', v') :: dict_set k v t
  end.

Record Probe := mkProbe {
  categorical_cols : list string;
  date_cols : list string;
  numeric_cols : list string
}.

Inductive Kind := categorical | date | numeric | unclassified.

Definition mem (c : string) (l : list string) : bool := existsb (String.eqb c) l.

(** The kind of a column: the list of the probe it was appended to, if any. *)
Definition kind_of (p : Probe) (c : string) : Kind :=
  if mem c (date_cols p) then date
  else if mem c (numeric_cols p) then numeric
  else if mem c (categorical_cols p) then categorical
  else unclassified.

(* ================================================================== *)
(** ** The script *)

Section Script.

Context {pandas : PandasOps}.

(** [pd.read_excel(file, nrows=n)] and [pd.read_excel(file)]: the header
    gives the columns, the first [n] rows (all rows) the cells, each column
    in the dtype inferred from its cells. *)
Definition read_excel (file : Upload) (nrows : option nat) : result DataFrame :=
  match file with
  | Unreadable => Raise ValueError
  | Sheet wb =>
      let rs := match nrows with
                | Some n => firstn n (wb_rows wb)
                | None => wb_rows wb
                end in
      let dtypes := map (fun i => infer_dtype (map (cell i) rs))
                        (seq 0 (List.length (wb_header wb))) in
      Ok (mkDF (combine (wb_header wb) dtypes)
               (map (fun r => map (fun id => astype (snd id) (cell (fst id) r))
                                  (combine (seq 0 (List.length dtypes)) dtypes))
                    rs))
  end.

(** [pd.to_datetime], cell by cell. *)
Definition to_datetime_cell (v : Value) : result (option Timestamp) :=
  match v with
  | VDate t => Ok (Some t)
  | VNull => Ok None
  | VStr s => datetime_of_string s
  | VNum z => datetime_of_number z
  | VFloat x => datetime_of_float x
  | VPeriod _ => Raise TypeError
  end.

Definition to_datetime (s : Series) : result (list (option Timestamp)) :=
  mapM to_datetime_cell (s_values s).

(** [Series.min()] and [Series.max()] of a datetime series; NaT is skipped. *)
Definition pick (better : Timestamp -> Timestamp -> bool)
    (acc x : option Timestamp) : option Timestamp :=
  match acc, x with
  | None, _ => x
  | Some a, None => Some a
  | Some a, Some b => Some (if better a b then a else b)
  end.

Definition ts_min (l : list (option Timestamp)) : option Timestamp :=
  fold_left (pick ts_leb) l None.

Definition ts_max (l : list (option Timestamp)) : option Timestamp :=
  fold_left (pick (fun a b => ts_leb b a)) l None.

(** *** Sidebar, lines 70-82: the three column lists *)

Definition probe_step (preview_df : DataFrame) (p : Probe) (col : string) : result Probe :=
  s <- getitem preview_df col ;;
  if is_datetime64_any_dtype s then
    Ok (mkProbe (categorical_cols p) (date_cols p ++ [col]) (numeric_cols p))
  else if is_numeric_dtype s then
    Ok (mkProbe (categorical_cols p) (date_cols p) (numeric_cols p ++ [col]))
  else if Nat.ltb (nunique s) 20 then
    Ok (mkProbe (categorical_cols p ++ [col]) (date_cols p) (numeric_cols p))
  else Ok p.

Definition schema_prober (preview_df : DataFrame) : result Probe :=
  foldM (probe_step preview_df) (columns preview_df) (mkProbe [] [] []).

(** *** Sidebar, lines 84-100: [filter_options]

    The dict is filled while the widgets are drawn, so a function of this
    part returns the dict as it stands together with its outcome. *)

Fixpoint categorical_filters (ui : Widgets) (preview_df : DataFrame)
    (cols : list string) (filter_options : FilterOptions)
    : FilterOptions * result unit :=
  match cols with
  | [] => (filter_options, Ok tt)
  | col :: rest =>
      match getitem preview_df col with
      | Raise e => (filter_options, Raise e)
      | Ok s =>
          let vals := unique (dropna (s_values s)) in
          let selected := multiselect ui (col ++ " Filter")%string vals vals in
          categorical_filters ui preview_df rest (dict_set col (FList selected) filter_options)
      end
  end.

Definition date_range_filter (ui : Widgets) (preview_df : DataFrame)
    (date_cols : list string) (filter_options : FilterOptions)
    : FilterOptions * result unit :=
  match date_cols with
  | [] => (filter_options, Ok tt)
  | date_col :: _ =>
      match (s <- getitem preview_df date_col ;;
             ts <- to_datetime s ;;
             date_input ui "Date Range" (ts_min ts, ts_max ts)) with
      | Raise e => (filter_options, Raise e)
      | Ok [start; stop] => (dict_set date_col (FRange start stop) filter_options, Ok tt)
      | Ok _ => (filter_options, Ok tt)
      end
  end.

(** The body of the [try]. *)
Definition try_filters (ui : Widgets) (uploaded_file : Upload)
    : FilterOptions * result unit :=
  match read_excel uploaded_file (Some 100%nat) with
  | Raise e => ([], Raise e)
  | Ok preview_df =>
      match schema_prober preview_df with
      | Raise e => ([], Raise e)
      | Ok p =>
          match categorical_filters ui preview_df (firstn 5 (categorical_cols p)) [] with
          | (filter_options, Raise e) => (filter_options, Raise e)
          | (filter_options, Ok _) =>
              date_range_filter ui preview_df (date_cols p) filter_options
          end
      end
  end.

(** The sidebar: [filter_options] after the [try]/[except]; the bare
    [except] shows a message and keeps what the dict holds by then. *)
Definition sidebar (ui : Widgets) (uploaded_file : option Upload) : FilterOptions :=
  match uploaded_file with
  | Some file => fst (try_filters ui file)
  | None => []
  end.

(** *** Main page, lines 125-133: the filter loop *)

Definition date_mask (start stop : Date) (t : option Timestamp) : bool :=
  match t with
  | Some t => (ts_leb (timestamp_of_date start) t && ts_leb t (timestamp_of_date stop))%bool
  | None => false
  end.

Definition filter_step (df_filtered : DataFrame) (item : string * FilterVal)
    : result DataFrame :=
  let (col, val) := item in
  match val with
  | FList vals =>
      s <- getitem df_filtered col ;;
      Ok (loc_mask df_filtered (isin s vals))
  | FRange start stop =>
      s <- getitem df_filtered col ;;
      ts <- to_datetime s ;;
      Ok (loc_mask df_filtered (map (date_mask start stop) ts))
  end.

Definition apply_filters (df : DataFrame) (filter_options : FilterOptions)
    : result DataFrame :=
  foldM filter_step filter_options df.

(** *** Main page, lines 136-141: the role lists *)

Definition is_sales (c : string) : bool :=
  (contains "sales" (lower c) || contains "total" (lower c))%bool.
Definition is_qty (c : string) : bool :=
  (contains "qty" (lower c) || contains "quantity" (lower c))%bool.
Definition is_city (c : string) : bool := contains "city" (lower c).
Definition is_rating (c : string) : bool := contains "rating" (lower c).
Definition is_category (c : string) : bool :=
  (contains "product" (lower c) || contains "category" (lower c))%bool.
Definition is_payment (c : string) : bool := contains "payment" (lower c).
Definition is_date (c : string) : bool := contains "date" (lower c).

Definition sales_cols (df : DataFrame) : list string := filter is_sales (columns df).
Definition qty_cols (df : DataFrame) : list string := filter is_qty (columns df).
Definition city_cols (df : DataFrame) : list string := filter is_city (columns df).
Definition rating_cols (df : DataFrame) : list string := filter is_rating (columns df).
Definition category_cols (df : DataFrame) : list string := filter is_category (columns df).
Definition payment_cols (df : DataFrame) : list string := filter is_payment (columns df).

(** *** Aggregations *)

(** A sum of the cells of a column: int64 addition wraps around, nulls
    are skipped, the floats are added as [fsum] does, and timestamps and
    periods cannot be added. *)
Definition sum_with (fsum : list Float -> option Float) (s : Series) : result Value :=
  match s_dtype s with
  | DtInt64 => Ok (VNum (wrap64 (zsum (numbers (s_values s)))))
  | DtFloat64 => Ok (float_value (fsum (floats (s_values s))))
  | DtObject => object_sum (s_values s)
  | DtDatetime | DtPeriod => Raise TypeError
  end.

(** [Series.sum()], and the sum of one group of a group-by. *)
Definition series_sum (s : Series) : result Value := sum_with float_sum s.

Definition group_sum (s : Series) : result Value := sum_with group_float_sum s.

(** A series with its index, as a group-by returns it. *)
Record Indexed := mkIndexed { i_dtype : Dtype; i_items : list (Value * Value) }.

Definition group_cells (keys vals : list Value) (g : Value) : list Value :=
  map snd (filter (fun kv => value_eqb (fst kv) g) (combine keys vals)).

(** The keys of a group-by: the distinct non-null keys, sorted. *)
Definition group_keys (keys : list Value) : list Value :=
  sort_by value_leb (unique (dropna keys)).

(** [df.groupby(key)[val].sum()]: timestamps and periods are refused
    before any group is made. *)
Definition groupby_sum (df : DataFrame) (key val : string) : result Indexed :=
  k <- getitem df key ;;
  v <- getitem df val ;;
  match s_dtype v with
  | DtDatetime | DtPeriod => Raise TypeError
  | _ =>
      items <- mapM (fun g =>
                       t <- group_sum (mkSeries (s_dtype v)
                                         (group_cells (s_values k) (s_values v) g)) ;;
                       Ok (g, t))
                    (group_keys (s_values k)) ;;
      Ok (mkIndexed (s_dtype v) items)
  end.

Definition item_geb (a b : Value * Value) : bool := value_leb (snd b) (snd a).

(** [Series.nlargest(n)]: the [n] largest values in decreasing order, the
    first occurrence coming first among equal values; nulls go last. *)
Definition nlargest (n : nat) (s : Indexed) : result (list (Value * Value)) :=
  match i_dtype s with
  | DtObject => Raise TypeError
  | _ =>
      let dropped := filter (fun kv => notna (snd kv)) (i_items s) in
      let nans := filter (fun kv => negb (notna (snd kv))) (i_items s) in
      Ok (firstn n (sort_by item_geb dropped ++ nans))
  end.

(** The text of an f-string number format: a [str] has no [f] format. *)
Definition format_number (v : Value) : result Value :=
  match v with
  | VStr _ => Raise ValueError
  | _ => Ok v
  end.

(** KPI cards, lines 149 and 155: [df_filtered[cols[0]].sum() if cols else 0] *)
Definition kpi_total (cols : list string) (df_filtered : DataFrame) : result Value :=
  match cols with
  | c :: _ =>
      s <- getitem df_filtered c ;;
      t <- series_sum s ;;
      format_number t
  | [] => Ok (VNum 0)
  end.

Definition period_of (t : option Timestamp) : Value :=
  match t with
  | Some t => VPeriod (to_period_M t)
  | None => VNull
  end.

(** [astype(str)] on the Month column of the monthly table. *)
Definition astype_str (v : Value) : string :=
  match v with
  | VPeriod p => period_str p
  | VStr s => s
  | VNum z => string_of_Z z
  | VFloat x => csv_float x
  | VDate t => csv_timestamp t
  | VNull => "NaT"
  end.

(** Chart 1, lines 174-186.  The Month column is written into
    [df_filtered] itself, so the frame is returned with the series of the
    chart; an empty chart has no points. *)
Definition monthly_sales (df df_filtered : DataFrame)
    : result (DataFrame * list (string * Value)) :=
  match sales_cols df with
  | sales :: _ =>
      if existsb is_date (columns df) then
        match filter is_date (columns df) with
        | [] => Raise IndexError
        | date_col :: _ =>
            s <- getitem df_filtered date_col ;;
            ts <- to_datetime s ;;
            let df_filtered := setitem df_filtered "Month" (mkSeries DtPeriod (map period_of ts)) in
            monthly <- groupby_sum df_filtered "Month" sales ;;
            Ok (df_filtered, map (fun kv => (astype_str (fst kv), snd kv)) (i_items monthly))
        end
      else Ok (df_filtered, [])
  | [] => Ok (df_filtered, [])
  end.

(** Charts 2 and 3, lines 196-211. *)
Definition top_products (category_cols value_cols : list string) (df_filtered : DataFrame)
    : result (list (Value * Value)) :=
  match category_cols, value_cols with
  | category :: _, value :: _ =>
      g <- groupby_sum df_filtered category value ;;
      nlargest 10 g
  | _, _ => Ok []
  end.

(** [Series.value_counts()]: the count of each non-null value, largest
    count first. *)
Definition value_counts (s : Series) : list (Value * Z) :=
  let vals := dropna (s_values s) in
  sort_by (fun a b => snd b <=? snd a)
          (map (fun v => (v, Z.of_nat (List.length (filter (value_eqb v) vals)))) (unique vals)).

(** Chart 4, lines 221-226. *)
Definition payment_methods (payment_cols : list string) (df_filtered : DataFrame)
    : result (list (Value * Z)) :=
  match payment_cols with
  | payment :: _ => s <- getitem df_filtered payment ;; Ok (value_counts s)
  | [] => Ok []
  end.

(** Chart 5, lines 234-238: [df.groupby(city)[rating].mean()], and
    [reset_index()], which makes the group keys a column named as the city
    column beside the means, named as the rating column, and raises when
    the two names are one. *)
Definition rating_by_city (city_cols rating_cols : list string) (df_filtered : DataFrame)
    : result (list (Value * Value)) :=
  match city_cols, rating_cols with
  | city :: _, rating :: _ =>
      k <- getitem df_filtered city ;;
      v <- getitem df_filtered rating ;;
      means <- mapM (fun g =>
                       m <- series_mean (s_dtype v)
                              (group_cells (s_values k) (s_values v) g) ;;
                       Ok (g, m))
                    (group_keys (s_values k)) ;;
      if String.eqb city rating then Raise ValueError else Ok means
  | _, _ => Ok []
  end.

(** [df.to_csv(index=False)]: a header line and a line per row, fields
    separated by commas; a field holding a comma, a quote or a line break
    is quoted, its quotes doubled; a null cell is empty, and a line that
    would be empty, of one empty field, is a pair of quotes. *)
Definition quote_char : ascii := "034"%char.
Definition lf : ascii := "010"%char.
Definition cr : ascii := "013"%char.

Definition one (c : ascii) : string := String c EmptyString.

Fixpoint double_quotes (s : string) : string :=
  match s with
  | EmptyString => EmptyString
  | String c t =>
      if Ascii.eqb c quote_char then String c (String c (double_quotes t))
      else String c (double_quotes t)
  end.

Definition csv_field (s : string) : string :=
  if (contains "," s || contains (one quote_char) s
      || contains (one lf) s || contains (one cr) s)%bool
  then (one quote_char ++ double_quotes s ++ one quote_char)%string
  else s.

Definition csv_cell (v : Value) : string :=
  match v with
  | VStr s => s
  | VNum z => string_of_Z z
  | VFloat x => csv_float x
  | VDate t => csv_timestamp t
  | VPeriod p => period_str p
  | VNull => ""
  end.

Definition csv_line (fields : list string) : string :=
  match fields with
  | [EmptyString] => (one quote_char ++ one quote_char ++ one lf)%string
  | _ => (String.concat "," (map csv_field fields) ++ one lf)%string
  end.

Definition csv_row (width : nat) (r : list Value) : list string :=
  map (fun i => csv_cell (cell i r)) (seq 0 width).

Definition to_csv (df : DataFrame) : string :=
  String.concat ""
    (csv_line (columns df)
     :: map (fun r => csv_line (csv_row (List.length (schema df)) r)) (rows df)).

(** What one run of the main page shows. *)
Record Dashboard := mkDashboard {
  total_sales : Value;
  total_qty : Value;
  fig1 : list (string * Value);
  fig2 : list (Value * Value);
  fig3 : list (Value * Value);
  fig4 : list (Value * Z);
  fig5 : list (Value * Value);
  raw_data : DataFrame;
  filtered_data_csv : string
}.

(** The figure of each chart: that of its table when the chart has its
    columns, the empty figure of the [else] branch otherwise. *)
Definition monthly_figure (df : DataFrame) (monthly : list (string * Value)) : Figure :=
  match sales_cols df with
  | _ :: _ => if existsb is_date (columns df) then Scatter monthly else EmptyLine
  | [] => EmptyLine
  end.

Definition products_figure (label : string) (category_cols value_cols : list string)
    (prod : list (Value * Value)) : Figure :=
  match category_cols, value_cols with
  | _ :: _, _ :: _ => Bar label prod
  | _, _ => EmptyBar
  end.

Definition payment_figure (payment_cols : list string) (payment_df : list (Value * Z))
    : Figure :=
  match payment_cols with
  | _ :: _ => Pie payment_df
  | [] => EmptyPie
  end.

Definition rating_figure (city_cols rating_cols : list string)
    (city_rt : list (Value * Value)) : Figure :=
  match city_cols, rating_cols with
  | city :: _, rating :: _ => BarXY city rating city_rt
  | _, _ => EmptyBar
  end.

(** The cards, the charts and the table, in the order of the script, from
    the filtered frame; each chart is drawn before the next is computed, and
    an exception ends the run. *)
Definition render (df df_filtered : DataFrame) : result Dashboard :=
  total_sales <- kpi_total (sales_cols df) df_filtered ;;
  total_qty <- kpi_total (qty_cols df) df_filtered ;;
  mf <- monthly_sales df df_filtered ;;
  let df_filtered := fst mf in
  let figure1 := monthly_figure df (snd mf) in
  drawn1 <- plotly_chart [] figure1 ;;
  prod <- top_products (category_cols df) (qty_cols df) df_filtered ;;
  let figure2 := products_figure "Quantity" (category_cols df) (qty_cols df) prod in
  drawn2 <- plotly_chart [figure1] figure2 ;;
  prod_sales <- top_products (category_cols df) (sales_cols df) df_filtered ;;
  let figure3 := products_figure "Sales" (category_cols df) (sales_cols df) prod_sales in
  drawn3 <- plotly_chart [figure1; figure2] figure3 ;;
  payment_df <- payment_methods (payment_cols df) df_filtered ;;
  let figure4 := payment_figure (payment_cols df) payment_df in
  drawn4 <- plotly_chart [figure1; figure2; figure3] figure4 ;;
  city_rt <- rating_by_city (city_cols df) (rating_cols df) df_filtered ;;
  let figure5 := rating_figure (city_cols df) (rating_cols df) city_rt in
  drawn5 <- plotly_chart [figure1; figure2; figure3; figure4] figure5 ;;
  Ok (mkDashboard total_sales total_qty (snd mf) prod prod_sales payment_df city_rt
                  df_filtered (to_csv df_filtered)).

(** Lines 117-253. *)
Definition main_content (uploaded_file : Upload) (filter_options : FilterOptions)
    : result Dashboard :=
  df <- read_excel uploaded_file None ;;
  df_filtered <- apply_filters df filter_options ;;
  render df df_filtered.

(** One run of the script on an uploaded file. *)
Definition dashboard (ui : Widgets) (uploaded_file : Upload) : result Dashboard :=
  main_content uploaded_file (sidebar ui (Some uploaded_file)).

End Script.

(* ================================================================== *)
(** ** Vocabulary of the statements *)

(** *** Probing *)

(** The branch of the probing loop a column takes. *)
Definition probe_kind (preview_df : DataFrame) (c : string) : Kind :=
  match getitem preview_df c with
  | Ok s =>
      if is_datetime64_any_dtype s then date
      else if is_numeric_dtype s then numeric
      else if Nat.ltb (nunique s) 20 then categorical
      else unclassified
  | Raise _ => unclassified
  end.

Definition kind_eqb (a b : Kind) : bool :=
  match a, b with
  | categorical, categorical | date, date | numeric, numeric
  | unclassified, unclassified => true
  | _, _ => false
  end.

Definition of_kind (preview_df : DataFrame) (k : Kind) (c : string) : bool :=
  kind_eqb (probe_kind preview_df c) k.

(** The rows of a sheet that [read_excel] reads. *)
Definition sample_rows (wb : Workbook) (nrows : option nat) : list (list Value) :=
  match nrows with
  | Some n => firstn n (wb_rows wb)
  | None => wb_rows wb
  end.

(** *** Filters *)

(** The test that the loop makes of a row for one entry of
    [filter_options]: its cell in that column is one of the selected values,
    or its timestamp lies between the two dates of the range, each taken at
    midnight. *)
Definition row_passes {pandas : PandasOps} (sch : list (string * Dtype))
    (item : string * FilterVal) (r : list Value) : bool :=
  match position (fst item) sch with
  | None => false
  | Some (i, _) =>
      match snd item with
      | FList vals => existsb (value_eqb (cell i r)) vals
      | FRange start stop =>
          match to_datetime_cell (cell i r) with
          | Ok t => date_mask start stop t
          | Raise _ => false
          end
      end
  end.

(** A row passes the test of every entry. *)
Definition passes_all {pandas : PandasOps} (sch : list (string * Dtype))
    (filter_options : FilterOptions) (r : list Value) : bool :=
  forallb (fun item => row_passes sch item r) filter_options.

(** The filters can be evaluated on the frame: each filter column is a
    column of the frame, and the cells of a date filter column convert. *)
Definition converts {pandas : PandasOps} (v : Value) : bool :=
  match to_datetime_cell v with Ok _ => true | Raise _ => false end.

Definition filter_applicable {pandas : PandasOps} (df : DataFrame)
    (item : string * FilterVal) : bool :=
  match position (fst item) (schema df) with
  | None => false
  | Some (i, _) =>
      match snd item with
      | FList _ => true
      | FRange _ _ => forallb (fun r => converts (cell i r)) (rows df)
      end
  end.

(** The date predicate as the specification words it, to compare with
    [date_mask]: the date of the row lies in the closed interval of the two
    dates, the value of the row and the bounds being taken as dates.  A row
    satisfies the predicate of an entry when its cell is one of the allowed
    values, or its date lies in the interval. *)
Definition date_leb (a b : Date) : bool :=
  match date_compare a b with Gt => false | _ => true end.

Definition in_closed_interval (start stop : Date) (t : Timestamp) : bool :=
  (date_leb start (ts_date t) && date_leb (ts_date t) stop)%bool.

Definition satisfies {pandas : PandasOps} (sch : list (string * Dtype))
    (item : string * FilterVal) (r : list Value) : bool :=
  match position (fst item) sch with
  | None => false
  | Some (i, _) =>
      match snd item with
      | FList vals => existsb (value_eqb (cell i r)) vals
      | FRange start stop =>
          match to_datetime_cell (cell i r) with
          | Ok (Some t) => in_closed_interval start stop t
          | _ => false
          end
      end
  end.

Definition satisfies_all {pandas : PandasOps} (sch : list (string * Dtype))
    (filter_options : FilterOptions) (r : list Value) : bool :=
  forallb (fun item => satisfies sch item r) filter_options.

(** The timestamp that a row has in the column of a date filter, if it
    has one, is not after midnight on the last day of the range (and its
    time of day is not negative). *)
Definition last_day_at_midnight {pandas : PandasOps} (sch : list (string * Dtype))
    (item : string * FilterVal) (r : list Value) : bool :=
  match position (fst item) sch, snd item with
  | Some (i, _), FRange start stop =>
      match to_datetime_cell (cell i r) with
      | Ok (Some t) =>
          (Z.leb 0 (ts_nanos t)
           && negb (match date_compare (ts_date t) stop with Eq => true | _ => false end
                    && Z.ltb 0 (ts_nanos t)))%bool
      | _ => true
      end
  | _, _ => true
  end.

(** The entries of [filter_options] that a multiselect wrote. *)
Definition is_selection (item : string * FilterVal) : bool :=
  match snd item with FList _ => true | FRange _ _ => false end.

(** What the user selects in the multiselect drawn for a column. *)
Definition selection (ui : Widgets) (preview_df : DataFrame) (c : string) : list Value :=
  match getitem preview_df c with
  | Ok s =>
      let vals := unique (dropna (s_values s)) in
      multiselect ui (c ++ " Filter")%string vals vals
  | Raise _ => []
  end.

(** Two rows hold the same cells in the columns other than [c]. *)
Definition agree_off (c : string) (sch : list (string * Dtype)) (r r' : list Value) : Prop :=
  forall c' i d, c' <> c -> position c' sch = Some (i, d) -> cell i r = cell i r'.

(** *** Groups and ranks *)

(** The cells of column [j] in the rows whose key is [g], and the sum of
    the numbers among them. *)
Definition group_column (key : list Value -> Value) (j : nat) (rs : list (list Value))
    (g : Value) : list Value :=
  map (cell j) (filter (fun r => value_eqb (key r) g) rs).

Definition group_total (key : list Value -> Value) (j : nat) (rs : list (list Value))
    (g : Value) : Z :=
  zsum (numbers (group_column key j rs g)).

(** The timestamp [pd.to_datetime] gives the cell of a row in column [i]
    (NaT also where it raises), and the month of the row. *)
Definition datetime_of {pandas : PandasOps} (i : nat) (r : list Value) : option Timestamp :=
  match to_datetime_cell (cell i r) with
  | Ok t => t
  | Raise _ => None
  end.

Definition row_month {pandas : PandasOps} (i : nat) (r : list Value) : Value :=
  period_of (datetime_of i r).

(** The order of the keys of two items of a table, and the order of a
    table ranked by decreasing value: an item comes before the items of a
    smaller value, a null value counting as the smallest, and before the
    items of the same value whose key sorts after its own. *)
Definition key_before (a b : Value * Value) : Prop := value_ltb (fst a) (fst b) = true.

(** The order of the result of a stable sort by [geb] of a list in the
    order [before]. *)
Definition sorted_before {A} (geb : A -> A -> bool) (before : A -> A -> Prop)
    (a b : A) : Prop :=
  geb b a = false \/ (geb a b = true /\ geb b a = true /\ before a b).

Definition larger (a b : Value) : bool :=
  match a, b with
  | VNull, _ => false
  | _, VNull => true
  | _, _ => value_ltb b a
  end.

Definition ranks_before (a b : Value * Value) : Prop :=
  larger (snd a) (snd b) = true \/ (snd a = snd b /\ key_before a b).

(** The top-ten table as the specification words it, to compare with
    [top_products]: the groups of an int64 column taken in the order in
    which the rows present them, ranked by decreasing sum, the first ten
    kept. *)
Definition first_encountered_top10 (i j : nat) (rs : list (list Value))
    : list (Value * Value) :=
  firstn 10
    (sort_by item_geb
       (map (fun g => (g, VNum (wrap64 (group_total (cell i) j rs g))))
            (unique (dropna (map (cell i) rs))))).

(* ================================================================== *)
(** ** Example data *)

(** A pandas for the examples: [read_excel] gives a sheet without rows
    object columns, a column of integers the int64 dtype, a column of
    numbers and empty cells the float64 dtype, a column of timestamps and
    empty cells the datetime dtype, and any other column the object dtype;
    strings and numbers are not taken for dates, object cells are not
    summed; floats are added exactly, which is what float64 addition does
    on the halves and quarters of the examples, and written with the digits
    after the point that they have; every chart is drawn. *)
Definition cells_are (p : Value -> bool) (l : list Value) : bool :=
  (negb (Nat.eqb (List.length l) 0) && forallb p (dropna l))%bool.

Definition exact_add (x : Float) (acc : option Float) : option Float :=
  match x, acc with
  | Finite p, Some (Finite q) => Some (Finite (Qred (p + q)))
  | Finite _, Some (Inf s) => Some (Inf s)
  | Inf s, Some (Finite _) => Some (Inf s)
  | Inf s, Some (Inf s') => if Bool.eqb s s' then Some (Inf s) else None
  | _, None => None
  end.

Definition exact_sum (l : list Float) : option Float :=
  fold_right exact_add (Some (Finite 0)) l.

Fixpoint decimals (fuel : nat) (r d : Z) : string :=
  match fuel with
  | O => ""
  | S fuel' =>
      if r =? 0 then ""
      else (string_of_Z (r * 10 / d)%Z ++ decimals fuel' (r * 10 mod d)%Z d)%string
  end.

Definition decimal_text (x : Float) : string :=
  match x with
  | Inf true => "-inf"
  | Inf false => "inf"
  | Finite q =>
      let n := Z.abs (Qnum q) in
      let d := Z.pos (Qden q) in
      ((if (Qnum q <? 0)%Z then "-" else "") ++ string_of_Z (n / d)%Z ++ "."
       ++ (if (n mod d =? 0)%Z then "0" else decimals 20 (n mod d)%Z d))%string
  end.

Definition example_pandas : PandasOps := {|
  infer_dtype l :=
    if cells_are (fun v => match v with VNum _ => true | _ => false end) l then
      if forallb notna l then DtInt64 else DtFloat64
    else if cells_are (fun v => match v with VNum _ | VFloat _ => true | _ => false end) l
    then DtFloat64
    else if cells_are (fun v => match v with VDate _ => true | _ => false end) l then DtDatetime
    else DtObject;
  datetime_of_string _ := Raise ValueError;
  datetime_of_number _ := Raise ValueError;
  datetime_of_float _ := Raise ValueError;
  object_sum _ := Raise TypeError;
  float_sum := exact_sum;
  group_float_sum := exact_sum;
  series_mean _ _ := Raise TypeError;
  csv_timestamp t :=
    (string_of_Z (d_year (ts_date t)) ++ "-" ++ two_digits (d_month (ts_date t))
       ++ "-" ++ two_digits (d_day (ts_date t)))%string;
  csv_float := decimal_text;
  plotly_chart _ _ := Ok tt
|}.

(** The user who leaves every widget at its default. *)
Definition default_ui : Widgets := {|
  multiselect _ _ default := default;
  date_input _ default :=
    match default with
    | (Some a, Some b) => Ok [ts_date a; ts_date b]
    | _ => Raise ValueError
    end
|}.

Definition day (y m d : Z) : Value := VDate (mkTs (mkDate y m d) 0).

(** A small sales sheet: three sales in January 2024, two in February. *)
Definition sales_sheet : Workbook :=
  mkWb ["Date"; "Product line"; "Quantity"; "Total"; "Payment"; "City"; "Rating"]
       [ [day 2024 1 5;  VStr "Food";   VNum 2; VNum 10; VStr "Cash";    VStr "Yangon";   VNum 7];
         [day 2024 1 9;  VStr "Sports"; VNum 1; VNum 20; VStr "Cash";    VStr "Mandalay"; VNum 9];
         [day 2024 1 20; VStr "Food";   VNum 4; VNum 30; VStr "Ewallet"; VStr "Yangon";   VNum 8];
         [day 2024 2 2;  VStr "Health"; VNum 3; VNum 5;  VStr "Cash";    VStr "Yangon";   VNum 6];
         [day 2024 2 14; VStr "Sports"; VNum 5; VNum 15; VStr "Ewallet"; VStr "Mandalay"; VNum 5] ].

Definition sales_df : DataFrame :=
  mkDF [("Date", DtDatetime); ("Product line", DtObject); ("Quantity", DtInt64);
        ("Total", DtInt64); ("Payment", DtObject); ("City", DtObject);
        ("Rating", DtInt64)]
       (wb_rows sales_sheet).

Definition yangon_in_january : FilterOptions :=
  [("City", FList [VStr "Yangon"]); ("Date", FRange (mkDate 2024 1 1) (mkDate 2024 1 31))].

(** A sheet with one text column of [n] distinct cells, "c0", "c1", ... *)
Definition city_sheet (n : nat) : Workbook :=
  mkWb ["City"] (map (fun k => [VStr ("c" ++ string_of_Z (Z.of_nat k))]) (seq 0 n)).

(** A sheet with six text columns of one row. *)
Definition six_text_columns : Workbook :=
  mkWb ["A"; "B"; "C"; "D"; "E"; "F"]
       [ [VStr "a"; VStr "b"; VStr "c"; VStr "d"; VStr "e"; VStr "f"] ].

(** Eleven products sold once each, listed from K down to A. *)
Definition tied_products : DataFrame :=
  mkDF [("Product", DtObject); ("Quantity", DtInt64)]
       (map (fun p => [VStr p; VNum 1])
            ["K"; "J"; "I"; "H"; "G"; "F"; "E"; "D"; "C"; "B"; "A"]).

(** A sheet with one dated sale, and a frame without a sales column. *)
Definition dated_sale : Workbook :=
  mkWb ["Date"; "Total"] [ [day 2024 1 5; VNum 10] ].

Definition visits_sheet : Workbook :=
  mkWb ["Date"; "City"; "Quantity"]
       [ [day 2024 1 5; VStr "Yangon"; VNum 2];
         [day 2024 2 2; VStr "Mandalay"; VNum 3] ].

Definition visits_df : DataFrame :=
  mkDF [("Date", DtDatetime); ("City", DtObject); ("Quantity", DtInt64)]
       (wb_rows visits_sheet).

(** A Streamlit that gives each chart an identity made from its figure, on
    the pandas of the examples: a figure drawn before in the run is
    refused. *)
Definition unique_element_ids (drawn : list Figure) (fig : Figure) : result unit :=
  if existsb (figure_eqb fig) drawn then Raise StreamlitDuplicateElementId else Ok tt.

Definition example_pandas_unique_ids : PandasOps := {|
  infer_dtype := @infer_dtype example_pandas;
  datetime_of_string := @datetime_of_string example_pandas;
  datetime_of_number := @datetime_of_number example_pandas;
  datetime_of_float := @datetime_of_float example_pandas;
  object_sum := @object_sum example_pandas;
  float_sum := @float_sum example_pandas;
  group_float_sum := @group_float_sum example_pandas;
  series_mean := @series_mean example_pandas;
  csv_timestamp := @csv_timestamp example_pandas;
  csv_float := @csv_float example_pandas;
  plotly_chart := unique_element_ids
|}.

(** A sheet with a sale at ten in the morning of the last day of January,
    after one on the first day, and the filter of the whole of January. *)
Definition ten_o_clock : Z := 36000000000000.

Definition late_sale : list Value :=
  [VDate (mkTs (mkDate 2024 1 31) ten_o_clock); VNum 20].

Definition january_sheet : Workbook :=
  mkWb ["Date"; "Total"] [ [day 2024 1 1; VNum 10]; late_sale ].

Definition january_sales : DataFrame :=
  mkDF [("Date", DtDatetime); ("Total", DtInt64)] (wb_rows january_sheet).

Definition whole_january : FilterOptions :=
  [("Date", FRange (mkDate 2024 1 1) (mkDate 2024 1 31))].

(** A frame whose column named as a date holds text, one whose quantities
    are text, and one with two int64 quantities of 2^62 for one product. *)
Definition text_dates : DataFrame :=
  mkDF [("Update", DtObject); ("Total", DtInt64)] [ [VStr "pending"; VNum 10] ].

Definition text_quantities : DataFrame :=
  mkDF [("Product", DtObject); ("Quantity", DtObject)] [ [VStr "A"; VStr "two"] ].

Definition large_quantities : DataFrame :=
  mkDF [("Product", DtObject); ("Quantity", DtInt64)]
       [ [VStr "A"; VNum (2 ^ 62)]; [VStr "A"; VNum (2 ^ 62)]; [VStr "B"; VNum 1] ].

(** A sheet of sales with a whole price, a price of 20.25 and a missing
    price, and the frame read from it: the column is a float64 column. *)
Definition priced_sheet : Workbook :=
  mkWb ["Product"; "Total"]
       [ [VStr "Food"; VNum 10];
         [VStr "Sports"; VFloat (Finite (81 # 4))];
         [VStr "Food"; VNull] ].

Definition priced_sales : DataFrame :=
  mkDF [("Product", DtObject); ("Total", DtFloat64)]
       [ [VStr "Food"; VFloat (Finite (10 # 1))];
         [VStr "Sports"; VFloat (Finite (81 # 4))];
         [VStr "Food"; VNull] ].

(* ================================================================== *)
(** ** Vocabulary of the further statements *)

(** The lower-cased name of a column holds the keyword. *)
Definition has_keyword (k c : string) : Prop :=
  exists a b, lower c = (a ++ k ++ b)%string.

(** The role lists of lines 136-141, each with its test on a name. *)
Definition role_table : list ((string -> bool) * (DataFrame -> list string)) :=
  [ (is_sales, sales_cols); (is_qty, qty_cols); (is_city, city_cols);
    (is_rating, rating_cols); (is_category, category_cols);
    (is_payment, payment_cols) ].

(** The number a cell adds to a sum, the sum of the values of a table, and
    the number of cells equal to a value. *)
Definition cell_number (v : Value) : Z :=
  match v with VNum z => z | _ => 0 end.

Definition points_total {K} (l : list (K * Value)) : Z := zsum (numbers (map snd l)).

Definition occurrences (v : Value) (l : list Value) : Z :=
  Z.of_nat (List.length (filter (value_eqb v) l)).

(** The sum of a numeric column without cells: 0 for an int64 column, the
    library's sum of no floats for a float64 column. *)
Definition empty_total {pandas : PandasOps} (d : Dtype) : Value :=
  match d with
  | DtFloat64 => float_value (float_sum [])
  | _ => VNum 0
  end.

(** A user who leaves the widgets as they are drawn: every option of a
    multiselect stays selected, and the date range stays at the dates of
    its two defaults. *)
Definition leaves_selection (ui : Widgets) : Prop :=
  forall label options default, multiselect ui label options default = default.

Definition leaves_dates (ui : Widgets) : Prop :=
  forall label a b, date_input ui label (Some a, Some b) = Ok [ts_date a; ts_date b].

(** A user whose date widget gives no complete range. *)
Definition no_date_range (ui : Widgets) : Prop :=
  forall label default start stop, date_input ui label default <> Ok [start; stop].

Definition picks_one_date : Widgets := {|
  multiselect _ _ default := default;
  date_input _ default :=
    match default with
    | (Some a, _) => Ok [ts_date a]
    | _ => Raise ValueError
    end
|}.

(** The pandas of the examples with a mean: the mean of the numbers of the
    cells, rounded down to a whole number. *)
Definition whole_mean_pandas : PandasOps := {|
  infer_dtype := @infer_dtype example_pandas;
  datetime_of_string := @datetime_of_string example_pandas;
  datetime_of_number := @datetime_of_number example_pandas;
  datetime_of_float := @datetime_of_float example_pandas;
  object_sum := @object_sum example_pandas;
  float_sum := @float_sum example_pandas;
  group_float_sum := @group_float_sum example_pandas;
  series_mean _ l := Ok (VNum (zsum (numbers l) / Z.of_nat (List.length l)));
  csv_timestamp := @csv_timestamp example_pandas;
  csv_float := @csv_float example_pandas;
  plotly_chart := @plotly_chart example_pandas
|}.

(** The same with a Streamlit that refuses a figure drawn before. *)
Definition whole_mean_unique_ids : PandasOps := {|
  infer_dtype := @infer_dtype example_pandas;
  datetime_of_string := @datetime_of_string example_pandas;
  datetime_of_number := @datetime_of_number example_pandas;
  datetime_of_float := @datetime_of_float example_pandas;
  object_sum := @object_sum example_pandas;
  float_sum := @float_sum example_pandas;
  group_float_sum := @group_float_sum example_pandas;
  series_mean := @series_mean whole_mean_pandas;
  csv_timestamp := @csv_timestamp example_pandas;
  csv_float := @csv_float example_pandas;
  plotly_chart := unique_element_ids
|}.

(** A Streamlit that refuses a figure drawn before in the run, and one
    that draws a figure not drawn before. *)
Definition refuses_repeats (pandas : PandasOps) : Prop :=
  forall drawn fig, In fig drawn -> plotly_chart drawn fig = Raise StreamlitDuplicateElementId.

Definition draws_new_figures (pandas : PandasOps) : Prop :=
  forall drawn fig, ~ In fig drawn -> plotly_chart drawn fig = Ok tt.

(* ================================================================== *)
(** * Properties *)

(** ** Cells and lists *)

Lemma lex_eq c1 c2 : lex c1 c2 = Eq <-> c1 = Eq /\ c2 = Eq.
Proof. destruct c1, c2; simpl; intuition congruence. Qed.

Lemma ts_eqb_eq a b : ts_eqb a b = true <-> a = b.
Proof.
  unfold ts_eqb. destruct (ts_compare a b) eqn:E.
  - split; [intros _|reflexivity].
    unfold ts_compare, date_compare in E.
    apply lex_eq in E as [E1 E4]. apply lex_eq in E1 as [E1 E2].
    apply lex_eq in E2 as [E2 E3].
    apply Z.compare_eq in E1, E2, E3, E4.
    destruct a as [[? ? ?] ?], b as [[? ? ?] ?]; simpl in *. congruence.
  - split; [discriminate|]. intros ->.
    unfold ts_compare, date_compare in E. rewrite !Z.compare_refl in E. discriminate.
  - split; [discriminate|]. intros ->.
    unfold ts_compare, date_compare in E. rewrite !Z.compare_refl in E. discriminate.
Qed.

Lemma float_eqb_eq x y : float_eqb x y = true <-> x = y.
Proof.
  destruct x as [[n d]|a], y as [[n' d']|b]; simpl;
    try (split; [discriminate|congruence]).
  - rewrite andb_true_iff, Z.eqb_eq, Pos.eqb_eq. split; [intros []|intros [=]]; subst; auto.
  - rewrite Bool.eqb_true_iff. split; congruence.
Qed.

Lemma value_eqb_eq a b : value_eqb a b = true <-> a = b.
Proof.
  destruct a, b; simpl; try (split; [discriminate|congruence]).
  - rewrite String.eqb_eq. split; congruence.
  - rewrite Z.eqb_eq. split; congruence.
  - rewrite float_eqb_eq. split; congruence.
  - rewrite ts_eqb_eq. split; congruence.
  - rewrite Z.eqb_eq. split; congruence.
  - split; reflexivity.
Qed.

Lemma value_eqb_refl a : value_eqb a a = true.
Proof. now apply value_eqb_eq. Qed.

Lemma select_map {A} (f : A -> bool) (l : list A) : select l (map f l) = filter f l.
Proof. induction l as [|a l IH]; simpl; [reflexivity|]. rewrite IH. reflexivity. Qed.

Lemma filter_filter {A} (f g : A -> bool) (l : list A) :
  filter g (filter f l) = filter (fun a => (f a && g a)%bool) l.
Proof.
  induction l as [|a l IH]; simpl; [reflexivity|].
  destruct (f a); simpl; rewrite IH; reflexivity.
Qed.

Lemma filter_all {A} (f : A -> bool) (l : list A) :
  Forall (fun a => f a = true) l -> filter f l = l.
Proof. induction 1 as [|a l Ha _ IH]; simpl; [reflexivity|]. now rewrite Ha, IH. Qed.

Lemma filter_none {A} (f : A -> bool) (l : list A) :
  (forall a, In a l -> f a = false) -> filter f l = [].
Proof.
  induction l as [|a l IH]; simpl; intros H; [reflexivity|].
  rewrite (H a (or_introl eq_refl)). apply IH. intros; apply H; now right.
Qed.

(** Distinct values. *)
Lemma unique_In v l : In v (unique l) <-> In v l.
Proof.
  induction l as [|a l IH]; simpl; [tauto|].
  rewrite filter_In, IH. split.
  - intros [H|[H _]]; auto.
  - intros [H|H]; [now left|].
    destruct (value_eqb a v) eqn:E.
    + apply value_eqb_eq in E. now left.
    + right. split; [exact H|reflexivity].
Qed.

Lemma unique_NoDup l : NoDup (unique l).
Proof.
  induction l as [|a l IH]; simpl; constructor.
  - rewrite filter_In. intros [_ H]. now rewrite value_eqb_refl in H.
  - now apply NoDup_filter.
Qed.

Lemma dropna_In v l : In v (dropna l) <-> In v l /\ v <> VNull.
Proof.
  unfold dropna. rewrite filter_In. destruct v; simpl; intuition congruence.
Qed.

(** [contains] is the substring test. *)
Lemma prefix_app p s : prefix p s = true <-> exists b, s = (p ++ b)%string.
Proof.
  revert p. induction s as [|c s IH]; intros [|a p]; simpl.
  - split; [intros _; now exists EmptyString|reflexivity].
  - split; [discriminate|intros [b H]; discriminate].
  - split; [intros _; now exists (String c s)|reflexivity].
  - destruct (ascii_dec a c) as [->|N].
    + rewrite IH. split; intros [b H]; exists b; congruence.
    + split; [discriminate|]. intros [b H]. congruence.
Qed.

Lemma contains_spec sub s :
  contains sub s = true <-> exists a b, s = (a ++ sub ++ b)%string.
Proof.
  induction s as [|c s IH].
  - change (contains sub EmptyString) with (prefix sub EmptyString || false)%bool.
    rewrite orb_false_r, prefix_app. split.
    + intros [b H]. now exists EmptyString, b.
    + intros (a & b & H). destruct a; [now exists b|discriminate].
  - change (contains sub (String c s))
      with (prefix sub (String c s) || contains sub s)%bool.
    rewrite orb_true_iff, prefix_app, IH. split.
    + intros [[b H]|(a & b & H)].
      * now exists EmptyString, b.
      * exists (String c a), b. simpl. now rewrite H.
    + intros (a & b & H). destruct a as [|c' a]; simpl in H.
      * left. now exists b.
      * right. exists a, b. congruence.
Qed.

(** ** Frames *)

Lemma position_In c sch :
  In c (map fst sch) -> exists i d, position c sch = Some (i, d).
Proof.
  induction sch as [|[n d] t IH]; simpl; [tauto|].
  intros [->|H].
  - rewrite String.eqb_refl. eauto.
  - destruct (String.eqb n c); [eauto|].
    destruct (IH H) as (i & d' & ->). eauto.
Qed.

Lemma position_Some c sch i d :
  position c sch = Some (i, d) -> In c (map fst sch).
Proof.
  revert i d. induction sch as [|[n d0] t IH]; simpl; [discriminate|].
  intros i d. destruct (String.eqb_spec n c) as [->|_]; [now left|].
  destruct (position c t) as [[j d']|] eqn:E; [|discriminate].
  intros _. right. eapply IH. reflexivity.
Qed.

Lemma getitem_Ok df c s :
  getitem df c = Ok s ->
  exists i d, position c (schema df) = Some (i, d)
              /\ s = mkSeries d (map (cell i) (rows df)).
Proof.
  unfold getitem. destruct (position c (schema df)) as [[i d]|]; [|discriminate].
  intros [= <-]. eauto.
Qed.

Lemma getitem_In df c :
  In c (columns df) -> exists s, getitem df c = Ok s.
Proof.
  intros H. apply position_In in H as (i & d & E).
  unfold getitem. rewrite E. eauto.
Qed.

Lemma loc_mask_id df mask :
  select (rows df) mask = rows df -> loc_mask df mask = df.
Proof. unfold loc_mask. intros ->. now destruct df. Qed.

(** ** The probing loop *)

Lemma foldM_probe preview_df cols p0 :
  Forall (fun c => In c (columns preview_df)) cols ->
  foldM (probe_step preview_df) cols p0 =
  Ok (mkProbe (categorical_cols p0 ++ filter (of_kind preview_df categorical) cols)
              (date_cols p0 ++ filter (of_kind preview_df date) cols)
              (numeric_cols p0 ++ filter (of_kind preview_df numeric) cols)).
Proof.
  intros H. revert p0. induction H as [|c cols Hc _ IH]; intros p0; simpl.
  - rewrite !app_nil_r. now destruct p0.
  - destruct (getitem_In _ _ Hc) as [s Hs].
    unfold probe_step at 1, of_kind, probe_kind. rewrite Hs. simpl.
    destruct (is_datetime64_any_dtype s); [|destruct (is_numeric_dtype s);
      [|destruct (Nat.ltb (nunique s) 20)]];
      simpl; rewrite IH; simpl; rewrite <- ?app_assoc; reflexivity.
Qed.

Lemma schema_prober_Ok preview_df :
  schema_prober preview_df =
  Ok (mkProbe (filter (of_kind preview_df categorical) (columns preview_df))
              (filter (of_kind preview_df date) (columns preview_df))
              (filter (of_kind preview_df numeric) (columns preview_df))).
Proof.
  unfold schema_prober. rewrite foldM_probe; [reflexivity|].
  apply Forall_forall. auto.
Qed.

Lemma mem_filter f c l : mem c (filter f l) = (mem c l && f c)%bool.
Proof.
  unfold mem. induction l as [|a l IH]; simpl; [reflexivity|].
  destruct (f a) eqn:Fa; simpl; rewrite IH.
  - destruct (String.eqb_spec c a) as [->|]; simpl; [now rewrite Fa|reflexivity].
  - destruct (String.eqb_spec c a) as [->|]; simpl; [now rewrite Fa, andb_false_r|reflexivity].
Qed.

Lemma mem_In c l : mem c l = true <-> In c l.
Proof.
  unfold mem. rewrite existsb_exists. split.
  - intros (x & Hx & E). apply String.eqb_eq in E. now subst.
  - intros H. exists c. split; [assumption|apply String.eqb_refl].
Qed.

Lemma mem_columns df c s : getitem df c = Ok s -> mem c (columns df) = true.
Proof.
  intros H. apply getitem_Ok in H as (i & d & E & _).
  apply mem_In. eapply position_Some, E.
Qed.

(** The kind read off the three lists is the branch the loop took. *)
Lemma kind_of_probe preview_df p c :
  schema_prober preview_df = Ok p -> kind_of p c = probe_kind preview_df c.
Proof.
  rewrite schema_prober_Ok. intros [= <-]. unfold kind_of. simpl.
  rewrite !mem_filter. unfold of_kind.
  destruct (mem c (columns preview_df)) eqn:M; simpl.
  - destruct (probe_kind preview_df c); reflexivity.
  - unfold probe_kind. destruct (getitem preview_df c) as [s|e] eqn:G; [|reflexivity].
    apply mem_columns in G. congruence.
Qed.

Lemma nunique_no_rows df c s : rows df = [] -> getitem df c = Ok s -> nunique s = 0%nat.
Proof.
  intros E H. apply getitem_Ok in H as (i & d & _ & ->).
  rewrite E. reflexivity.
Qed.

(** C3, as the script has it: on a sample without rows the probing loop
    ends without an exception and every column takes the branch of its
    dtype, date for a datetime column, numeric for a numeric column and
    categorical for any other column, which has 0 < 20 distinct values.
    No column of the sample is left unclassified. *)
Theorem empty_sample_kinds (preview_df : DataFrame) :
  rows preview_df = [] ->
  exists p,
    schema_prober preview_df = Ok p
    /\ (forall c s, getitem preview_df c = Ok s ->
          kind_of p c = if is_datetime64_any_dtype s then date
                        else if is_numeric_dtype s then numeric
                        else categorical)
    /\ (forall c, In c (columns preview_df) -> kind_of p c <> unclassified).
Proof.
  intros E. eexists. split; [apply schema_prober_Ok|].
  assert (K : forall c s, getitem preview_df c = Ok s ->
            kind_of (mkProbe (filter (of_kind preview_df categorical) (columns preview_df))
                             (filter (of_kind preview_df date) (columns preview_df))
                             (filter (of_kind preview_df numeric) (columns preview_df))) c
            = if is_datetime64_any_dtype s then date
              else if is_numeric_dtype s then numeric else categorical).
  { intros c s G. rewrite (kind_of_probe preview_df) by apply schema_prober_Ok.
    unfold probe_kind. rewrite G, (nunique_no_rows _ _ _ E G). reflexivity. }
  split; [exact K|].
  intros c Hc. destruct (getitem_In _ _ Hc) as [s G]. rewrite (K c s G).
  destruct (is_datetime64_any_dtype s), (is_numeric_dtype s); discriminate.
Qed.

Lemma empty_sample_kinds_witness :
  exists p,
    schema_prober (mkDF [("City", DtObject); ("Total", DtInt64)] []) = Ok p
    /\ (forall c s, getitem (mkDF [("City", DtObject); ("Total", DtInt64)] []) c = Ok s ->
          kind_of p c = if is_datetime64_any_dtype s then date
                        else if is_numeric_dtype s then numeric
                        else categorical)
    /\ (forall c, In c (columns (mkDF [("City", DtObject); ("Total", DtInt64)] [])) ->
          kind_of p c <> unclassified).
Proof.
  apply (empty_sample_kinds (mkDF [("City", DtObject); ("Total", DtInt64)] [])).
  reflexivity.
Defined.

(** C3 as worded fails: the one column of a sample without rows, of
    object dtype as a sheet with only a header line gives it, is put in
    [categorical_cols]. *)
Lemma empty_sample_not_unclassified :
  ~ (forall preview_df p c,
       rows preview_df = [] ->
       schema_prober preview_df = Ok p ->
       In c (columns preview_df) ->
       kind_of p c = unclassified).
Proof.
  intros H.
  specialize (H (mkDF [("City", DtObject)] []) (mkProbe ["City"] [] []) "City"
                eq_refl eq_refl (or_introl eq_refl)).
  discriminate H.
Qed.

(** On such a sheet the column does become a filter, with nothing selected. *)
Example header_only_sheet_filter :
  sidebar (pandas := example_pandas) default_ui (Some (Sheet (mkWb ["City"] [])))
  = [("City", FList [])].
Proof. reflexivity. Qed.

(** The cells of a frame read from a sheet: column [i] of the frame is
    the column under the [i]-th name of the header, each cell in the dtype
    of the column. *)
Lemma position_combine c (names : list string) (dts : list Dtype) i d :
  position c (combine names dts) = Some (i, d) ->
  nth_error names i = Some c /\ nth_error dts i = Some d.
Proof.
  revert dts i d. induction names as [|n names IH]; intros [|d0 dts] i d; simpl;
    try discriminate.
  destruct (String.eqb_spec n c) as [->|_].
  - intros [= <- <-]. split; reflexivity.
  - destruct (position c (combine names dts)) as [[k dk]|] eqn:E; [|discriminate].
    intros [= <- <-]. simpl. now apply IH.
Qed.

Lemma nth_error_indexed {A} (l : list A) s i a :
  nth_error l i = Some a ->
  nth_error (combine (seq s (List.length l)) l) i = Some ((s + i)%nat, a).
Proof.
  revert s i. induction l as [|x l IH]; intros s [|i]; simpl; try discriminate.
  - intros [= <-]. now rewrite Nat.add_0_r.
  - intros H. rewrite (IH (S s) i H). do 2 f_equal. lia.
Qed.

Lemma cell_map_nth {A} (f : A -> Value) (l : list A) i a :
  nth_error l i = Some a -> cell i (map f l) = f a.
Proof.
  unfold cell. revert i. induction l as [|x l IH]; intros [|i]; simpl; try discriminate.
  - now intros [= <-].
  - apply IH.
Qed.

Lemma read_excel_series {pandas : PandasOps} wb nrows df c s :
  read_excel (Sheet wb) nrows = Ok df ->
  getitem df c = Ok s ->
  exists i,
    nth_error (wb_header wb) i = Some c
    /\ s_values s = map (fun r => astype (s_dtype s) (cell i r)) (sample_rows wb nrows).
Proof.
  intros [= <-] G. apply getitem_Ok in G as (i & d & P & ->). cbn [schema rows] in *.
  apply position_combine in P as [Pn Pd]. exists i. split; [exact Pn|].
  cbn [s_values s_dtype]. fold (sample_rows wb nrows). rewrite map_map.
  apply map_ext. intros r.
  rewrite (cell_map_nth _ _ i (i, d)); [reflexivity|].
  apply (nth_error_indexed _ 0%nat), Pd.
Qed.

Lemma astype_other d v : d <> DtFloat64 -> astype d v = v.
Proof. intros N. destruct d, v; try reflexivity. congruence. Qed.

Lemma read_excel_values {pandas : PandasOps} wb n preview_df c s :
  read_excel (Sheet wb) (Some n) = Ok preview_df ->
  getitem preview_df c = Ok s ->
  is_numeric_dtype s = false ->
  exists i, nth_error (wb_header wb) i = Some c
            /\ s_values s = map (cell i) (firstn n (wb_rows wb)).
Proof.
  intros R G N. destruct (read_excel_series _ _ _ _ _ R G) as (i & Hi & E).
  exists i. split; [exact Hi|]. rewrite E. apply map_ext. intros r.
  apply astype_other. intros D. unfold is_numeric_dtype in N. now rewrite D in N.
Qed.

(** A list without repeats that holds the non-null cells of a column has
    as many entries as the column has distinct non-null values. *)
Lemma distinct_values_length (vals cells : list Value) :
  NoDup vals ->
  (forall v, In v vals <-> In v cells /\ v <> VNull) ->
  List.length (unique (dropna cells)) = List.length vals.
Proof.
  intros ND H. apply Permutation_length, NoDup_Permutation.
  - apply unique_NoDup.
  - exact ND.
  - intros v. now rewrite unique_In, dropna_In, H.
Qed.

(** C4: a column of the 100-row sample that is neither a datetime nor a
    numeric column is categorical exactly when its cells in the first 100
    rows of the sheet hold fewer than 20 distinct non-null values, counted
    as the length of any list without repeats of those values, and is left
    unclassified otherwise: categorical with 19, unclassified with 20. *)
Theorem categorical_threshold {pandas : PandasOps}
    (wb : Workbook) (preview_df : DataFrame) (c : string) (s : Series)
    (vals : list Value) :
  read_excel (Sheet wb) (Some 100%nat) = Ok preview_df ->
  getitem preview_df c = Ok s ->
  is_datetime64_any_dtype s = false ->
  is_numeric_dtype s = false ->
  NoDup vals ->
  (forall v, In v vals <-> In v (s_values s) /\ v <> VNull) ->
  exists p i,
    schema_prober preview_df = Ok p
    /\ nth_error (wb_header wb) i = Some c
    /\ s_values s = map (cell i) (firstn 100 (wb_rows wb))
    /\ (In c (categorical_cols p) <-> (List.length vals < 20)%nat)
    /\ (kind_of p c = categorical <-> (List.length vals < 20)%nat)
    /\ (kind_of p c = unclassified <-> (20 <= List.length vals)%nat)
    /\ (List.length vals = 19%nat -> kind_of p c = categorical)
    /\ (List.length vals = 20%nat -> kind_of p c = unclassified).
Proof.
  intros R G Hd Hn ND Hv.
  destruct (read_excel_values _ _ _ _ _ R G Hn) as (i & Hh & Hi).
  eexists. exists i. split; [apply schema_prober_Ok|]. split; [exact Hh|].
  split; [exact Hi|].
  assert (K : probe_kind preview_df c
              = if Nat.ltb (List.length vals) 20 then categorical else unclassified).
  { unfold probe_kind, nunique. now rewrite G, Hd, Hn, (distinct_values_length vals). }
  rewrite (kind_of_probe preview_df) by apply schema_prober_Ok.
  simpl categorical_cols. rewrite <- mem_In, mem_filter, (mem_columns _ _ _ G).
  unfold of_kind. rewrite K.
  destruct (Nat.ltb_spec (List.length vals) 20) as [L|L]; simpl;
    repeat split; intros; try assumption; try reflexivity; try discriminate; lia.
Qed.

Ltac distinct_cells :=
  repeat (constructor; [simpl; intuition discriminate|]); constructor.

Lemma categorical_threshold_witness :
  (exists p,
     schema_prober (mkDF [("City", DtObject)] (wb_rows (city_sheet 19))) = Ok p
     /\ kind_of p "City" = categorical)
  /\ (exists p,
        schema_prober (mkDF [("City", DtObject)] (wb_rows (city_sheet 20))) = Ok p
        /\ kind_of p "City" = unclassified).
Proof.
  split.
  - destruct (categorical_threshold (pandas := example_pandas) (city_sheet 19)
                (mkDF [("City", DtObject)] (wb_rows (city_sheet 19))) "City"
                (mkSeries DtObject (map (cell 0) (wb_rows (city_sheet 19))))
                ltac:(let l := eval vm_compute in (map (cell 0) (wb_rows (city_sheet 19))) in exact l)
                eq_refl eq_refl eq_refl eq_refl)
      as (p & i & Hp & _ & _ & _ & _ & _ & H19 & _).
    + distinct_cells.
    + intros v. vm_compute. split; [intros H; split; [exact H|]|tauto].
      intros ->. repeat (destruct H as [H|H]; [discriminate H|]). exact H.
    + exists p. split; [exact Hp|]. apply H19. reflexivity.
  - destruct (categorical_threshold (pandas := example_pandas) (city_sheet 20)
                (mkDF [("City", DtObject)] (wb_rows (city_sheet 20))) "City"
                (mkSeries DtObject (map (cell 0) (wb_rows (city_sheet 20))))
                ltac:(let l := eval vm_compute in (map (cell 0) (wb_rows (city_sheet 20))) in exact l)
                eq_refl eq_refl eq_refl eq_refl)
      as (p & i & Hp & _ & _ & _ & _ & _ & _ & H20).
    + distinct_cells.
    + intros v. vm_compute. split; [intros H; split; [exact H|]|tauto].
      intros ->. repeat (destruct H as [H|H]; [discriminate H|]). exact H.
    + exists p. split; [exact Hp|]. apply H20. reflexivity.
Defined.

Example nineteen_distinct_values :
  sidebar (pandas := example_pandas) default_ui (Some (Sheet (city_sheet 19)))
  = [("City", FList (map (cell 0) (wb_rows (city_sheet 19))))].
Proof. vm_compute. reflexivity. Qed.

Example twenty_distinct_values :
  sidebar (pandas := example_pandas) default_ui (Some (Sheet (city_sheet 20))) = [].
Proof. vm_compute. reflexivity. Qed.

(** ** The filter loop *)

Section FilterLoop.

Context {pandas : PandasOps}.

Lemma date_mask_rows i start stop (rs : list (list Value)) ts :
  mapM to_datetime_cell (map (cell i) rs) = Ok ts ->
  select rs (map (date_mask start stop) ts)
  = filter (fun r => match to_datetime_cell (cell i r) with
                     | Ok t => date_mask start stop t
                     | Raise _ => false
                     end) rs.
Proof.
  revert ts. induction rs as [|r rs IH]; intros ts; simpl.
  - intros [= <-]. reflexivity.
  - destruct (to_datetime_cell (cell i r)) as [t|e]; simpl; [|discriminate].
    destruct (mapM to_datetime_cell (map (cell i) rs)) as [ts'|e]; simpl; [|discriminate].
    intros [= <-]. simpl. rewrite (IH ts' eq_refl). reflexivity.
Qed.

Lemma to_datetime_total i (rs : list (list Value)) :
  forallb (fun r => converts (cell i r)) rs = true ->
  exists ts, mapM to_datetime_cell (map (cell i) rs) = Ok ts.
Proof.
  induction rs as [|r rs IH]; simpl; [eauto|].
  intros H. apply andb_prop in H as [H1 H2]. unfold converts in H1.
  destruct (to_datetime_cell (cell i r)) as [t|e]; [|discriminate].
  destruct (IH H2) as [ts ->]. simpl. eauto.
Qed.

Lemma to_datetime_raises i (rs : list (list Value)) :
  forallb (fun r => converts (cell i r)) rs = false ->
  exists e, mapM to_datetime_cell (map (cell i) rs) = Raise e.
Proof.
  induction rs as [|r rs IH]; simpl; [discriminate|].
  unfold converts at 1.
  destruct (to_datetime_cell (cell i r)) as [t|e]; simpl; [|eauto].
  intros H. destruct (IH H) as [e ->]. simpl. eauto.
Qed.

(** One pass of the loop keeps the schema and keeps the rows that pass
    the filter of the entry, in their order. *)
Lemma filter_step_Ok df item V :
  filter_step df item = Ok V ->
  schema V = schema df
  /\ rows V = filter (row_passes (schema df) item) (rows df).
Proof.
  destruct item as [col [vals|start stop]]; unfold filter_step, row_passes; simpl.
  - destruct (getitem df col) as [s|e] eqn:G; simpl; [|discriminate].
    apply getitem_Ok in G as (i & d & -> & ->). intros [= <-]. split; [reflexivity|].
    unfold isin. simpl. rewrite map_map. apply select_map.
  - destruct (getitem df col) as [s|e] eqn:G; simpl; [|discriminate].
    apply getitem_Ok in G as (i & d & -> & ->). unfold to_datetime. simpl.
    destruct (mapM to_datetime_cell (map (cell i) (rows df))) as [ts|e] eqn:T;
      simpl; [|discriminate].
    intros [= <-]. split; [reflexivity|]. simpl. now apply date_mask_rows.
Qed.

Lemma filter_step_total df item :
  filter_applicable df item = true -> exists V, filter_step df item = Ok V.
Proof.
  destruct item as [col [vals|start stop]]; unfold filter_applicable, filter_step, getitem;
    simpl; destruct (position col (schema df)) as [[i d]|]; try discriminate; simpl.
  - eauto.
  - intros H. unfold to_datetime. simpl.
    destruct (to_datetime_total i (rows df) H) as [ts ->]. simpl. eauto.
Qed.

Lemma filter_step_applicable df item :
  (exists V, filter_step df item = Ok V) -> position (fst item) (schema df) <> None.
Proof.
  intros [V H]. destruct item as [col [vals|start stop]]; unfold filter_step, getitem in H;
    simpl in *; destruct (position col (schema df)) as [[i d]|]; simpl in *; congruence.
Qed.

Lemma apply_filters_cons df item F :
  apply_filters df (item :: F) = (V <- filter_step df item ;; apply_filters V F).
Proof. reflexivity. Qed.

(** The loop keeps the schema and keeps exactly the rows that pass every
    filter, in their order. *)
Lemma apply_filters_Ok F : forall df V,
  apply_filters df F = Ok V ->
  schema V = schema df
  /\ rows V = filter (passes_all (schema df) F) (rows df).
Proof.
  induction F as [|item F IH]; intros df V.
  - intros [= <-]. split; [reflexivity|]. symmetry. apply filter_all.
    apply Forall_forall. reflexivity.
  - rewrite apply_filters_cons.
    destruct (filter_step df item) as [V1|e] eqn:S1; simpl; [|discriminate].
    intros H. apply filter_step_Ok in S1 as [E1 R1].
    apply IH in H as [E R]. split; [congruence|].
    rewrite R, R1, E1, filter_filter. reflexivity.
Qed.

Lemma apply_filters_columns F : forall df V,
  apply_filters df F = Ok V ->
  Forall (fun item => position (fst item) (schema df) <> None) F.
Proof.
  induction F as [|item F IH]; intros df V; [constructor|].
  rewrite apply_filters_cons.
  destruct (filter_step df item) as [V1|e] eqn:S1; simpl; [|discriminate].
  intros H. constructor.
  - apply filter_step_applicable. eauto.
  - apply filter_step_Ok in S1 as [E1 _]. rewrite <- E1. eapply IH, H.
Qed.

Lemma filter_applicable_sub df df' item :
  schema df' = schema df ->
  (forall r, In r (rows df') -> In r (rows df)) ->
  filter_applicable df item = true -> filter_applicable df' item = true.
Proof.
  unfold filter_applicable. intros -> Sub.
  destruct (position (fst item) (schema df)) as [[i d]|]; [|discriminate].
  destruct (snd item); [reflexivity|].
  rewrite !forallb_forall. auto.
Qed.

Lemma apply_filters_total F : forall df,
  forallb (filter_applicable df) F = true -> exists V, apply_filters df F = Ok V.
Proof.
  induction F as [|item F IH]; intros df; simpl.
  - intros _. exists df. reflexivity.
  - intros H. apply andb_prop in H as [H1 H2].
    destruct (filter_step_total _ _ H1) as [V1 S1].
    rewrite apply_filters_cons, S1. simpl.
    apply filter_step_Ok in S1 as [E1 R1]. apply IH.
    rewrite forallb_forall in *. intros it Hit.
    apply (filter_applicable_sub df); auto.
    intros r. rewrite R1, filter_In. tauto.
Qed.

(** Rows that pass every filter go through the loop unchanged. *)
Lemma apply_filters_fixed F : forall V,
  Forall (fun item => position (fst item) (schema V) <> None) F ->
  Forall (fun r => passes_all (schema V) F r = true) (rows V) ->
  apply_filters V F = Ok V.
Proof.
  induction F as [|item F IH]; intros V HC HP; [reflexivity|].
  inversion HC as [|? ? Hc HC']; subst.
  assert (P1 : Forall (fun r => row_passes (schema V) item r = true) (rows V)).
  { eapply Forall_impl; [|exact HP]. simpl. intros r H.
    now apply andb_prop in H as [H _]. }
  assert (A : filter_applicable V item = true).
  { unfold filter_applicable.
    destruct (position (fst item) (schema V)) as [[i d]|] eqn:Ep; [|congruence].
    destruct (snd item) eqn:Ei; [reflexivity|].
    apply forallb_forall. intros r Hr.
    rewrite Forall_forall in P1. specialize (P1 r Hr).
    unfold row_passes in P1. rewrite Ep, Ei in P1. unfold converts.
    destruct (to_datetime_cell (cell i r)); [reflexivity|discriminate]. }
  destruct (filter_step_total _ _ A) as [V1 S1].
  rewrite apply_filters_cons, S1. simpl.
  apply filter_step_Ok in S1 as [E1 R1].
  rewrite (filter_all _ _ P1) in R1.
  assert (V1 = V) as -> by (destruct V1, V; simpl in *; congruence).
  apply IH; [assumption|].
  eapply Forall_impl; [|exact HP]. simpl. intros r H.
  now apply andb_prop in H as [_ H].
Qed.

End FilterLoop.

Example role_names :
  is_sales "TOTAL" = true /\ is_sales "Gross Sales" = true /\ is_sales "Unit price" = false
  /\ sales_cols sales_df = ["Total"] /\ qty_cols sales_df = ["Quantity"]
  /\ category_cols sales_df = ["Product line"].
Proof. repeat split. Qed.

Example read_sales_sheet :
  read_excel (pandas := example_pandas) (Sheet sales_sheet) None = Ok sales_df.
Proof. reflexivity. Qed.

(** A column of numbers with a missing cell is read as a float64 column,
    its whole numbers as floats, and written with a point. *)
Example read_priced_sheet :
  read_excel (pandas := example_pandas) (Sheet priced_sheet) None = Ok priced_sales
  /\ to_csv (pandas := example_pandas) priced_sales
     = ("Product,Total" ++ one lf ++ "Food,10.0" ++ one lf ++ "Sports,20.25" ++ one lf
        ++ "Food," ++ one lf)%string.
Proof. split; reflexivity. Qed.

Example sales_sheet_filters :
  sidebar (pandas := example_pandas) default_ui (Some (Sheet sales_sheet))
  = [("Product line", FList [VStr "Food"; VStr "Sports"; VStr "Health"]);
     ("Payment", FList [VStr "Cash"; VStr "Ewallet"]);
     ("City", FList [VStr "Yangon"; VStr "Mandalay"]);
     ("Date", FRange (mkDate 2024 1 5) (mkDate 2024 2 14))].
Proof. reflexivity. Qed.

(** ** The filter engine *)

(** The loop against its own tests: when the filter loop ends, the
    filtered frame has the columns of the dataset and its rows are exactly
    the rows of the dataset that pass the test that the loop makes for every
    column, in the order of the dataset.  The loop ends whenever every
    filter column is a column of the dataset and the cells of a date filter
    column convert to dates. *)
Theorem filter_engine_exact {pandas : PandasOps} (df : DataFrame) (F : FilterOptions) :
  (forall V, apply_filters df F = Ok V ->
     schema V = schema df
     /\ rows V = filter (passes_all (schema df) F) (rows df)
     /\ (forall r, In r (rows V) <->
                   In r (rows df)
                   /\ forall item, In item F -> row_passes (schema df) item r = true))
  /\ (forallb (filter_applicable df) F = true -> exists V, apply_filters df F = Ok V).
Proof.
  split; [|apply apply_filters_total].
  intros V H. apply apply_filters_Ok in H as [E R].
  repeat split; try assumption.
  - rewrite R in H. now apply filter_In in H.
  - rewrite R in H. apply filter_In in H as [_ H].
    unfold passes_all in H. rewrite forallb_forall in H. exact H.
  - intros [H1 H2]. rewrite R. apply filter_In. split; [assumption|].
    unfold passes_all. apply forallb_forall. exact H2.
Qed.

Lemma filter_engine_exact_witness :
  exists V,
    apply_filters (pandas := example_pandas) sales_df yangon_in_january = Ok V
    /\ rows V = [ [day 2024 1 5;  VStr "Food"; VNum 2; VNum 10; VStr "Cash";    VStr "Yangon"; VNum 7];
                  [day 2024 1 20; VStr "Food"; VNum 4; VNum 30; VStr "Ewallet"; VStr "Yangon"; VNum 8] ].
Proof.
  destruct (filter_engine_exact (pandas := example_pandas) sales_df yangon_in_january)
    as [H1 H2].
  destruct (H2 eq_refl) as [V HV]. exists V. split; [exact HV|].
  destruct (H1 V HV) as (_ & R & _). rewrite R. reflexivity.
Defined.

(** The test that the loop makes for a date range is the closed interval
    of the specification on every timestamp that is not after midnight on
    the last day of the range. *)
Lemma date_mask_interval start stop t :
  0 <= ts_nanos t ->
  date_compare (ts_date t) stop <> Eq \/ ts_nanos t = 0 ->
  date_mask start stop (Some t) = in_closed_interval start stop t.
Proof.
  intros N H. unfold date_mask, in_closed_interval, ts_leb, date_leb, ts_compare,
    timestamp_of_date. cbn [ts_date ts_nanos].
  destruct (Z.compare_spec 0 (ts_nanos t)), (Z.compare_spec (ts_nanos t) 0);
    destruct (date_compare start (ts_date t)), (date_compare (ts_date t) stop);
    simpl; try reflexivity; try lia; destruct H; congruence || lia.
Qed.

Lemma row_passes_satisfies {pandas : PandasOps} sch item r :
  last_day_at_midnight sch item r = true ->
  row_passes sch item r = satisfies sch item r.
Proof.
  unfold last_day_at_midnight, row_passes, satisfies.
  destruct (position (fst item) sch) as [[i d]|]; [|reflexivity].
  destruct (snd item) as [vals|start stop]; [reflexivity|].
  destruct (to_datetime_cell (cell i r)) as [[t|]|e]; try reflexivity.
  intros H. apply andb_prop in H as [H1 H2]. apply Z.leb_le in H1.
  apply date_mask_interval; [exact H1|].
  destruct (date_compare (ts_date t) stop); try (left; discriminate).
  right. simpl in H2. destruct (Z.ltb_spec 0 (ts_nanos t)); [discriminate|lia].
Qed.

(** Lines 126-133: on a dataset without a timestamp after midnight on the
    last day of a date range, the loop keeps the columns and keeps exactly
    the rows that satisfy every predicate of the specification, those of
    the columns combined by AND and the date range taken as a closed
    interval of dates, in the order of the dataset. *)
Theorem filter_engine_closed_interval {pandas : PandasOps} (df V : DataFrame)
    (F : FilterOptions) :
  (forall r item, In r (rows df) -> In item F ->
     last_day_at_midnight (schema df) item r = true) ->
  apply_filters df F = Ok V ->
  schema V = schema df
  /\ rows V = filter (satisfies_all (schema df) F) (rows df).
Proof.
  intros H A. apply apply_filters_Ok in A as [E R]. split; [exact E|].
  rewrite R. apply filter_ext_in. intros r Hr. clear R E V.
  unfold passes_all, satisfies_all.
  induction F as [|item F IH]; [reflexivity|]. simpl.
  rewrite (row_passes_satisfies _ item r) by (apply H; [exact Hr|now left]).
  rewrite IH; [reflexivity|].
  intros r' it Hr' Hit. apply H; [exact Hr'|now right].
Qed.

Lemma filter_engine_closed_interval_witness :
  exists V,
    apply_filters (pandas := example_pandas) sales_df yangon_in_january = Ok V
    /\ rows V
       = filter (satisfies_all (pandas := example_pandas) (schema sales_df)
                   yangon_in_january)
                (rows sales_df).
Proof.
  eexists. split; [reflexivity|].
  apply (filter_engine_closed_interval (pandas := example_pandas) sales_df _
           yangon_in_january); [|reflexivity].
  intros r item Hr Hi. simpl in Hr, Hi.
  repeat (destruct Hr as [<-|Hr]; [repeat (destruct Hi as [<-|Hi]; [reflexivity|]);
                                   destruct Hi|]).
  destruct Hr.
Defined.

(** C1 on the script: the loop misses rows that satisfy every predicate.
    The uploaded sheet has a sale on the first of January and one on the
    31st at ten in the morning; with every widget left as it is drawn the
    date filter is the range from the first to the 31st, and the later sale,
    whose date lies in that closed interval, is not in the filtered frame:
    the loop compares timestamps, and takes the last day at midnight. *)
Lemma filter_engine_drops_last_day :
  read_excel (pandas := example_pandas) (Sheet january_sheet) None = Ok january_sales
  /\ sidebar (pandas := example_pandas) default_ui (Some (Sheet january_sheet))
     = whole_january
  /\ apply_filters (pandas := example_pandas) january_sales whole_january
     = Ok (mkDF (schema january_sales) [ [day 2024 1 1; VNum 10] ])
  /\ In late_sale (rows january_sales)
  /\ satisfies_all (pandas := example_pandas) (schema january_sales) whole_january
       late_sale = true.
Proof.
  split; [reflexivity|]. split; [reflexivity|]. split; [reflexivity|].
  split; [simpl; tauto|reflexivity].
Qed.

(** C5: a categorical filter with nothing selected keeps no row.  The
    pass of the loop for that column leaves zero rows; so does the whole
    loop when this is its only filter, and so does any loop that has it
    among its filters. *)
Theorem empty_selection_keeps_nothing {pandas : PandasOps} (df : DataFrame) (col : string) :
  In col (columns df) ->
  filter_step df (col, FList []) = Ok (mkDF (schema df) [])
  /\ apply_filters df [(col, FList [])] = Ok (mkDF (schema df) [])
  /\ (forall F V, In (col, FList []) F -> apply_filters df F = Ok V -> rows V = []).
Proof.
  intros Hc.
  assert (S1 : filter_step df (col, FList []) = Ok (mkDF (schema df) [])).
  { destruct (filter_step_total df (col, FList [])) as [V HV].
    - unfold filter_applicable. simpl.
      destruct (position_In _ _ Hc) as (i & d & ->). reflexivity.
    - rewrite HV. apply filter_step_Ok in HV as [E R].
      rewrite filter_none in R.
      + destruct V; simpl in *; congruence.
      + intros r _. unfold row_passes. simpl.
        destruct (position col (schema df)) as [[i d]|]; reflexivity. }
  split; [exact S1|]. split.
  - rewrite apply_filters_cons, S1. reflexivity.
  - intros F V HF H. apply apply_filters_Ok in H as [_ R]. rewrite R.
    apply filter_none. intros r _. unfold passes_all.
    apply not_true_is_false. intros A. rewrite forallb_forall in A.
    specialize (A _ HF). unfold row_passes in A. simpl in A.
    destruct (position col (schema df)) as [[i d]|]; discriminate.
Qed.

Lemma empty_selection_keeps_nothing_witness :
  apply_filters (pandas := example_pandas) sales_df [("City", FList [])]
  = Ok (mkDF (schema sales_df) []).
Proof.
  apply (empty_selection_keeps_nothing (pandas := example_pandas) sales_df "City").
  simpl. tauto.
Defined.

(** C9: filtering the filtered frame again with the same filters gives
    the filtered frame; when the first loop raises there is no second one. *)
Theorem filter_engine_idempotent {pandas : PandasOps} (df : DataFrame) (F : FilterOptions) :
  (V <- apply_filters df F ;; apply_filters V F) = apply_filters df F.
Proof.
  destruct (apply_filters df F) as [V|e] eqn:H; simpl; [|reflexivity].
  pose proof (apply_filters_columns _ _ _ H) as HC.
  apply apply_filters_Ok in H as [E R].
  apply apply_filters_fixed.
  - now rewrite E.
  - rewrite E, R. apply Forall_forall. intros r Hr. now apply filter_In in Hr.
Qed.

(** ** The filters of the sidebar *)

Lemma dict_set_fresh k v d : ~ In k (map fst d) -> dict_set k v d = d ++ [(k, v)].
Proof.
  induction d as [|[k' v'] d IH]; simpl; intros H; [reflexivity|].
  destruct (String.eqb_spec k' k) as [->|_]; [tauto|].
  rewrite IH; tauto.
Qed.

Lemma dict_set_keys k v d x : In x (map fst (dict_set k v d)) -> x = k \/ In x (map fst d).
Proof.
  induction d as [|[k' v'] d IH]; simpl.
  - intuition.
  - destruct (String.eqb_spec k' k) as [->|_]; simpl; intuition.
Qed.

Lemma categorical_filters_Ok ui preview_df cols : forall fo,
  Forall (fun c => In c (columns preview_df)) cols ->
  NoDup cols ->
  (forall c, In c cols -> ~ In c (map fst fo)) ->
  categorical_filters ui preview_df cols fo
  = (fo ++ map (fun c => (c, FList (selection ui preview_df c))) cols, Ok tt).
Proof.
  induction cols as [|c cols IH]; intros fo HC ND HF; simpl.
  - now rewrite app_nil_r.
  - inversion HC as [|? ? Hc HC']; subst. inversion ND as [|? ? Hn ND']; subst.
    unfold selection at 1. destruct (getitem_In _ _ Hc) as [s ->].
    rewrite dict_set_fresh by (apply HF; now left).
    rewrite IH; try assumption.
    + now rewrite <- app_assoc.
    + intros c' Hc'. rewrite map_app, in_app_iff. simpl.
      intros [H|[->|[]]]; [|contradiction].
      apply (HF c'); [now right|assumption].
Qed.

Lemma date_range_filter_cases {pandas : PandasOps} ui preview_df dcs fo :
  fst (date_range_filter ui preview_df dcs fo) = fo
  \/ exists dc rest start stop,
       dcs = dc :: rest
       /\ fst (date_range_filter ui preview_df dcs fo) = dict_set dc (FRange start stop) fo.
Proof.
  unfold date_range_filter. destruct dcs as [|dc rest]; [now left|].
  match goal with |- context [match ?m with Ok _ => _ | Raise _ => _ end] =>
    destruct m as [[|a [|b [|x l]]]|e] end; simpl; try (now left).
  right. exists dc, rest, a, b. split; reflexivity.
Qed.

Lemma read_excel_columns {pandas : PandasOps} wb nrows preview_df :
  read_excel (Sheet wb) nrows = Ok preview_df -> columns preview_df = wb_header wb.
Proof.
  intros [= <-]. unfold columns. cbn [schema].
  generalize 0%nat. generalize (match nrows with
                                | Some n => firstn n (wb_rows wb)
                                | None => wb_rows wb
                                end).
  induction (wb_header wb) as [|h t IH]; intros rs n; simpl; [reflexivity|].
  now rewrite IH.
Qed.

Lemma of_kind_disjoint preview_df c :
  In c (filter (of_kind preview_df categorical) (columns preview_df)) ->
  In c (filter (of_kind preview_df date) (columns preview_df)) -> False.
Proof.
  rewrite !filter_In. unfold of_kind. intros [_ H1] [_ H2].
  destruct (probe_kind preview_df c); discriminate.
Qed.

Lemma filter_selection_app l cols (f : string -> list Value) :
  filter is_selection (l ++ map (fun c => (c, FList (f c))) cols)
  = filter is_selection l ++ map (fun c => (c, FList (f c))) cols.
Proof.
  rewrite filter_app. f_equal. apply filter_all.
  apply Forall_forall. intros x Hx. apply in_map_iff in Hx as (c & <- & _). reflexivity.
Qed.

Lemma row_passes_agree {pandas : PandasOps} c sch item r r' :
  agree_off c sch r r' -> fst item <> c -> row_passes sch item r = row_passes sch item r'.
Proof.
  intros A N. unfold row_passes.
  destruct (position (fst item) sch) as [[i d]|] eqn:E; [|reflexivity].
  rewrite (A _ _ _ N E). reflexivity.
Qed.

Lemma passes_all_agree {pandas : PandasOps} c sch fo r r' :
  agree_off c sch r r' -> ~ In c (map fst fo) ->
  passes_all sch fo r = passes_all sch fo r'.
Proof.
  intros A N. unfold passes_all. induction fo as [|item fo IH]; simpl; [reflexivity|].
  simpl in N. rewrite (row_passes_agree c sch item r r' A) by tauto.
  rewrite IH by tauto. reflexivity.
Qed.

Lemma In_firstn_In {A} n (l : list A) x : In x (firstn n l) -> In x l.
Proof. intros H. rewrite <- (firstn_skipn n l). apply in_or_app. now left. Qed.

Lemma In_skipn_In {A} n (l : list A) x : In x (skipn n l) -> In x l.
Proof. intros H. rewrite <- (firstn_skipn n l). apply in_or_app. now right. Qed.

Lemma NoDup_firstn {A} n (l : list A) : NoDup l -> NoDup (firstn n l).
Proof.
  intros H. rewrite <- (firstn_skipn n l) in H. eapply NoDup_app_remove_r, H.
Qed.

Lemma NoDup_skipn_firstn {A} n (l : list A) x :
  NoDup l -> In x (skipn n l) -> ~ In x (firstn n l).
Proof.
  revert l. induction n as [|n IH]; intros l ND; simpl; [tauto|].
  destruct l as [|a l]; simpl; [tauto|].
  inversion ND as [|? ? Ha ND']; subst. intros Hx [->|H].
  - apply Ha. eapply In_skipn_In, Hx.
  - eapply IH; eassumption.
Qed.

Lemma selection_keys (f : string -> list Value) cols :
  map fst (map (fun c => (c, FList (f c))) cols) = cols.
Proof. rewrite map_map. simpl. apply map_id. Qed.

(** C10: the categorical columns are the columns of the sheet, in their
    order, that the probing loop found categorical; the multiselect filters
    of the sidebar are those of the first five of them and of no other
    column, so there are at most five.  A
    categorical column after the fifth is no key of [filter_options], and
    whether a row passes the filters does not depend on its cell in that
    column. *)
Theorem sidebar_first_five {pandas : PandasOps} (ui : Widgets) (wb : Workbook) :
  NoDup (wb_header wb) ->
  exists preview_df p,
    read_excel (Sheet wb) (Some 100%nat) = Ok preview_df
    /\ schema_prober preview_df = Ok p
    /\ categorical_cols p = filter (of_kind preview_df categorical) (wb_header wb)
    /\ map fst (filter is_selection (sidebar ui (Some (Sheet wb))))
       = firstn 5 (categorical_cols p)
    /\ (List.length (filter is_selection (sidebar ui (Some (Sheet wb)))) <= 5)%nat
    /\ (forall c, In c (skipn 5 (categorical_cols p)) ->
          ~ In c (map fst (sidebar ui (Some (Sheet wb))))
          /\ forall sch r r', agree_off c sch r r' ->
               passes_all sch (sidebar ui (Some (Sheet wb))) r
               = passes_all sch (sidebar ui (Some (Sheet wb))) r').
Proof.
  intros ND.
  destruct (read_excel (Sheet wb) (Some 100%nat)) as [preview_df|e] eqn:R;
    [|discriminate R].
  exists preview_df. eexists. split; [reflexivity|]. split; [apply schema_prober_Ok|].
  simpl categorical_cols.
  split; [now rewrite (read_excel_columns _ _ _ R)|].
  set (cats := filter (of_kind preview_df categorical) (columns preview_df)).
  assert (NDc : NoDup cats).
  { apply NoDup_filter. now rewrite (read_excel_columns _ _ _ R). }
  unfold sidebar, try_filters. rewrite R, schema_prober_Ok. simpl categorical_cols.
  simpl date_cols. fold cats.
  rewrite categorical_filters_Ok.
  2:{ apply Forall_forall. intros c Hc. apply In_firstn_In in Hc.
      unfold cats in Hc. now apply filter_In in Hc. }
  2:{ now apply NoDup_firstn. }
  2:{ intros c _ []. }
  cbv beta iota. rewrite app_nil_l.
  set (fo1 := map (fun c => (c, FList (selection ui preview_df c))) (firstn 5 cats)).
  assert (K1 : map fst fo1 = firstn 5 cats) by apply selection_keys.
  assert (S1 : filter is_selection fo1 = fo1).
  { apply (filter_selection_app [] (firstn 5 cats) (selection ui preview_df)). }
  assert (L : (List.length (firstn 5 cats) <= 5)%nat) by apply firstn_le_length.
  destruct (date_range_filter_cases ui preview_df
              (filter (of_kind preview_df date) (columns preview_df)) fo1)
    as [->|(dc & rest & start & stop & Ed & ->)].
  - rewrite S1. split; [exact K1|]. split; [now rewrite <- K1, length_map in L|].
    intros c Hc.
    assert (N : ~ In c (map fst fo1)) by (rewrite K1; now apply NoDup_skipn_firstn).
    split; [exact N|]. intros sch r r' A. now apply (passes_all_agree c).
  - assert (Hd : In dc (filter (of_kind preview_df date) (columns preview_df)))
      by (rewrite Ed; now left).
    assert (Nd : ~ In dc (map fst fo1)).
    { rewrite K1. intros H. apply In_firstn_In in H.
      eapply of_kind_disjoint; eassumption. }
    rewrite (dict_set_fresh _ _ _ Nd), filter_app, S1. simpl filter.
    rewrite app_nil_r. split; [exact K1|].
    split; [now rewrite <- K1, length_map in L|].
    intros c Hc.
    assert (N : ~ In c (map fst (fo1 ++ [(dc, FRange start stop)]))).
    { rewrite map_app, in_app_iff, K1. simpl. intros [H|[E|[]]].
      - exact (NoDup_skipn_firstn 5 cats c NDc Hc H).
      - subst c. apply In_skipn_In in Hc. exact (of_kind_disjoint _ _ Hc Hd). }
    split; [exact N|]. intros sch r r' A. now apply (passes_all_agree c).
Qed.

Lemma sidebar_first_five_witness :
  map fst (filter is_selection
             (sidebar (pandas := example_pandas) default_ui (Some (Sheet six_text_columns))))
  = ["A"; "B"; "C"; "D"; "E"].
Proof.
  destruct (sidebar_first_five (pandas := example_pandas) default_ui six_text_columns)
    as (preview_df & p & R & P & _ & K & _).
  - simpl. repeat constructor; simpl; intuition discriminate.
  - rewrite K. injection R as <-. vm_compute in P. injection P as <-. reflexivity.
Defined.

(** ** The order of group keys *)

Lemma ts_compare_Lt a b :
  ts_compare a b = Lt <->
  (d_year (ts_date a) < d_year (ts_date b)
   \/ (d_year (ts_date a) = d_year (ts_date b)
       /\ (d_month (ts_date a) < d_month (ts_date b)
           \/ (d_month (ts_date a) = d_month (ts_date b)
               /\ (d_day (ts_date a) < d_day (ts_date b)
                   \/ (d_day (ts_date a) = d_day (ts_date b)
                       /\ ts_nanos a < ts_nanos b)))))).
Proof.
  unfold ts_compare, date_compare.
  destruct (Z.compare_spec (d_year (ts_date a)) (d_year (ts_date b)));
  destruct (Z.compare_spec (d_month (ts_date a)) (d_month (ts_date b)));
  destruct (Z.compare_spec (d_day (ts_date a)) (d_day (ts_date b)));
  destruct (Z.compare_spec (ts_nanos a) (ts_nanos b));
  simpl; split; intros; try discriminate; try reflexivity; lia.
Qed.

Lemma ts_compare_antisym a b : ts_compare b a = CompOpp (ts_compare a b).
Proof.
  unfold ts_compare, date_compare.
  rewrite (Z.compare_antisym (d_year (ts_date a))), (Z.compare_antisym (d_month (ts_date a))),
    (Z.compare_antisym (d_day (ts_date a))), (Z.compare_antisym (ts_nanos a)).
  destruct (d_year (ts_date a) ?= d_year (ts_date b)),
           (d_month (ts_date a) ?= d_month (ts_date b)),
           (d_day (ts_date a) ?= d_day (ts_date b)),
           (ts_nanos a ?= ts_nanos b); reflexivity.
Qed.

Lemma ts_compare_Eq a b : ts_compare a b = Eq <-> a = b.
Proof.
  rewrite <- ts_eqb_eq. unfold ts_eqb. destruct (ts_compare a b); intuition discriminate.
Qed.

Lemma lex_opp c1 c2 : CompOpp (lex c1 c2) = lex (CompOpp c1) (CompOpp c2).
Proof. now destruct c1. Qed.

Lemma float_compare_Eq x y : float_compare x y = Eq <-> x = y.
Proof.
  destruct x as [p|[|]], y as [q|[|]]; simpl; try (split; [discriminate|congruence]);
    try (split; reflexivity).
  split.
  - intros E. apply lex_eq in E as [_ E]. apply lex_eq in E as [E1 E2].
    apply Z.compare_eq in E1. apply Pos.compare_eq in E2.
    destruct p, q; simpl in *. congruence.
  - intros [= ->]. rewrite (proj1 (Qeq_alt q q) (Qeq_refl q)), Z.compare_refl,
      Pos.compare_refl. reflexivity.
Qed.

Lemma float_compare_antisym x y : float_compare y x = CompOpp (float_compare x y).
Proof.
  destruct x as [p|[|]], y as [q|[|]]; simpl; try reflexivity.
  rewrite !lex_opp, Qcompare_antisym, <- Z.compare_antisym, <- Pos.compare_antisym.
  reflexivity.
Qed.

Lemma float_lt_trans x y z :
  float_compare x y = Lt -> float_compare y z = Lt -> float_compare x z = Lt.
Proof.
  destruct x as [p|[|]], y as [q|[|]], z as [r|[|]]; cbn [float_compare];
    try discriminate; try reflexivity.
  destruct (Qcompare p q) eqn:E1, (Qcompare q r) eqn:E2; cbn [lex]; try discriminate;
    try apply Qeq_alt in E1; try apply Qeq_alt in E2;
    try apply Qlt_alt in E1; try apply Qlt_alt in E2.
  - assert (E : p == r) by lra. apply Qeq_alt in E. rewrite E. cbn [lex].
    rewrite !Pos2Z.inj_compare.
    destruct (Z.compare_spec (Qnum p) (Qnum q)), (Z.compare_spec (Qnum q) (Qnum r)),
      (Z.compare_spec (Qnum p) (Qnum r)),
      (Z.compare_spec (Z.pos (Qden p)) (Z.pos (Qden q))),
      (Z.compare_spec (Z.pos (Qden q)) (Z.pos (Qden r))),
      (Z.compare_spec (Z.pos (Qden p)) (Z.pos (Qden r)));
      simpl; intros; try discriminate; try reflexivity; lia.
  - intros _ _. assert (E : (p < r)%Q) by lra. now rewrite (proj1 (Qlt_alt p r) E).
  - intros _ _. assert (E : (p < r)%Q) by lra. now rewrite (proj1 (Qlt_alt p r) E).
  - intros _ _. assert (E : (p < r)%Q) by lra. now rewrite (proj1 (Qlt_alt p r) E).
Qed.

Lemma float_le_lt_trans x y z :
  float_compare x y <> Gt -> float_compare y z = Lt -> float_compare x z = Lt.
Proof.
  intros H1 H2. destruct (float_compare x y) eqn:E; [| |congruence].
  - apply float_compare_Eq in E. now subst.
  - eapply float_lt_trans; eassumption.
Qed.

Lemma float_lt_le_trans x y z :
  float_compare x y = Lt -> float_compare y z <> Gt -> float_compare x z = Lt.
Proof.
  intros H1 H2. destruct (float_compare y z) eqn:E; [| |congruence].
  - apply float_compare_Eq in E. now subst.
  - eapply float_lt_trans; eassumption.
Qed.

Lemma float_compare_int z z' : float_compare (float_of_int z) (float_of_int z') = (z ?= z').
Proof.
  unfold float_of_int, float_compare, inject_Z, Qcompare. simpl. rewrite !Z.mul_1_r.
  destruct (z ?= z'); reflexivity.
Qed.

Arguments float_compare : simpl never.
Arguments float_of_int : simpl never.

Lemma lex_Lt_Lt c : lex c Lt = Lt <-> c <> Gt.
Proof. destruct c; simpl; intuition congruence. Qed.

Lemma lex_Gt_Lt c : lex c Gt = Lt <-> c = Lt.
Proof. destruct c; simpl; intuition congruence. Qed.

Lemma value_compare_Eq a b : value_compare a b = Eq <-> a = b.
Proof.
  destruct a, b; simpl; try (split; [discriminate|congruence]).
  - rewrite String_as_OT.cmp_eq. split; congruence.
  - rewrite Z.compare_eq_iff. split; congruence.
  - split; [|discriminate]. now destruct (float_compare (float_of_int z) x).
  - split; [|discriminate]. now destruct (float_compare x (float_of_int z)).
  - rewrite float_compare_Eq. split; congruence.
  - rewrite ts_compare_Eq. split; congruence.
  - rewrite Z.compare_eq_iff. split; congruence.
  - split; reflexivity.
Qed.

Lemma value_compare_antisym a b : value_compare b a = CompOpp (value_compare a b).
Proof.
  destruct a, b; simpl; try reflexivity.
  - apply String_as_OT.cmp_antisym.
  - apply Z.compare_antisym.
  - now rewrite lex_opp, <- float_compare_antisym.
  - now rewrite lex_opp, <- float_compare_antisym.
  - apply float_compare_antisym.
  - apply ts_compare_antisym.
  - apply Z.compare_antisym.
Qed.

Lemma value_lt_trans a b c :
  value_compare a b = Lt -> value_compare b c = Lt -> value_compare a c = Lt.
Proof.
  destruct a, b, c; simpl; try discriminate; try reflexivity;
    rewrite ?lex_Lt_Lt, ?lex_Gt_Lt, <- ?float_compare_int.
  - unfold String_as_OT.cmp. intros H1 H2.
    apply String_as_OT.cmp_lt in H1, H2. apply String_as_OT.cmp_lt.
    eapply String_as_OT.lt_trans; eassumption.
  - apply float_lt_trans.
  - intros H1 H2 H3. rewrite (float_lt_le_trans _ _ _ H1 H2) in H3. discriminate.
  - apply float_le_lt_trans.
  - intros H1 H2 H3. rewrite (float_le_lt_trans _ _ _ H1 H2) in H3. discriminate.
  - apply float_lt_trans.
  - apply float_lt_le_trans.
  - apply float_lt_trans.
  - apply float_lt_trans.
  - rewrite !ts_compare_Lt. lia.
  - apply float_lt_trans.
Qed.

Lemma value_leb_total a b : value_leb a b = true \/ value_leb b a = true.
Proof.
  unfold value_leb. rewrite (value_compare_antisym a b).
  destruct (value_compare a b); simpl; auto.
Qed.

Lemma value_leb_ltb a b : value_leb a b = true -> a <> b -> value_ltb a b = true.
Proof.
  unfold value_leb, value_ltb. intros H N.
  destruct (value_compare a b) eqn:E; try reflexivity; try discriminate.
  apply value_compare_Eq in E. contradiction.
Qed.

Lemma value_ltb_trans a b c :
  value_ltb a b = true -> value_ltb b c = true -> value_ltb a c = true.
Proof.
  unfold value_ltb. intros H1 H2.
  destruct (value_compare a b) eqn:E1; try discriminate.
  destruct (value_compare b c) eqn:E2; try discriminate.
  now rewrite (value_lt_trans _ _ _ E1 E2).
Qed.

(** ** Sorting *)

Section Sorting.

Context {A : Type}.

Lemma insert_by_perm (leb : A -> A -> bool) x l : Permutation (insert_by leb x l) (x :: l).
Proof.
  induction l as [|y l IH]; simpl; [reflexivity|].
  destruct (leb x y); [reflexivity|].
  rewrite IH. apply perm_swap.
Qed.

Lemma sort_by_perm (leb : A -> A -> bool) l : Permutation (sort_by leb l) l.
Proof.
  induction l as [|x l IH]; simpl; [reflexivity|].
  rewrite insert_by_perm. now constructor.
Qed.

Lemma sort_by_length (leb : A -> A -> bool) l : List.length (sort_by leb l) = List.length l.
Proof. apply Permutation_length, sort_by_perm. Qed.

Lemma insert_by_ext (leb leb' : A -> A -> bool) x l :
  (forall y, In y l -> leb x y = leb' x y) -> insert_by leb x l = insert_by leb' x l.
Proof.
  induction l as [|y l IH]; simpl; intros H; [reflexivity|].
  rewrite (H y) by now left. rewrite IH by (intros; apply H; now right). reflexivity.
Qed.

Lemma sort_by_ext (leb leb' : A -> A -> bool) l :
  (forall x y, In x l -> In y l -> leb x y = leb' x y) -> sort_by leb l = sort_by leb' l.
Proof.
  induction l as [|x l IH]; simpl; intros H; [reflexivity|].
  rewrite IH by (intros; apply H; now right).
  apply insert_by_ext. intros y Hy. apply H; [now left|].
  right. eapply Permutation_in; [apply sort_by_perm|exact Hy].
Qed.

(** With a total comparison the result is sorted. *)
Lemma insert_by_sorted (leb : A -> A -> bool) x l :
  (forall a b, leb a b = true \/ leb b a = true) ->
  Sorted (fun a b => leb a b = true) l ->
  Sorted (fun a b => leb a b = true) (insert_by leb x l).
Proof.
  intros T. induction 1 as [|y l S IH Hd]; simpl.
  - repeat constructor.
  - destruct (leb x y) eqn:E.
    + constructor; [now constructor|now constructor].
    + constructor; [exact IH|].
      destruct l as [|z l]; simpl.
      * constructor. destruct (T x y); congruence.
      * destruct (leb x z).
        -- constructor. destruct (T x y); congruence.
        -- constructor. now inversion Hd.
Qed.

Lemma sort_by_sorted (leb : A -> A -> bool) l :
  (forall a b, leb a b = true \/ leb b a = true) ->
  Sorted (fun a b => leb a b = true) (sort_by leb l).
Proof.
  intros T. induction l as [|x l IH]; simpl; [constructor|].
  now apply insert_by_sorted.
Qed.

(** A sort by a total and transitive comparison keeps, among the elements
    it does not tell apart, the order of the input. *)
Variable geb : A -> A -> bool.
Variable before : A -> A -> Prop.
Hypothesis geb_total : forall a b, geb a b = true \/ geb b a = true.
Hypothesis geb_trans : forall a b c, geb a b = true -> geb b c = true -> geb a c = true.

Lemma sorted_before_geb a b : sorted_before geb before a b -> geb a b = true.
Proof.
  intros [H|[H _]]; [|exact H]. destruct (geb_total a b) as [T|T]; congruence.
Qed.

Lemma insert_by_stable x l :
  Forall (before x) l ->
  StronglySorted (sorted_before geb before) l ->
  StronglySorted (sorted_before geb before) (insert_by geb x l).
Proof.
  intros B S. induction S as [|y l S IH F]; simpl.
  - repeat constructor.
  - inversion B as [|? ? Bxy B']; subst.
    destruct (geb x y) eqn:E.
    + constructor; [now constructor|].
      constructor.
      * destruct (geb y x) eqn:E'; [right|left]; auto.
      * rewrite Forall_forall in *. intros z Hz.
        destruct (geb z x) eqn:Ez; [right|now left].
        repeat split; auto.
        apply (geb_trans x y z E). apply sorted_before_geb. now apply F.
    + constructor; [now apply IH|].
      apply Forall_forall. intros z Hz.
      apply (Permutation_in _ (insert_by_perm geb x l)) in Hz as [<-|Hz].
      * now left.
      * rewrite Forall_forall in F. now apply F.
Qed.

Lemma sort_by_stable l :
  StronglySorted before l ->
  StronglySorted (sorted_before geb before) (sort_by geb l).
Proof.
  induction 1 as [|x l S IH F]; simpl; [constructor|].
  apply insert_by_stable; [|exact IH].
  apply Forall_forall. intros z Hz.
  apply (Permutation_in _ (sort_by_perm geb l)) in Hz.
  rewrite Forall_forall in F. now apply F.
Qed.

End Sorting.

Lemma StronglySorted_firstn {A} (R : A -> A -> Prop) n l :
  StronglySorted R l -> StronglySorted R (firstn n l).
Proof.
  intros S. revert n. induction S as [|x l S IH F]; intros [|n]; simpl; try constructor.
  - apply IH.
  - apply Forall_forall. intros z Hz. apply In_firstn_In in Hz.
    rewrite Forall_forall in F. now apply F.
Qed.

(** ** Distinct values *)

(** The keys of a group-by are the distinct non-null keys in strictly
    increasing order. *)
Lemma group_keys_In v keys : In v (group_keys keys) <-> In v keys /\ v <> VNull.
Proof.
  unfold group_keys. split; intros H.
  - apply dropna_In, unique_In.
    eapply Permutation_in; [apply sort_by_perm|exact H].
  - apply dropna_In, unique_In in H.
    eapply Permutation_in; [symmetry; apply sort_by_perm|exact H].
Qed.

Lemma Sorted_leb_ltb l :
  NoDup l ->
  Sorted (fun a b => value_leb a b = true) l ->
  Sorted (fun a b => value_ltb a b = true) l.
Proof.
  intros ND. induction 1 as [|a l S IH Hd]; constructor.
  - apply IH. now inversion ND.
  - inversion Hd as [|b l' Hab]; subst; constructor.
    apply value_leb_ltb; [assumption|].
    inversion ND as [|? ? Ha _]; subst. intros ->. apply Ha. now left.
Qed.

Lemma group_keys_sorted keys :
  StronglySorted (fun a b => value_ltb a b = true) (group_keys keys).
Proof.
  apply Sorted_StronglySorted.
  - intros a b c. apply value_ltb_trans.
  - apply Sorted_leb_ltb.
    + eapply Permutation_NoDup; [symmetry; apply sort_by_perm|apply unique_NoDup].
    + apply sort_by_sorted, value_leb_total.
Qed.

Lemma group_keys_length keys :
  List.length (group_keys keys) = List.length (unique (dropna keys)).
Proof. apply sort_by_length. Qed.

(** ** Writing a column *)

Lemma cell_nil j : cell j [] = VNull.
Proof. now destruct j. Qed.

Lemma cell_set_cell_same i v r : cell i (set_cell i v r) = v.
Proof.
  revert r. induction i as [|i IH]; intros [|x r]; simpl; try reflexivity; apply IH.
Qed.

Lemma cell_set_cell_other i j v r : i <> j -> cell j (set_cell i v r) = cell j r.
Proof.
  revert j r. induction i as [|i IH]; intros j r N.
  - destruct j as [|j]; [congruence|].
    destruct r as [|x r]; simpl; [|reflexivity]. unfold cell. simpl. now destruct j.
  - destruct r as [|x r], j as [|j]; simpl; try reflexivity.
    + change (cell j (set_cell i v []) = VNull).
      rewrite IH by congruence. apply cell_nil.
    + change (cell j (set_cell i v r) = cell j r). apply IH. congruence.
Qed.

Lemma position_lt c sch i d : position c sch = Some (i, d) -> (i < List.length sch)%nat.
Proof.
  revert i d. induction sch as [|[n d0] t IH]; simpl; [discriminate|].
  intros i d. destruct (String.eqb n c); [intros [= <- _]; lia|].
  destruct (position c t) as [[k d']|]; [|discriminate].
  intros [= <- _]. specialize (IH k d' eq_refl). lia.
Qed.

Lemma position_set_dtype_same c sch i d dt :
  position c sch = Some (i, d) -> position c (set_dtype i dt sch) = Some (i, dt).
Proof.
  revert i d. induction sch as [|[n d0] t IH]; simpl; [discriminate|].
  intros i d. destruct (String.eqb n c) eqn:E.
  - intros [= <- _]. simpl. now rewrite E.
  - destruct (position c t) as [[k d']|]; [|discriminate].
    intros [= <- _]. simpl. rewrite E, (IH k d' eq_refl). reflexivity.
Qed.

Lemma position_set_dtype_other c c' sch i d dt :
  position c sch = Some (i, d) -> c' <> c ->
  position c' (set_dtype i dt sch) = position c' sch.
Proof.
  revert i d. induction sch as [|[n d0] t IH]; simpl; [discriminate|].
  intros i d. destruct (String.eqb_spec n c) as [->|N].
  - intros [= <- _] Hc. simpl.
    destruct (String.eqb_spec c c') as [->|_]; [congruence|reflexivity].
  - destruct (position c t) as [[k d']|]; [|discriminate].
    intros [= <- _] Hc. simpl. now rewrite (IH k d' eq_refl Hc).
Qed.

Lemma position_app_new c sch d :
  position c sch = None -> position c (sch ++ [(c, d)]) = Some (List.length sch, d).
Proof.
  induction sch as [|[n d0] t IH]; simpl.
  - now rewrite String.eqb_refl.
  - destruct (String.eqb n c); [discriminate|].
    destruct (position c t) as [[k d']|]; [discriminate|].
    intros _. now rewrite IH.
Qed.

Lemma position_app_other c c' sch d :
  c' <> c -> position c' (sch ++ [(c, d)]) = position c' sch.
Proof.
  intros N. induction sch as [|[n d0] t IH]; simpl.
  - destruct (String.eqb_spec c c'); [congruence|reflexivity].
  - now rewrite IH.
Qed.

Lemma set_rows_same i (f : list Value -> Value) (rs : list (list Value)) :
  map (cell i) (map (fun rv => set_cell i (snd rv) (fst rv)) (combine rs (map f rs)))
  = map f rs.
Proof.
  induction rs as [|r rs IH]; simpl; [reflexivity|].
  now rewrite cell_set_cell_same, IH.
Qed.

Lemma set_rows_other i j (f : list Value -> Value) (rs : list (list Value)) :
  i <> j ->
  map (cell j) (map (fun rv => set_cell i (snd rv) (fst rv)) (combine rs (map f rs)))
  = map (cell j) rs.
Proof.
  intros N. induction rs as [|r rs IH]; simpl; [reflexivity|].
  now rewrite cell_set_cell_other, IH.
Qed.

Lemma position_inj c c' sch i d d' :
  position c sch = Some (i, d) -> position c' sch = Some (i, d') -> c = c'.
Proof.
  revert i d d'. induction sch as [|[n d0] t IH]; simpl; [discriminate|].
  intros i d d'.
  destruct (String.eqb n c) eqn:E1, (String.eqb n c') eqn:E2.
  - apply String.eqb_eq in E1, E2. congruence.
  - destruct (position c' t) as [[k' dk']|]; [|discriminate]. intros [= <- _] [=].
  - destruct (position c t) as [[k dk]|]; [|discriminate]. intros [= <- _] [=].
  - destruct (position c t) as [[k dk]|]; [|discriminate].
    destruct (position c' t) as [[k' dk']|]; [|discriminate].
    intros [= <- _] [= E _]. apply (IH k dk dk'); [reflexivity|congruence].
Qed.

(** Reading back the column that was written, and another column. *)
Lemma getitem_setitem_same df c dt (f : list Value -> Value) :
  getitem (setitem df c (mkSeries dt (map f (rows df)))) c
  = Ok (mkSeries dt (map f (rows df))).
Proof.
  unfold setitem, getitem. simpl.
  destruct (position c (schema df)) as [[i d]|] eqn:E; simpl.
  - rewrite (position_set_dtype_same _ _ _ _ dt E). now rewrite set_rows_same.
  - rewrite (position_app_new _ _ dt E). now rewrite set_rows_same.
Qed.

Lemma getitem_setitem_other df c c' dt (f : list Value -> Value) :
  c' <> c ->
  getitem (setitem df c (mkSeries dt (map f (rows df)))) c' = getitem df c'.
Proof.
  intros N. unfold setitem, getitem. simpl.
  destruct (position c (schema df)) as [[i d]|] eqn:E; simpl.
  - rewrite (position_set_dtype_other _ _ _ _ _ dt E N).
    destruct (position c' (schema df)) as [[j d']|] eqn:E'; [|reflexivity].
    rewrite set_rows_other; [reflexivity|].
    intros ->. apply N. symmetry. eapply position_inj; eassumption.
  - rewrite (position_app_other _ _ _ dt N).
    destruct (position c' (schema df)) as [[j d']|] eqn:E'; [|reflexivity].
    rewrite set_rows_other; [reflexivity|].
    apply position_lt in E'. lia.
Qed.

(** ** Group-by and sum *)

Lemma group_cells_rows (f h : list Value -> Value) (rs : list (list Value)) g :
  group_cells (map f rs) (map h rs) g
  = map h (filter (fun r => value_eqb (f r) g) rs).
Proof.
  unfold group_cells. induction rs as [|r rs IH]; simpl; [reflexivity|].
  destruct (value_eqb (f r) g); simpl; now rewrite IH.
Qed.

Lemma mapM_Ok_map {A B} (f : A -> result B) (g : A -> B) l :
  (forall a, In a l -> f a = Ok (g a)) -> mapM f l = Ok (map g l).
Proof.
  induction l as [|a l IH]; simpl; intros H; [reflexivity|].
  rewrite (H a) by now left. simpl. rewrite IH by (intros; apply H; now right).
  reflexivity.
Qed.

Lemma mapM_Forall2 {A B} (f : A -> result B) l ys :
  mapM f l = Ok ys -> Forall2 (fun a y => f a = Ok y) l ys.
Proof.
  revert ys. induction l as [|a l IH]; intros ys; simpl.
  - intros [= <-]. constructor.
  - destruct (f a) as [b|e] eqn:E; simpl; [|discriminate].
    destruct (mapM f l) as [bs|e]; simpl; [|discriminate].
    intros [= <-]. constructor; [assumption|now apply IH].
Qed.

(** A group-by has one item per key, the sum of the cells of its group. *)
Lemma groupby_sum_Ok {pandas : PandasOps} df key val dk dv
    (f : list Value -> Value) j (rs : list (list Value)) g :
  getitem df key = Ok (mkSeries dk (map f rs)) ->
  getitem df val = Ok (mkSeries dv (map (cell j) rs)) ->
  groupby_sum df key val = Ok g ->
  i_dtype g = dv
  /\ Forall2 (fun k item =>
                fst item = k
                /\ group_sum (mkSeries dv (group_column f j rs k)) = Ok (snd item))
             (group_keys (map f rs)) (i_items g).
Proof.
  intros K V. unfold groupby_sum. rewrite K, V. cbn [bind s_dtype s_values].
  assert (R : forall items' : result (list (Value * Value)),
            (items <- items' ;; Ok (mkIndexed dv items)) = Ok g ->
            exists items, items' = Ok items /\ g = mkIndexed dv items).
  { intros [items|e]; simpl; [|discriminate]. intros [= <-]. eauto. }
  intros H.
  assert (M : exists items,
            mapM (fun g => t <- group_sum (mkSeries dv (group_cells (map f rs)
                                                         (map (cell j) rs) g)) ;;
                           Ok (g, t))
                 (group_keys (map f rs)) = Ok items
            /\ g = mkIndexed dv items)
    by (destruct dv; try discriminate H; apply R, H).
  destruct M as (items & M & ->). split; [reflexivity|]. simpl.
  apply mapM_Forall2 in M. eapply Forall2_impl; [|exact M].
  intros k item. simpl. rewrite group_cells_rows. fold (group_column f j rs k).
  destruct (group_sum (mkSeries dv (group_column f j rs k))) as [t|e]; simpl;
    [|discriminate].
  intros [= <-]. split; reflexivity.
Qed.

(** The sum of a group of a column of numbers: the wrapped sum of its
    integers, or the library's sum of its floats. *)
Lemma group_sum_int64 {pandas : PandasOps} cells :
  group_sum (mkSeries DtInt64 cells) = Ok (VNum (wrap64 (zsum (numbers cells)))).
Proof. reflexivity. Qed.

Lemma group_sum_float64 {pandas : PandasOps} cells :
  group_sum (mkSeries DtFloat64 cells) = Ok (float_value (group_float_sum (floats cells))).
Proof. reflexivity. Qed.

Lemma group_sum_numeric {pandas : PandasOps} dv cells :
  dv = DtInt64 \/ dv = DtFloat64 -> exists t, group_sum (mkSeries dv cells) = Ok t.
Proof. intros [->| ->]; eexists; reflexivity. Qed.

(** The sums of an int64 column are those of the integers of the groups,
    modulo 2^64. *)
Lemma groupby_sum_totals {pandas : PandasOps} (f : list Value -> Value) j
    (rs : list (list Value)) keys (items : list (Value * Value)) :
  Forall2 (fun k item =>
             fst item = k
             /\ group_sum (mkSeries DtInt64 (group_column f j rs k)) = Ok (snd item))
          keys items ->
  items = map (fun k => (k, VNum (wrap64 (group_total f j rs k)))) keys.
Proof.
  induction 1 as [|k [k' t] keys items [E S] _ IH]; [reflexivity|].
  simpl in *. subst k'. rewrite <- IH. f_equal.
  rewrite group_sum_int64 in S. injection S as <-. reflexivity.
Qed.

Lemma groupby_sum_numeric {pandas : PandasOps} df key val dk dv
    (f : list Value -> Value) j (rs : list (list Value)) :
  dv = DtInt64 \/ dv = DtFloat64 ->
  getitem df key = Ok (mkSeries dk (map f rs)) ->
  getitem df val = Ok (mkSeries dv (map (cell j) rs)) ->
  exists items, groupby_sum df key val = Ok (mkIndexed dv items).
Proof.
  intros N K V. unfold groupby_sum. rewrite K, V. cbn [bind s_dtype s_values].
  assert (M : exists items,
            mapM (fun g => t <- group_sum (mkSeries dv (group_cells (map f rs)
                                                         (map (cell j) rs) g)) ;;
                           Ok (g, t))
                 (group_keys (map f rs)) = Ok items).
  { induction (group_keys (map f rs)) as [|g gs [items IH]]; simpl; [eauto|].
    destruct (group_sum_numeric dv (group_cells (map f rs) (map (cell j) rs) g) N)
      as [t ->].
    rewrite IH. simpl. eauto. }
  destruct M as [items M]. exists items.
  destruct N as [->| ->]; cbn [bind]; now rewrite M.
Qed.

Lemma groupby_sum_int64 {pandas : PandasOps} df key val dk
    (f : list Value -> Value) j (rs : list (list Value)) :
  getitem df key = Ok (mkSeries dk (map f rs)) ->
  getitem df val = Ok (mkSeries DtInt64 (map (cell j) rs)) ->
  groupby_sum df key val
  = Ok (mkIndexed DtInt64
          (map (fun g => (g, VNum (wrap64 (group_total f j rs g))))
               (group_keys (map f rs)))).
Proof.
  intros K V. unfold groupby_sum. rewrite K, V. simpl.
  rewrite (mapM_Ok_map _ (fun g => (g, VNum (wrap64 (group_total f j rs g)))));
    [reflexivity|].
  intros g _. unfold group_sum, sum_with. simpl. now rewrite group_cells_rows.
Qed.

Lemma StronglySorted_map {A B} (R : B -> B -> Prop) (f : A -> B) l :
  StronglySorted (fun a b => R (f a) (f b)) l -> StronglySorted R (map f l).
Proof.
  induction 1 as [|a l S IH F]; simpl; constructor; [assumption|].
  apply Forall_forall. intros b Hb. apply in_map_iff in Hb as (x & <- & Hx).
  rewrite Forall_forall in F. now apply F.
Qed.

Lemma StronglySorted_filter {A} (R : A -> A -> Prop) (f : A -> bool) l :
  StronglySorted R l -> StronglySorted R (filter f l).
Proof.
  induction 1 as [|a l S IH F]; simpl; [constructor|].
  destruct (f a); [|exact IH]. constructor; [exact IH|].
  apply Forall_forall. intros b Hb. apply filter_In in Hb as [Hb _].
  rewrite Forall_forall in F. now apply F.
Qed.

Lemma StronglySorted_app {A} (R : A -> A -> Prop) l l' :
  StronglySorted R l -> StronglySorted R l' ->
  (forall a b, In a l -> In b l' -> R a b) ->
  StronglySorted R (l ++ l').
Proof.
  intros S S' H. induction S as [|a l S IH F]; simpl; [exact S'|].
  constructor.
  - apply IH. intros x y Hx. apply H. now right.
  - apply Forall_app. split; [exact F|].
    apply Forall_forall. intros b Hb. apply H; [now left|exact Hb].
Qed.

Lemma StronglySorted_weaken {A} (R R' : A -> A -> Prop) l :
  (forall a b, In a l -> In b l -> R a b -> R' a b) ->
  StronglySorted R l -> StronglySorted R' l.
Proof.
  intros H S. induction S as [|a l S IH F]; constructor.
  - apply IH. intros x y Hx Hy. apply H; now right.
  - apply Forall_forall. intros b Hb. rewrite Forall_forall in F.
    apply H; [now left|now right|now apply F].
Qed.

(** The order of the values. *)
Lemma value_leb_trans a b c :
  value_leb a b = true -> value_leb b c = true -> value_leb a c = true.
Proof.
  unfold value_leb. intros H1 H2.
  destruct (value_compare a b) eqn:E1; [| |discriminate].
  - apply value_compare_Eq in E1. now subst.
  - destruct (value_compare b c) eqn:E2; [| |discriminate].
    + apply value_compare_Eq in E2. subst. now rewrite E1.
    + now rewrite (value_lt_trans _ _ _ E1 E2).
Qed.

Lemma value_leb_antisym a b : value_leb a b = true -> value_leb b a = true -> a = b.
Proof.
  unfold value_leb. rewrite (value_compare_antisym a b). intros H1 H2.
  apply value_compare_Eq. destruct (value_compare a b); (reflexivity || discriminate).
Qed.

Lemma value_leb_false a b : value_leb a b = false -> value_ltb b a = true.
Proof.
  unfold value_leb, value_ltb. rewrite (value_compare_antisym a b).
  destruct (value_compare a b); simpl; congruence.
Qed.

Lemma larger_notna a b : a <> VNull -> b <> VNull -> larger a b = value_ltb b a.
Proof. intros Ha Hb. destruct a, b; try reflexivity; congruence. Qed.

(** [nlargest] hands over the items in decreasing order of their values,
    the null values last, and the items of one value in the order they had. *)
Lemma nlargest_Ok n (s : Indexed) top :
  nlargest n s = Ok top ->
  i_dtype s <> DtObject
  /\ top = firstn n (sort_by item_geb (filter (fun kv => notna (snd kv)) (i_items s))
                     ++ filter (fun kv => negb (notna (snd kv))) (i_items s)).
Proof.
  unfold nlargest. destruct (i_dtype s); try discriminate; intros [= <-];
    (split; [discriminate|reflexivity]).
Qed.

Lemma nlargest_numeric n dv items :
  dv = DtInt64 \/ dv = DtFloat64 ->
  nlargest n (mkIndexed dv items)
  = Ok (firstn n (sort_by item_geb (filter (fun kv => notna (snd kv)) items)
                  ++ filter (fun kv => negb (notna (snd kv))) items)).
Proof. intros [->| ->]; reflexivity. Qed.

Lemma partition_perm {A} (f : A -> bool) l :
  Permutation (filter f l ++ filter (fun a => negb (f a)) l) l.
Proof.
  induction l as [|a l IH]; simpl; [reflexivity|].
  destruct (f a); simpl.
  - now constructor.
  - rewrite <- Permutation_middle. now constructor.
Qed.

Lemma ranked_perm (items : list (Value * Value)) :
  Permutation (sort_by item_geb (filter (fun kv => notna (snd kv)) items)
               ++ filter (fun kv => negb (notna (snd kv))) items)
              items.
Proof. rewrite sort_by_perm. apply partition_perm. Qed.

Lemma ranked_sorted (items : list (Value * Value)) :
  StronglySorted key_before items ->
  StronglySorted ranks_before
    (sort_by item_geb (filter (fun kv => notna (snd kv)) items)
     ++ filter (fun kv => negb (notna (snd kv))) items).
Proof.
  intros S.
  assert (Nn : forall a, In a (sort_by item_geb (filter (fun kv => notna (snd kv)) items)) ->
               snd a <> VNull).
  { intros a Ha. apply (Permutation_in _ (sort_by_perm _ _)) in Ha.
    apply filter_In in Ha as [_ Ha]. now destruct (snd a). }
  assert (Nl : forall b, In b (filter (fun kv => negb (notna (snd kv))) items) ->
               snd b = VNull).
  { intros b Hb. apply filter_In in Hb as [_ Hb]. now destruct (snd b). }
  apply StronglySorted_app.
  - apply (StronglySorted_weaken (sorted_before item_geb key_before)).
    + intros a b Ha Hb [H|(H1 & H2 & H3)].
      * left. rewrite larger_notna by auto. now apply value_leb_false.
      * right. split; [|exact H3]. now apply value_leb_antisym.
    + apply sort_by_stable.
      * intros a b. apply value_leb_total.
      * intros a b c H1 H2. unfold item_geb in *. eapply value_leb_trans; eassumption.
      * now apply StronglySorted_filter.
  - apply (StronglySorted_weaken key_before).
    + intros a b Ha Hb H. right. split; [|exact H]. now rewrite (Nl a), (Nl b).
    + now apply StronglySorted_filter.
  - intros a b Ha Hb. left. rewrite (Nl b Hb).
    specialize (Nn a Ha). now destruct (snd a).
Qed.

(** ** Top products *)

(** The items of a group-by over the rows of a frame, in the order of
    their keys. *)
Lemma groupby_items_keys {B} (P : Value -> Value * B -> Prop) keys
    (items : list (Value * B)) :
  Forall2 (fun k item => fst item = k /\ P k item) keys items ->
  map fst items = keys.
Proof. induction 1 as [|k item ks its [E _] _ IH]; simpl; congruence. Qed.

Lemma keys_sorted_items (items : list (Value * Value)) :
  StronglySorted (fun a b => value_ltb a b = true) (map fst items) ->
  StronglySorted key_before items.
Proof.
  induction items as [|a l IH]; intros S; [constructor|].
  inversion S as [|? ? S' Fa]; subst. constructor; [now apply IH|].
  apply Forall_forall. intros b Hb. rewrite Forall_forall in Fa.
  apply Fa. now apply in_map.
Qed.

(** C8, as the script has it: with a category column and a quantity
    column, a table that the script gets holds, for min(number of groups,
    10) groups, the sum of the quantities of the group as the group-by makes
    it, for an int64 column the sum of its integers modulo 2^64; the groups
    of the table followed by the groups left out are all the groups, in
    decreasing order of their sums.  Among groups of equal sums the one
    whose key sorts first comes first, as the group-by hands its groups over
    sorted by key.  With 12 groups the table has exactly 10 rows.  The
    script gets a table whenever the quantity column is an int64 or a float64
    column, and none when it is an object column, as a column of text is. *)
Theorem top_products_ranking {pandas : PandasOps} (V : DataFrame)
    (category qty : string) (rest rest' : list string) (i j : nat) (d dj : Dtype) :
  position category (schema V) = Some (i, d) ->
  position qty (schema V) = Some (j, dj) ->
  (forall top,
      top_products (category :: rest) (qty :: rest') V = Ok top ->
      exists others,
        Permutation (map fst (top ++ others)) (unique (dropna (map (cell i) (rows V))))
        /\ Forall (fun item =>
                     group_sum (mkSeries dj (group_column (cell i) j (rows V) (fst item)))
                     = Ok (snd item))
                  (top ++ others)
        /\ (dj = DtInt64 ->
            Forall (fun item =>
                      snd item
                      = VNum (wrap64 (group_total (cell i) j (rows V) (fst item))))
                   (top ++ others))
        /\ List.length top
           = Nat.min (List.length (unique (dropna (map (cell i) (rows V))))) 10
        /\ StronglySorted ranks_before (top ++ others)
        /\ (List.length (unique (dropna (map (cell i) (rows V)))) = 12%nat ->
            List.length top = 10%nat))
  /\ (dj = DtInt64 \/ dj = DtFloat64 ->
      exists top, top_products (category :: rest) (qty :: rest') V = Ok top)
  /\ (dj = DtObject ->
      exists e, top_products (category :: rest) (qty :: rest') V = Raise e).
Proof.
  intros Pc Pq.
  set (keys := map (cell i) (rows V)).
  assert (Gc : getitem V category = Ok (mkSeries d (map (cell i) (rows V))))
    by (unfold getitem; now rewrite Pc).
  assert (Gq : getitem V qty = Ok (mkSeries dj (map (cell j) (rows V))))
    by (unfold getitem; now rewrite Pq).
  split; [|split].
  - intros top T. unfold top_products in T.
    destruct (groupby_sum V category qty) as [g|e] eqn:G; cbn [bind] in T; [|discriminate].
    destruct (groupby_sum_Ok _ _ _ _ _ _ _ _ _ Gc Gq G) as [Eg F].
    apply nlargest_Ok in T as [_ T]. fold keys in F.
    set (items := i_items g) in *.
    set (ranked := sort_by item_geb (filter (fun kv => notna (snd kv)) items)
                   ++ filter (fun kv => negb (notna (snd kv))) items) in *.
    assert (K : map fst items = group_keys keys).
    { apply (groupby_items_keys
               (fun k item => group_sum (mkSeries dj (group_column (cell i) j (rows V) k))
                              = Ok (snd item))), F. }
    assert (P : Permutation ranked items) by apply ranked_perm.
    assert (L : List.length top = Nat.min (List.length (unique (dropna keys))) 10).
    { rewrite T, length_firstn, (Permutation_length P), <- (length_map fst), K.
      rewrite group_keys_length. apply Nat.min_comm. }
    assert (Fi : Forall (fun item =>
                   group_sum (mkSeries dj (group_column (cell i) j (rows V) (fst item)))
                   = Ok (snd item)) items).
    { clear -F. induction F as [|k item ks its [E S] _ IH]; constructor; [|exact IH].
      now rewrite E. }
    exists (skipn 10 ranked). rewrite T, firstn_skipn.
    split; [|split; [|split; [|split; [|split]]]].
    + rewrite (Permutation_map fst P), K. apply sort_by_perm.
    + rewrite Forall_forall in *. intros item Hi. apply Fi.
      eapply Permutation_in; [exact P|exact Hi].
    + intros ->. rewrite Forall_forall in *. intros item Hi.
      apply (Permutation_in _ P), Fi in Hi. rewrite group_sum_int64 in Hi.
      now injection Hi as <-.
    + now rewrite <- T.
    + apply ranked_sorted, keys_sorted_items. rewrite K. apply group_keys_sorted.
    + intros E. rewrite <- T, L, E. reflexivity.
  - intros N. unfold top_products.
    destruct (groupby_sum_numeric V category qty d dj (cell i) j (rows V) N Gc Gq)
      as [items ->].
    cbn [bind]. rewrite (nlargest_numeric 10 dj items N). eauto.
  - intros ->. unfold top_products.
    destruct (groupby_sum V category qty) as [g|e] eqn:G; cbn [bind]; [|eauto].
    destruct (groupby_sum_Ok _ _ _ _ _ _ _ _ _ Gc Gq G) as [Eg _].
    unfold nlargest. rewrite Eg. eauto.
Qed.

Lemma top_products_ranking_witness :
  exists top,
    top_products (pandas := example_pandas) ["Product line"] ["Quantity"] sales_df = Ok top
    /\ List.length top = 3%nat.
Proof.
  destruct (top_products_ranking (pandas := example_pandas) sales_df
              "Product line" "Quantity" [] [] 1 2 DtObject DtInt64 eq_refl eq_refl)
    as (H & T & _).
  destruct (T (or_introl eq_refl)) as [top Ht]. exists top. split; [exact Ht|].
  destruct (H top Ht) as (others & _ & _ & _ & L & _). rewrite L. reflexivity.
Defined.

Example top_products_of_sales :
  top_products (pandas := example_pandas) ["Product line"] ["Quantity"] sales_df
  = Ok [(VStr "Food", VNum 6); (VStr "Sports", VNum 6); (VStr "Health", VNum 3)].
Proof. reflexivity. Qed.

(** C8 as worded fails.  Of eleven products with equal sums, listed from
    K down to A, the table keeps A to J, where keeping the first
    encountered groups would drop A and keep K; and with quantities that
    are text the script gets no table. *)
Lemma top_products_tie_not_first_encountered :
  top_products (pandas := example_pandas) ["Product"] ["Quantity"] tied_products
  <> Ok (first_encountered_top10 0 1 (rows tied_products))
  /\ top_products (pandas := example_pandas) ["Product"] ["Quantity"] text_quantities
     = Raise TypeError.
Proof. split; [vm_compute; discriminate|reflexivity]. Qed.

Example top_products_of_tied :
  top_products (pandas := example_pandas) ["Product"] ["Quantity"] tied_products
  = Ok (map (fun p => (VStr p, VNum 1)) ["A"; "B"; "C"; "D"; "E"; "F"; "G"; "H"; "I"; "J"])
  /\ first_encountered_top10 0 1 (rows tied_products)
     = map (fun p => (VStr p, VNum 1)) ["K"; "J"; "I"; "H"; "G"; "F"; "E"; "D"; "C"; "B"].
Proof. split; reflexivity. Qed.

(** Two int64 quantities of 2^62 add up to -2^63, which ranks the product
    after one sold once. *)
Example top_products_of_large :
  top_products (pandas := example_pandas) ["Product"] ["Quantity"] large_quantities
  = Ok [(VStr "B", VNum 1); (VStr "A", VNum (- 2 ^ 63))].
Proof. vm_compute. reflexivity. Qed.

(** Floats are summed by the library; a missing price is skipped. *)
Example top_products_of_priced :
  top_products (pandas := example_pandas) ["Product"] ["Total"] priced_sales
  = Ok [(VStr "Sports", VFloat (Finite (81 # 4))); (VStr "Food", VFloat (Finite (10 # 1)))].
Proof. vm_compute. reflexivity. Qed.

(** ** Monthly sales *)

Lemma to_datetime_map {pandas : PandasOps} i (rs : list (list Value)) ts :
  mapM to_datetime_cell (map (cell i) rs) = Ok ts -> ts = map (datetime_of i) rs.
Proof.
  revert ts. induction rs as [|r rs IH]; intros ts; simpl.
  - now intros [= <-].
  - unfold datetime_of at 1.
    destruct (to_datetime_cell (cell i r)) as [t|e]; simpl; [|discriminate].
    destruct (mapM to_datetime_cell (map (cell i) rs)) as [ts'|e]; simpl; [|discriminate].
    intros [= <-]. now rewrite (IH ts' eq_refl).
Qed.

Lemma value_ltb_period a b : value_ltb (VPeriod a) (VPeriod b) = true <-> a < b.
Proof.
  unfold value_ltb. simpl. rewrite <- Z.compare_lt_iff.
  destruct (a ?= b); intuition discriminate.
Qed.

Lemma period_keys (l : list Value) :
  (forall v, In v l -> exists m, v = VPeriod m) ->
  StronglySorted (fun a b => value_ltb a b = true) l ->
  exists months, l = map VPeriod months /\ StronglySorted Z.lt months.
Proof.
  intros P S. induction S as [|v l S IH F].
  - exists []. split; constructor.
  - destruct (P v (or_introl eq_refl)) as [m ->].
    destruct IH as (months & -> & Sm); [intros; apply P; now right|].
    exists (m :: months). split; [reflexivity|]. constructor; [assumption|].
    apply Forall_forall. intros x Hx. rewrite Forall_forall in F.
    apply value_ltb_period, F, in_map, Hx.
Qed.

Lemma row_month_period {pandas : PandasOps} i r :
  row_month i r <> VNull -> exists m, row_month i r = VPeriod m.
Proof.
  unfold row_month, period_of. destruct (datetime_of i r); [eauto|congruence].
Qed.

Lemma is_sales_not_Month c : is_sales c = true -> c <> "Month".
Proof. intros H ->. discriminate H. Qed.

(** The month of a valid date determines its year and its month, and
    months are numbered in the order of the calendar. *)
Lemma period_year_month t :
  1 <= d_month (ts_date t) <= 12 ->
  period_year (to_period_M t) = d_year (ts_date t)
  /\ period_month (to_period_M t) = d_month (ts_date t).
Proof.
  intros H. unfold period_year, period_month, to_period_M.
  split; Z.div_mod_to_equations; lia.
Qed.

Lemma period_chronological t t' :
  1 <= d_month (ts_date t) <= 12 ->
  1 <= d_month (ts_date t') <= 12 ->
  (to_period_M t < to_period_M t' <->
   d_year (ts_date t) < d_year (ts_date t')
   \/ (d_year (ts_date t) = d_year (ts_date t')
       /\ d_month (ts_date t) < d_month (ts_date t'))).
Proof. unfold to_period_M. lia. Qed.

Lemma monthly_sales_absent {pandas : PandasOps} df V :
  sales_cols df = [] \/ filter is_date (columns df) = [] ->
  monthly_sales df V = Ok (V, []).
Proof.
  intros [E|E]; unfold monthly_sales.
  - now rewrite E.
  - destruct (sales_cols df); [reflexivity|].
    replace (existsb is_date (columns df)) with false; [reflexivity|].
    symmetry. apply not_true_is_false. intros H.
    apply existsb_exists in H as (c & Hc & Sc).
    assert (In c (filter is_date (columns df))) by (apply filter_In; auto).
    rewrite E in H. contradiction.
Qed.

Lemma Forall2_map_l {A B C} (R : B -> C -> Prop) (f : A -> B) l ys :
  Forall2 R (map f l) ys -> Forall2 (fun a y => R (f a) y) l ys.
Proof.
  revert ys. induction l as [|a l IH]; intros ys H; inversion H; subst; constructor; auto.
Qed.

Lemma Forall2_map_r {A C D} (R : A -> D -> Prop) (h : C -> D) l ys :
  Forall2 (fun a y => R a (h y)) l ys -> Forall2 R l (map h ys).
Proof. induction 1; simpl; constructor; auto. Qed.

(** Chart 1 when both columns are there. *)
Lemma monthly_sales_present {pandas : PandasOps} df V sales rest date_col rest' i d :
  sales_cols df = sales :: rest ->
  filter is_date (columns df) = date_col :: rest' ->
  position date_col (schema V) = Some (i, d) ->
  monthly_sales df V
  = (ts <- mapM to_datetime_cell (map (cell i) (rows V)) ;;
     monthly <- groupby_sum (setitem V "Month" (mkSeries DtPeriod (map period_of ts)))
                            "Month" sales ;;
     Ok (setitem V "Month" (mkSeries DtPeriod (map period_of ts)),
         map (fun kv => (astype_str (fst kv), snd kv)) (i_items monthly))).
Proof.
  intros Hs Hd Pi. unfold monthly_sales. rewrite Hs.
  assert (Ex : existsb is_date (columns df) = true).
  { apply existsb_exists. exists date_col.
    assert (Id : In date_col (filter is_date (columns df))) by (rewrite Hd; now left).
    now apply filter_In in Id. }
  rewrite Ex, Hd. unfold getitem at 1. rewrite Pi. reflexivity.
Qed.

(** C7, as the script has it: with a sales column and a column named as a
    date, whenever the cells of the date column convert to dates and the
    sales column is an int64 or a float64 column, the script gets a monthly
    table, and when a cell of the date column does not convert it raises;
    and a monthly table that the script gets has one line per
    calendar month in which the filtered frame has a row, in increasing
    order of the months, and the line of a month holds the sum of the sales
    column over the rows of that month as the group-by makes it, for an
    int64 column the sum of its integers modulo 2^64.  Without a sales
    column or without a date column the chart has no points, and the
    filtered frame is left as it is. *)
Theorem monthly_sales_trend {pandas : PandasOps} (df V : DataFrame) :
  schema V = schema df ->
  (forall sales rest date_col rest',
      sales_cols df = sales :: rest ->
      filter is_date (columns df) = date_col :: rest' ->
      exists i d j dj,
        position date_col (schema V) = Some (i, d)
        /\ position sales (schema V) = Some (j, dj)
        /\ (dj = DtInt64 \/ dj = DtFloat64 ->
            forallb (fun r => converts (cell i r)) (rows V) = true ->
            exists V' series, monthly_sales df V = Ok (V', series))
        /\ (forallb (fun r => converts (cell i r)) (rows V) = false ->
            exists e, monthly_sales df V = Raise e)
        /\ (forall V' series,
              monthly_sales df V = Ok (V', series) ->
              exists months,
                StronglySorted Z.lt months
                /\ (forall m, In m months <->
                              exists r, In r (rows V) /\ row_month i r = VPeriod m)
                /\ Forall2 (fun m point =>
                              fst point = period_str m
                              /\ group_sum (mkSeries dj (group_column (row_month i) j
                                                           (rows V) (VPeriod m)))
                                 = Ok (snd point))
                           months series
                /\ (dj = DtInt64 ->
                    series = map (fun m => (period_str m,
                                            VNum (wrap64 (group_total (row_month i) j
                                                            (rows V) (VPeriod m)))))
                                 months)))
  /\ (sales_cols df = [] \/ filter is_date (columns df) = [] ->
      monthly_sales df V = Ok (V, [])).
Proof.
  intros ES. split; [|apply monthly_sales_absent].
  intros sales rest date_col rest' Hs Hd.
  assert (Is : In sales (sales_cols df)) by (rewrite Hs; now left).
  assert (Id : In date_col (filter is_date (columns df))) by (rewrite Hd; now left).
  unfold sales_cols in Is. apply filter_In in Is as [Is Ss]. apply filter_In in Id as [Id Sd].
  unfold columns in Is, Id. rewrite <- ES in Is, Id.
  destruct (position_In _ _ Id) as (i & d & Pi).
  destruct (position_In _ _ Is) as (j & dj & Pj).
  exists i, d, j, dj. split; [exact Pi|]. split; [exact Pj|].
  rewrite (monthly_sales_present df V sales rest date_col rest' i d Hs Hd Pi).
  set (keys := group_keys (map (row_month i) (rows V))).
  assert (PK : exists months, keys = map VPeriod months /\ StronglySorted Z.lt months).
  { apply period_keys; [|apply group_keys_sorted].
    intros v Hv. apply group_keys_In in Hv as [Hv Nv].
    apply in_map_iff in Hv as (r & <- & _). now apply row_month_period. }
  destruct PK as (months & Ek & Sm).
  assert (Gm : forall ts, ts = map (datetime_of i) (rows V) ->
            getitem (setitem V "Month" (mkSeries DtPeriod (map period_of ts))) "Month"
            = Ok (mkSeries DtPeriod (map (row_month i) (rows V)))
            /\ getitem (setitem V "Month" (mkSeries DtPeriod (map period_of ts))) sales
               = Ok (mkSeries dj (map (cell j) (rows V)))).
  { intros ts ->. rewrite map_map.
    change (map (fun x => period_of (datetime_of i x)) (rows V))
      with (map (row_month i) (rows V)).
    split; [apply getitem_setitem_same|].
    rewrite getitem_setitem_other by now apply is_sales_not_Month.
    unfold getitem. now rewrite Pj. }
  split; [|split].
  - intros N C.
    destruct (to_datetime_total i (rows V) C) as [ts T]. rewrite T. cbn [bind].
    destruct (Gm ts (to_datetime_map _ _ _ T)) as [G1 G2].
    destruct (groupby_sum_numeric _ _ _ _ _ _ _ _ N G1 G2) as [items ->].
    cbn [bind]. eauto.
  - intros C. destruct (to_datetime_raises i (rows V) C) as [e ->]. cbn [bind]. eauto.
  - intros V' series M.
    destruct (mapM to_datetime_cell (map (cell i) (rows V))) as [ts|e] eqn:T;
      cbn [bind] in M; [|discriminate].
    destruct (Gm ts (to_datetime_map _ _ _ T)) as [G1 G2].
    destruct (groupby_sum (setitem V "Month" (mkSeries DtPeriod (map period_of ts)))
                          "Month" sales) as [g|e] eqn:G; cbn [bind] in M; [|discriminate].
    assert (Es : series = map (fun kv => (astype_str (fst kv), snd kv)) (i_items g))
      by congruence.
    destruct (groupby_sum_Ok _ _ _ _ _ _ _ _ _ G1 G2 G) as [_ F].
    fold keys in F. rewrite Ek in F.
    exists months. split; [exact Sm|]. split; [|split].
    + intros m. transitivity (In (VPeriod m) keys).
      * rewrite Ek. split; [apply in_map|].
        intros H. apply in_map_iff in H as (x & [= ->] & Hx). exact Hx.
      * unfold keys. rewrite group_keys_In, in_map_iff. split.
        -- intros [(r & E & Hr) _]. eauto.
        -- intros (r & Hr & E). split; [eauto|discriminate].
    + rewrite Es. apply Forall2_map_r. apply Forall2_map_l in F.
      eapply Forall2_impl; [|exact F]. simpl. intros m item [E S].
      rewrite E. split; [reflexivity|exact S].
    + intros ->. rewrite Es.
      rewrite (groupby_sum_totals _ _ _ _ _ F).
      rewrite !map_map. reflexivity.
Qed.

Lemma monthly_sales_trend_witness :
  exists V',
    monthly_sales (pandas := example_pandas) sales_df sales_df
    = Ok (V', [("2024-01", VNum 60); ("2024-02", VNum 20)]).
Proof.
  destruct (monthly_sales_trend (pandas := example_pandas) sales_df sales_df eq_refl)
    as [H _].
  destruct (H "Total" [] "Date" [] eq_refl eq_refl)
    as (i & d & j & dj & Pi & Pj & T & _ & K).
  simpl in Pi, Pj. injection Pi as <- <-. injection Pj as <- <-.
  destruct (T (or_introl eq_refl) eq_refl) as (V' & series & E).
  exists V'. rewrite E. vm_compute in E. congruence.
Defined.

Example monthly_sales_of_sales :
  exists V',
    monthly_sales (pandas := example_pandas) sales_df sales_df
    = Ok (V', [("2024-01", VNum 60); ("2024-02", VNum 20)]).
Proof. eexists. reflexivity. Qed.

(** C7 as worded fails: a column named as a date that holds text cannot
    be converted, and the script gets no monthly table. *)
Lemma monthly_sales_text_dates :
  sales_cols text_dates = ["Total"]
  /\ filter is_date (columns text_dates) = ["Update"]
  /\ monthly_sales (pandas := example_pandas) text_dates text_dates = Raise ValueError.
Proof. repeat split. Qed.

(** ** The run of the main page *)

(** What a run that ends without an exception went through. *)
Lemma render_Ok {pandas : PandasOps} df V d :
  render df V = Ok d ->
  exists V' figure1 figure2 figure3 figure4 figure5,
    kpi_total (sales_cols df) V = Ok (total_sales d)
    /\ kpi_total (qty_cols df) V = Ok (total_qty d)
    /\ monthly_sales df V = Ok (V', fig1 d)
    /\ top_products (category_cols df) (qty_cols df) V' = Ok (fig2 d)
    /\ top_products (category_cols df) (sales_cols df) V' = Ok (fig3 d)
    /\ payment_methods (payment_cols df) V' = Ok (fig4 d)
    /\ rating_by_city (city_cols df) (rating_cols df) V' = Ok (fig5 d)
    /\ raw_data d = V' /\ filtered_data_csv d = to_csv V'
    /\ figure1 = monthly_figure df (fig1 d)
    /\ figure2 = products_figure "Quantity" (category_cols df) (qty_cols df) (fig2 d)
    /\ figure3 = products_figure "Sales" (category_cols df) (sales_cols df) (fig3 d)
    /\ figure4 = payment_figure (payment_cols df) (fig4 d)
    /\ figure5 = rating_figure (city_cols df) (rating_cols df) (fig5 d)
    /\ plotly_chart [] figure1 = Ok tt
    /\ plotly_chart [figure1] figure2 = Ok tt
    /\ plotly_chart [figure1; figure2] figure3 = Ok tt
    /\ plotly_chart [figure1; figure2; figure3] figure4 = Ok tt
    /\ plotly_chart [figure1; figure2; figure3; figure4] figure5 = Ok tt.
Proof.
  unfold render.
  destruct (kpi_total (sales_cols df) V) as [ts|]; cbn [bind]; [|discriminate].
  destruct (kpi_total (qty_cols df) V) as [tq|]; cbn [bind]; [|discriminate].
  destruct (monthly_sales df V) as [[V' series]|]; cbn [bind fst snd]; [|discriminate].
  destruct (plotly_chart [] _) as [[]|] eqn:D1; cbn [bind]; [|discriminate].
  destruct (top_products (category_cols df) (qty_cols df) V') as [prod|] eqn:T2;
    cbn [bind]; [|discriminate].
  destruct (plotly_chart [_] _) as [[]|] eqn:D2; cbn [bind]; [|discriminate].
  destruct (top_products (category_cols df) (sales_cols df) V') as [prod_sales|] eqn:T3;
    cbn [bind]; [|discriminate].
  destruct (plotly_chart [_; _] _) as [[]|] eqn:D3; cbn [bind]; [|discriminate].
  destruct (payment_methods (payment_cols df) V') as [payment_df|] eqn:T4;
    cbn [bind]; [|discriminate].
  destruct (plotly_chart [_; _; _] _) as [[]|] eqn:D4; cbn [bind]; [|discriminate].
  destruct (rating_by_city (city_cols df) (rating_cols df) V') as [city_rt|] eqn:T5;
    cbn [bind]; [|discriminate].
  destruct (plotly_chart [_; _; _; _] _) as [[]|] eqn:D5; cbn [bind]; [|discriminate].
  intros [= <-]. cbn [total_sales total_qty fig1 fig2 fig3 fig4 fig5 raw_data
                      filtered_data_csv].
  exists V'. do 5 eexists.
  repeat (split; [first [eassumption|reflexivity]|]). eassumption.
Qed.

(** ** A dataset without a sales column *)

Lemma list_eqb_refl {A} (eqb : A -> A -> bool) l :
  (forall a, eqb a a = true) -> list_eqb eqb l l = true.
Proof. intros H. induction l as [|a l IH]; simpl; [reflexivity|]. now rewrite H, IH. Qed.

Lemma figure_eqb_refl f : figure_eqb f f = true.
Proof.
  destruct f; simpl; rewrite ?String.eqb_refl; try reflexivity; simpl;
    apply list_eqb_refl; intros a;
    rewrite ?String.eqb_refl, ?value_eqb_refl, ?Z.eqb_refl; reflexivity.
Qed.

Lemma unique_element_ids_refuses drawn fig :
  In fig drawn -> unique_element_ids drawn fig = Raise StreamlitDuplicateElementId.
Proof.
  intros H. unfold unique_element_ids.
  replace (existsb (figure_eqb fig) drawn) with true; [reflexivity|].
  symmetry. apply existsb_exists. exists fig. split; [exact H|apply figure_eqb_refl].
Qed.

(** What the script shows for a role without a column. *)
Lemma no_sales_cards {pandas : PandasOps} (df V : DataFrame) :
  (forall c, In c (columns df) -> is_sales c = false) ->
  sales_cols df = []
  /\ kpi_total (sales_cols df) V = Ok (VNum 0)
  /\ monthly_sales df V = Ok (V, [])
  /\ top_products (category_cols df) (sales_cols df) V = Ok []
  /\ (qty_cols df = [] ->
      kpi_total (qty_cols df) V = Ok (VNum 0)
      /\ top_products (category_cols df) (qty_cols df) V = Ok [])
  /\ (category_cols df = [] ->
      forall value_cols, top_products (category_cols df) value_cols V = Ok [])
  /\ (payment_cols df = [] -> payment_methods (payment_cols df) V = Ok [])
  /\ (city_cols df = [] \/ rating_cols df = [] ->
      rating_by_city (city_cols df) (rating_cols df) V = Ok []).
Proof.
  intros H.
  assert (E : sales_cols df = []) by (apply filter_none; exact H).
  assert (T : forall cs, top_products cs [] V = Ok [])
    by (intros cs; unfold top_products; now destruct cs).
  assert (M : monthly_sales df V = Ok (V, []))
    by (unfold monthly_sales; now rewrite E).
  split; [exact E|]. split; [now rewrite E|]. split; [exact M|].
  split; [rewrite E; apply T|]. split; [|split; [|split]].
  - intros ->. split; [reflexivity|apply T].
  - intros -> value_cols. reflexivity.
  - intros ->. reflexivity.
  - intros [->| ->]; [reflexivity|].
    unfold rating_by_city. now destruct (city_cols df).
Qed.

Lemma products_figure_empty label cats vals prod :
  cats = [] \/ vals = [] -> products_figure label cats vals prod = EmptyBar.
Proof. intros [->| ->]; [reflexivity|]. now destruct cats. Qed.

Lemma top_products_empty {pandas : PandasOps} cats vals V :
  cats = [] \/ vals = [] -> top_products cats vals V = Ok [].
Proof. intros [->| ->]; [reflexivity|]. now destruct cats. Qed.

(** C6 on the script: when no column name holds "sales" or "total", the
    Total Sales card shows 0 and the monthly chart has no points, and
    neither raises.  The charts are not independent, though: the figure of a
    chart without its columns is the empty figure, the same for the two
    product charts and for the rating chart, and a Streamlit that refuses a
    figure drawn before raises at the second of them.  Without a sales
    column the sales-by-product chart is empty, so when the dataset also has
    no category or no quantity column the run ends at the sales-by-product
    chart, before the payment chart, the rating chart, the table and the
    download button; and when it has no city or no rating column the run
    does not end without an exception either. *)
Theorem no_sales_column_blocks_charts {pandas : PandasOps} (df V : DataFrame) :
  refuses_repeats pandas ->
  (forall c, In c (columns df) -> is_sales c = false) ->
  kpi_total (sales_cols df) V = Ok (VNum 0)
  /\ monthly_sales df V = Ok (V, [])
  /\ (category_cols df = [] \/ qty_cols df = [] ->
      render df V
      = (total_qty <- kpi_total (qty_cols df) V ;;
         drawn1 <- plotly_chart [] EmptyLine ;;
         drawn2 <- plotly_chart [EmptyLine] EmptyBar ;;
         Raise StreamlitDuplicateElementId))
  /\ (category_cols df = [] \/ qty_cols df = []
      \/ city_cols df = [] \/ rating_cols df = [] ->
      forall d, render df V <> Ok d).
Proof.
  intros Rf H. destruct (no_sales_cards df V H) as (E & K & M & T & _).
  split; [exact K|]. split; [exact M|].
  assert (F1 : forall series, monthly_figure df series = EmptyLine)
    by (intros series; unfold monthly_figure; now rewrite E).
  assert (F3 : forall prod,
            products_figure "Sales" (category_cols df) (sales_cols df) prod = EmptyBar)
    by (intros prod; apply products_figure_empty; now right).
  split.
  - intros C. unfold render. rewrite K. cbn [bind].
    destruct (kpi_total (qty_cols df) V); cbn [bind]; [|reflexivity].
    rewrite M. cbn [bind fst snd]. rewrite F1.
    destruct (plotly_chart [] EmptyLine); cbn [bind]; [|reflexivity].
    rewrite (top_products_empty _ _ V C). cbn [bind].
    rewrite (products_figure_empty "Quantity" _ _ [] C).
    destruct (plotly_chart [EmptyLine] EmptyBar); cbn [bind]; [|reflexivity].
    rewrite T. cbn [bind]. rewrite F3.
    rewrite (Rf [EmptyLine; EmptyBar] EmptyBar) by (simpl; tauto). reflexivity.
  - intros C d R. apply render_Ok in R
      as (V' & f1 & f2 & f3 & f4 & f5 & _ & _ & _ & _ & _ & _ & _ & _ & _
          & E1 & E2 & E3 & E4 & E5 & _ & _ & D3 & _ & D5).
    rewrite F3 in E3. subst f3.
    destruct C as [C|[C|C]].
    + rewrite (products_figure_empty "Quantity" _ _ (fig2 d) (or_introl C)) in E2.
      subst f2. rewrite (Rf [f1; EmptyBar] EmptyBar) in D3 by (simpl; tauto).
      discriminate.
    + rewrite (products_figure_empty "Quantity" _ _ (fig2 d) (or_intror C)) in E2.
      subst f2. rewrite (Rf [f1; EmptyBar] EmptyBar) in D3 by (simpl; tauto).
      discriminate.
    + assert (E5' : f5 = EmptyBar).
      { rewrite E5. unfold rating_figure.
        destruct C as [->| ->]; [reflexivity|]. now destruct (city_cols df). }
      rewrite E5', (Rf [f1; f2; EmptyBar; f4] EmptyBar) in D5 by (simpl; tauto).
      discriminate.
Qed.

Lemma no_sales_column_blocks_charts_witness :
  kpi_total (pandas := example_pandas_unique_ids) (sales_cols visits_df) visits_df
  = Ok (VNum 0)
  /\ monthly_sales (pandas := example_pandas_unique_ids) visits_df visits_df
     = Ok (visits_df, [])
  /\ render (pandas := example_pandas_unique_ids) visits_df visits_df
     = Raise StreamlitDuplicateElementId.
Proof.
  destruct (no_sales_column_blocks_charts (pandas := example_pandas_unique_ids)
              visits_df visits_df)
    as (K & M & R & _).
  - intros drawn fig. apply unique_element_ids_refuses.
  - simpl. intros c [<-|[<-|[<-|[]]]]; reflexivity.
  - split; [exact K|]. split; [exact M|]. rewrite R by (left; reflexivity). reflexivity.
Defined.

(** The run on the uploaded sheet, every widget left as it is drawn: the
    cards and the first two charts are drawn, the third chart raises. *)
Example visits_sheet_run :
  read_excel (pandas := example_pandas_unique_ids) (Sheet visits_sheet) None = Ok visits_df
  /\ dashboard (pandas := example_pandas_unique_ids) default_ui (Sheet visits_sheet)
     = Raise StreamlitDuplicateElementId
  /\ exists d, dashboard (pandas := example_pandas) default_ui (Sheet visits_sheet) = Ok d.
Proof.
  split; [reflexivity|]. split; [vm_compute; reflexivity|].
  eexists. vm_compute. reflexivity.
Qed.

(** ** The export *)

(** The table and the file are made from the frame as chart 1 left it. *)
Lemma render_export {pandas : PandasOps} df V d :
  render df V = Ok d ->
  exists V' series,
    monthly_sales df V = Ok (V', series)
    /\ raw_data d = V' /\ filtered_data_csv d = to_csv V'.
Proof.
  intros R. apply render_Ok in R
    as (V' & f1 & f2 & f3 & f4 & f5 & _ & _ & M & _ & _ & _ & _ & E1 & E2 & _).
  exists V', (fig1 d). repeat split; assumption.
Qed.

(** Without a sales column, or without a column named as a date, the file
    is the filtered frame. *)
Lemma export_without_chart {pandas : PandasOps} df V d :
  sales_cols df = [] \/ filter is_date (columns df) = [] ->
  render df V = Ok d -> filtered_data_csv d = to_csv V.
Proof.
  intros H R. apply render_export in R as (V' & series & M & _ & ->).
  rewrite (monthly_sales_absent df V H) in M. now injection M as <- _.
Qed.

(** C2 on a sheet with a Date and a Total column: the file has a third
    column, Month, which the dataset does not have. *)
Lemma export_has_month_column :
  exists d,
    dashboard (pandas := example_pandas) default_ui (Sheet dated_sale) = Ok d
    /\ columns (raw_data d) = ["Date"; "Total"; "Month"]
    /\ filtered_data_csv d
       = ("Date,Total,Month" ++ one lf ++ "2024-01-05,10,2024-01" ++ one lf)%string
    /\ (exists df V,
          read_excel (pandas := example_pandas) (Sheet dated_sale) None = Ok df
          /\ apply_filters (pandas := example_pandas) df
               (sidebar (pandas := example_pandas) default_ui (Some (Sheet dated_sale)))
             = Ok V
          /\ columns V = ["Date"; "Total"]
          /\ to_csv (pandas := example_pandas) V
             = ("Date,Total" ++ one lf ++ "2024-01-05,10" ++ one lf)%string).
Proof.
  eexists. split; [vm_compute; reflexivity|].
  split; [reflexivity|]. split; [reflexivity|].
  eexists. eexists. split; [reflexivity|]. split; [vm_compute; reflexivity|].
  split; reflexivity.
Qed.

(** The same on the larger sheet, where every chart has its columns and
    no two figures are the same: the Month column is in the table and in the
    file also when Streamlit refuses a figure drawn before. *)
Example export_of_sales_sheet :
  exists d,
    dashboard (pandas := whole_mean_unique_ids) default_ui (Sheet sales_sheet) = Ok d
    /\ columns (raw_data d)
       = ["Date"; "Product line"; "Quantity"; "Total"; "Payment"; "City"; "Rating"; "Month"].
Proof. eexists. split; [vm_compute; reflexivity|reflexivity]. Qed.

(* ================================================================== *)
(** * Further properties *)

(** ** The role lists *)

(** Lines 136-141: a column is in a role list exactly when it is a column
    of the dataset whose name, in lower case, holds one of the keywords of
    the role as a substring. *)
Theorem role_lists_keywords (df : DataFrame) (c : string) :
  (In c (sales_cols df) <->
     In c (columns df) /\ (has_keyword "sales" c \/ has_keyword "total" c))
  /\ (In c (qty_cols df) <->
     In c (columns df) /\ (has_keyword "qty" c \/ has_keyword "quantity" c))
  /\ (In c (city_cols df) <-> In c (columns df) /\ has_keyword "city" c)
  /\ (In c (rating_cols df) <-> In c (columns df) /\ has_keyword "rating" c)
  /\ (In c (category_cols df) <->
     In c (columns df) /\ (has_keyword "product" c \/ has_keyword "category" c))
  /\ (In c (payment_cols df) <-> In c (columns df) /\ has_keyword "payment" c).
Proof.
  unfold sales_cols, qty_cols, city_cols, rating_cols, category_cols, payment_cols,
    is_sales, is_qty, is_city, is_rating, is_category, is_payment, has_keyword.
  rewrite !filter_In, !orb_true_iff, !contains_spec. tauto.
Qed.

Lemma filter_cons_inv {A} (f : A -> bool) l x rest :
  filter f l = x :: rest ->
  exists pre post,
    l = pre ++ x :: post /\ f x = true
    /\ (forall y, In y pre -> f y = false) /\ rest = filter f post.
Proof.
  induction l as [|a l IH]; simpl; [discriminate|].
  destruct (f a) eqn:E.
  - intros [= -> <-]. exists [], l. repeat split; [assumption|intros y []].
  - intros H. destruct (IH H) as (pre & post & -> & Fx & Fp & R).
    exists (a :: pre), post. repeat split; try assumption.
    intros y [<-|Hy]; auto.
Qed.

(** Lines 136-155: the column a card or chart reads, the first of its role
    list, is the first column of the dataset, in sheet order, whose name
    matches the role; the columns before it do not match. *)
Theorem primary_column_is_first (role : (string -> bool) * (DataFrame -> list string))
    (df : DataFrame) (c : string) (rest : list string) :
  In role role_table ->
  snd role df = c :: rest ->
  exists pre post,
    columns df = pre ++ c :: post
    /\ fst role c = true
    /\ (forall x, In x pre -> fst role x = false)
    /\ rest = filter (fst role) post.
Proof.
  intros H E. apply filter_cons_inv.
  simpl in H. repeat (destruct H as [<-|H]; [exact E|]). destruct H.
Qed.

Lemma primary_column_is_first_witness :
  exists pre post,
    columns sales_df = pre ++ "Total" :: post
    /\ is_sales "Total" = true
    /\ (forall x, In x pre -> is_sales x = false)
    /\ [] = filter is_sales post.
Proof.
  apply (primary_column_is_first (is_sales, sales_cols) sales_df "Total" []).
  - simpl. tauto.
  - reflexivity.
Defined.

(** ** Composing filters *)

Lemma foldM_app {A S} (f : S -> A -> result S) l1 l2 s :
  foldM f (l1 ++ l2) s = (s' <- foldM f l1 s ;; foldM f l2 s').
Proof.
  revert s. induction l1 as [|a l1 IH]; intros s; simpl; [reflexivity|].
  destruct (f s a); simpl; [apply IH|reflexivity].
Qed.

(** Running the loop over two lists of filters one after the other is
    running it over the first list and then, on what that leaves, over the
    second; an exception of the first run ends both. *)
Lemma apply_filters_app {pandas : PandasOps} (df : DataFrame) (F G : FilterOptions) :
  apply_filters df (F ++ G) = (V <- apply_filters df F ;; apply_filters V G).
Proof. apply foldM_app. Qed.

Lemma forallb_perm {A} (f : A -> bool) l l' :
  Permutation l l' -> forallb f l = forallb f l'.
Proof.
  induction 1; simpl; try congruence.
  - destruct (f x), (f y); reflexivity.
Qed.

(** Lines 126-133: the order in which the filters are applied does not
    matter.  When every filter can be evaluated on the dataset, the loop
    over the filters in any other order ends as well, with the same
    frame. *)
Theorem apply_filters_any_order {pandas : PandasOps} (df : DataFrame)
    (F F' : FilterOptions) :
  Permutation F F' ->
  forallb (filter_applicable df) F = true ->
  exists V, apply_filters df F = Ok V /\ apply_filters df F' = Ok V.
Proof.
  intros P A.
  destruct (apply_filters_total F df A) as [V HV].
  rewrite (forallb_perm _ _ _ P) in A.
  destruct (apply_filters_total F' df A) as [V' HV'].
  exists V. split; [exact HV|]. rewrite HV'. f_equal.
  apply apply_filters_Ok in HV as [E R]. apply apply_filters_Ok in HV' as [E' R'].
  destruct V as [sv rv], V' as [sv' rv']. simpl in *. subst. f_equal.
  apply filter_ext. intros r. unfold passes_all. symmetry. now apply forallb_perm.
Qed.

Lemma apply_filters_any_order_witness :
  exists V,
    apply_filters (pandas := example_pandas) sales_df yangon_in_january = Ok V
    /\ apply_filters (pandas := example_pandas) sales_df (rev yangon_in_january) = Ok V.
Proof.
  apply (apply_filters_any_order (pandas := example_pandas)).
  - apply Permutation_rev.
  - reflexivity.
Defined.

(** ** The filters the sidebar builds *)

Lemma schema_prober_inv preview_df p :
  schema_prober preview_df = Ok p ->
  categorical_cols p = filter (of_kind preview_df categorical) (columns preview_df)
  /\ date_cols p = filter (of_kind preview_df date) (columns preview_df).
Proof. rewrite schema_prober_Ok. intros [= <-]. split; reflexivity. Qed.

Lemma sidebar_unfold {pandas : PandasOps} ui wb preview_df p :
  NoDup (wb_header wb) ->
  read_excel (Sheet wb) (Some 100%nat) = Ok preview_df ->
  schema_prober preview_df = Ok p ->
  sidebar ui (Some (Sheet wb))
  = fst (date_range_filter ui preview_df (date_cols p)
           (map (fun c => (c, FList (selection ui preview_df c)))
                (firstn 5 (categorical_cols p)))).
Proof.
  intros ND R P. destruct (schema_prober_inv _ _ P) as [Ec _].
  unfold sidebar, try_filters. rewrite R, P.
  rewrite categorical_filters_Ok; [reflexivity| | |intros c _ []].
  - apply Forall_forall. intros c Hc. apply In_firstn_In in Hc.
    rewrite Ec in Hc. now apply filter_In in Hc.
  - apply NoDup_firstn. rewrite Ec. apply NoDup_filter.
    now rewrite (read_excel_columns _ _ _ R).
Qed.

Lemma date_col_fresh preview_df p ui dc rest :
  schema_prober preview_df = Ok p ->
  date_cols p = dc :: rest ->
  ~ In dc (map fst (map (fun c => (c, FList (selection ui preview_df c)))
                        (firstn 5 (categorical_cols p)))).
Proof.
  intros P Ed. destruct (schema_prober_inv _ _ P) as [Ec Edc].
  rewrite selection_keys. intros H. apply In_firstn_In in H.
  rewrite Ec in H. apply (of_kind_disjoint preview_df dc H).
  rewrite <- Edc, Ed. now left.
Qed.

(** The dict of the sidebar: the selections of the first five categorical
    columns, followed by the date range when there is one. *)
Lemma sidebar_cases {pandas : PandasOps} ui wb preview_df p :
  NoDup (wb_header wb) ->
  read_excel (Sheet wb) (Some 100%nat) = Ok preview_df ->
  schema_prober preview_df = Ok p ->
  sidebar ui (Some (Sheet wb))
  = map (fun c => (c, FList (selection ui preview_df c))) (firstn 5 (categorical_cols p))
  \/ exists dc rest start stop,
       date_cols p = dc :: rest
       /\ sidebar ui (Some (Sheet wb))
          = map (fun c => (c, FList (selection ui preview_df c)))
                (firstn 5 (categorical_cols p))
            ++ [(dc, FRange start stop)].
Proof.
  intros ND R P. rewrite (sidebar_unfold ui wb preview_df p ND R P).
  destruct (date_range_filter_cases ui preview_df (date_cols p)
              (map (fun c => (c, FList (selection ui preview_df c)))
                   (firstn 5 (categorical_cols p))))
    as [E|(dc & rest & start & stop & Ed & E)]; [now left|].
  right. exists dc, rest, start, stop. split; [exact Ed|].
  rewrite E. apply dict_set_fresh. eapply date_col_fresh; eassumption.
Qed.

Lemma read_excel_Ok {pandas : PandasOps} wb nrows :
  exists df, read_excel (Sheet wb) nrows = Ok df.
Proof. unfold read_excel. eauto. Qed.

Lemma existsb_value_In v l : existsb (value_eqb v) l = true <-> In v l.
Proof.
  rewrite existsb_exists. split.
  - intros (x & Hx & E). apply value_eqb_eq in E. now subst.
  - intros H. exists v. split; [exact H|apply value_eqb_refl].
Qed.

Lemma categorical_not_numeric preview_df c s :
  of_kind preview_df categorical c = true ->
  getitem preview_df c = Ok s ->
  is_numeric_dtype s = false.
Proof.
  unfold of_kind, probe_kind. intros H G. rewrite G in H.
  destruct (is_datetime64_any_dtype s); [discriminate|].
  now destruct (is_numeric_dtype s).
Qed.

(** Lines 85-92 and 128: when the user leaves a multiselect as it is
    drawn, its filter holds the distinct non-null cells that the first 100
    rows of the sheet have under the name of the column, and a row of the
    dataset passes it exactly when its cell in that column is not null and
    occurs among those cells.  A row with a missing value, or with a value
    that first shows after row 100, is filtered out. *)
Theorem default_selection_keeps_sample_values {pandas : PandasOps}
    (ui : Widgets) (wb : Workbook) :
  NoDup (wb_header wb) ->
  leaves_selection ui ->
  exists preview_df p,
    read_excel (Sheet wb) (Some 100%nat) = Ok preview_df
    /\ schema_prober preview_df = Ok p
    /\ forall c, In c (firstn 5 (categorical_cols p)) ->
         exists k sample,
           nth_error (wb_header wb) k = Some c
           /\ sample = map (cell k) (firstn 100 (wb_rows wb))
           /\ In (c, FList (unique (dropna sample))) (sidebar ui (Some (Sheet wb)))
           /\ forall sch i d r,
                position c sch = Some (i, d) ->
                (row_passes sch (c, FList (unique (dropna sample))) r = true
                 <-> In (cell i r) sample /\ cell i r <> VNull).
Proof.
  intros ND L.
  destruct (read_excel_Ok wb (Some 100%nat)) as [preview_df R].
  exists preview_df. eexists. split; [exact R|]. split; [apply schema_prober_Ok|].
  set (p := mkProbe _ _ _). assert (P : schema_prober preview_df = Ok p)
    by apply schema_prober_Ok.
  intros c Hc.
  assert (Hcat : In c (filter (of_kind preview_df categorical) (columns preview_df))).
  { apply In_firstn_In in Hc. exact Hc. }
  apply filter_In in Hcat as [Hcol Hcat].
  destruct (getitem_In _ _ Hcol) as [s G].
  destruct (read_excel_values _ _ _ _ _ R G (categorical_not_numeric _ _ _ Hcat G))
    as (k & Hh & Hk).
  exists k, (s_values s). split; [exact Hh|]. split; [exact Hk|].
  assert (Es : selection ui preview_df c = unique (dropna (s_values s))).
  { unfold selection. rewrite G. apply L. }
  split.
  - assert (I : In (c, FList (unique (dropna (s_values s))))
                (map (fun c => (c, FList (selection ui preview_df c)))
                     (firstn 5 (categorical_cols p)))).
    { rewrite <- Es. apply (in_map (fun c => (c, FList (selection ui preview_df c)))).
      exact Hc. }
    destruct (sidebar_cases ui wb preview_df p ND R P)
      as [->|(dc & rest & start & stop & _ & ->)]; [exact I|].
    apply in_or_app. now left.
  - intros sch i d r Pi. unfold row_passes. simpl. rewrite Pi.
    rewrite existsb_value_In, unique_In, dropna_In. reflexivity.
Qed.

Lemma default_selection_keeps_sample_values_witness :
  In ("Payment", FList [VStr "Cash"; VStr "Ewallet"])
     (sidebar (pandas := example_pandas) default_ui (Some (Sheet sales_sheet)))
  /\ forall r,
       row_passes (pandas := example_pandas) (schema sales_df)
         ("Payment", FList [VStr "Cash"; VStr "Ewallet"]) r = true
       <-> In (cell 4 r) (map (cell 4) (wb_rows sales_sheet)) /\ cell 4 r <> VNull.
Proof.
  destruct (default_selection_keeps_sample_values (pandas := example_pandas)
              default_ui sales_sheet)
    as (preview_df & p & R & P & H).
  - simpl. repeat constructor; simpl; intuition discriminate.
  - intros label options default. reflexivity.
  - injection R as <-. vm_compute in P. injection P as <-.
    destruct (H "Payment") as (k & sample & Hk & Hs & I & Q).
    + simpl. tauto.
    + assert (k = 4%nat) as ->.
      { do 7 (destruct k as [|k]; [simpl in Hk; congruence|]).
        simpl in Hk. now destruct k. }
      subst sample. split; [exact I|].
      intros r. apply (Q (schema sales_df) 4%nat DtObject r eq_refl).
Defined.

Lemma In_columns_position df c :
  In c (columns df) -> exists i d, position c (schema df) = Some (i, d).
Proof. apply position_In. Qed.

(** Lines 85-100 and 126-133: every key of the dict the sidebar builds is
    a column of the dataset read on the main page, so the filter loop does
    not meet a missing column; it ends whenever the cells of the date
    filter column, if there is a date filter, convert to dates. *)
Theorem sidebar_filters_run {pandas : PandasOps} (ui : Widgets) (wb : Workbook)
    (df : DataFrame) :
  NoDup (wb_header wb) ->
  read_excel (Sheet wb) None = Ok df ->
  (forall item, In item (sidebar ui (Some (Sheet wb))) -> In (fst item) (columns df))
  /\ ((forall item, In item (sidebar ui (Some (Sheet wb))) ->
         is_selection item = false -> filter_applicable df item = true) ->
      exists V, apply_filters df (sidebar ui (Some (Sheet wb))) = Ok V).
Proof.
  intros ND Rd.
  destruct (read_excel_Ok wb (Some 100%nat)) as [preview_df R].
  set (p := mkProbe (filter (of_kind preview_df categorical) (columns preview_df))
                    (filter (of_kind preview_df date) (columns preview_df))
                    (filter (of_kind preview_df numeric) (columns preview_df))).
  assert (P : schema_prober preview_df = Ok p) by apply schema_prober_Ok.
  assert (Ecol : columns df = columns preview_df).
  { now rewrite (read_excel_columns _ _ _ Rd), (read_excel_columns _ _ _ R). }
  assert (K : forall item, In item (sidebar ui (Some (Sheet wb))) ->
                In (fst item) (columns df)).
  { intros item Hi. rewrite Ecol.
    destruct (sidebar_cases ui wb preview_df p ND R P)
      as [E|(dc & rest & start & stop & Ed & E)]; rewrite E in Hi.
    - apply in_map_iff in Hi as (c & <- & Hc). simpl.
      apply In_firstn_In in Hc. simpl in Hc. now apply filter_In in Hc.
    - apply in_app_or in Hi as [Hi|[<-|[]]].
      + apply in_map_iff in Hi as (c & <- & Hc). simpl.
        apply In_firstn_In in Hc. simpl in Hc. now apply filter_In in Hc.
      + simpl. assert (Hd : In dc (date_cols p)) by (rewrite Ed; now left).
        simpl in Hd. now apply filter_In in Hd. }
  split; [exact K|].
  intros A. apply apply_filters_total. apply forallb_forall. intros item Hi.
  destruct (is_selection item) eqn:S; [|now apply A].
  unfold filter_applicable.
  destruct (In_columns_position _ _ (K item Hi)) as (i & d & ->).
  unfold is_selection in S. destruct (snd item); [reflexivity|discriminate].
Qed.

Lemma sidebar_filters_run_witness :
  exists V,
    apply_filters (pandas := example_pandas) sales_df
      (sidebar (pandas := example_pandas) default_ui (Some (Sheet sales_sheet))) = Ok V.
Proof.
  destruct (sidebar_filters_run (pandas := example_pandas) default_ui sales_sheet sales_df)
    as [_ H].
  - simpl. repeat constructor; simpl; intuition discriminate.
  - reflexivity.
  - apply H. intros item Hi S. vm_compute in Hi.
    repeat (destruct Hi as [<-|Hi]; [try discriminate S; reflexivity|]). destruct Hi.
Defined.

(** Lines 95-103: when the date widget gives no complete range, because
    the user picked one date only or because drawing it raised, the dict
    holds the selections of the categorical columns and nothing else: the
    bare [except] keeps what the loop of line 85 wrote. *)
Theorem no_date_range_keeps_selections {pandas : PandasOps} (ui : Widgets) (wb : Workbook) :
  NoDup (wb_header wb) ->
  no_date_range ui ->
  exists preview_df p,
    read_excel (Sheet wb) (Some 100%nat) = Ok preview_df
    /\ schema_prober preview_df = Ok p
    /\ sidebar ui (Some (Sheet wb))
       = map (fun c => (c, FList (selection ui preview_df c)))
             (firstn 5 (categorical_cols p)).
Proof.
  intros ND N.
  destruct (read_excel_Ok wb (Some 100%nat)) as [preview_df R].
  exists preview_df. eexists. split; [exact R|]. split; [apply schema_prober_Ok|].
  rewrite (sidebar_unfold ui wb preview_df _ ND R (schema_prober_Ok preview_df)).
  unfold date_range_filter.
  destruct (date_cols _) as [|dc rest]; [reflexivity|].
  destruct (getitem preview_df dc) as [s|e]; simpl; [|reflexivity].
  destruct (to_datetime s) as [ts|e]; simpl; [|reflexivity].
  destruct (date_input ui "Date Range" (ts_min ts, ts_max ts))
    as [[|a [|b [|x l]]]|e] eqn:D; try reflexivity.
  exfalso. exact (N _ _ _ _ D).
Qed.

Lemma no_date_range_keeps_selections_witness :
  sidebar (pandas := example_pandas) picks_one_date (Some (Sheet sales_sheet))
  = [("Product line", FList [VStr "Food"; VStr "Sports"; VStr "Health"]);
     ("Payment", FList [VStr "Cash"; VStr "Ewallet"]);
     ("City", FList [VStr "Yangon"; VStr "Mandalay"])].
Proof.
  destruct (no_date_range_keeps_selections (pandas := example_pandas)
              picks_one_date sales_sheet)
    as (preview_df & p & R & P & E).
  - simpl. repeat constructor; simpl; intuition discriminate.
  - intros label [[a|] b] start stop; simpl; discriminate.
  - rewrite E. injection R as <-. vm_compute in P. injection P as <-. reflexivity.
Defined.

(** ** The date range *)

Lemma date_compare_Eq a b : date_compare a b = Eq <-> a = b.
Proof.
  unfold date_compare. split.
  - intros E. apply lex_eq in E as [E1 E2]. apply lex_eq in E2 as [E2 E3].
    apply Z.compare_eq in E1, E2, E3. destruct a, b; simpl in *. congruence.
  - intros ->. now rewrite !Z.compare_refl.
Qed.

(** Lines 130-132: a row passes the date filter when its date lies between
    the two dates of the range, both taken at midnight.  A row with no date
    never passes; a row dated on the last day of the range passes only if
    its time is midnight, so a sale later on that day is filtered out. *)
Theorem date_range_edges (start stop : Date) (t : Timestamp) :
  0 <= ts_nanos t ->
  date_mask start stop None = false
  /\ (date_mask start stop (Some t) = true <->
      date_compare start (ts_date t) <> Gt
      /\ (date_compare (ts_date t) stop = Lt
          \/ (ts_date t = stop /\ ts_nanos t = 0)))
  /\ (ts_date t = stop -> 0 < ts_nanos t -> date_mask start stop (Some t) = false).
Proof.
  intros N. split; [reflexivity|].
  assert (M : date_mask start stop (Some t) = true <->
              date_compare start (ts_date t) <> Gt
              /\ (date_compare (ts_date t) stop = Lt
                  \/ (ts_date t = stop /\ ts_nanos t = 0))).
  { unfold date_mask, ts_leb, ts_compare, timestamp_of_date. cbn [ts_date ts_nanos].
    rewrite <- (date_compare_Eq (ts_date t) stop).
    destruct (Z.compare_spec 0 (ts_nanos t)), (Z.compare_spec (ts_nanos t) 0);
      destruct (date_compare start (ts_date t)), (date_compare (ts_date t) stop); simpl;
      split; intros; try discriminate; try reflexivity; try lia;
      try (split; [discriminate|]); try (intuition (discriminate || lia)). }
  split; [exact M|].
  intros E Hn. apply not_true_is_false. rewrite M. intros [_ [H|[_ H]]]; [|lia].
  rewrite E in H. rewrite (proj2 (date_compare_Eq stop stop) eq_refl) in H. discriminate.
Qed.

Lemma date_range_edges_witness :
  date_mask (mkDate 2024 1 1) (mkDate 2024 1 31) (Some (mkTs (mkDate 2024 1 31) 36000)) = false.
Proof.
  apply (date_range_edges (mkDate 2024 1 1) (mkDate 2024 1 31)
           (mkTs (mkDate 2024 1 31) 36000)); simpl; [lia|reflexivity|lia].
Defined.

Lemma ts_leb_iff a b : ts_leb a b = true <-> ts_compare b a <> Lt.
Proof.
  unfold ts_leb. rewrite (ts_compare_antisym a b).
  destruct (ts_compare a b); simpl; intuition congruence.
Qed.

Lemma ts_leb_total a b : ts_leb a b = true \/ ts_leb b a = true.
Proof.
  unfold ts_leb. rewrite (ts_compare_antisym a b).
  destruct (ts_compare a b); simpl; auto.
Qed.

Lemma ts_leb_trans a b c : ts_leb a b = true -> ts_leb b c = true -> ts_leb a c = true.
Proof. rewrite !ts_leb_iff, !ts_compare_Lt. lia. Qed.

Lemma ts_leb_refl a : ts_leb a a = true.
Proof. destruct (ts_leb_total a a); assumption. Qed.

(** The fold of [Series.min] and [Series.max]: the result is a bound of
    what was folded and of every timestamp of the list, and is one of
    them. *)
Lemma fold_pick_bound (better : Timestamp -> Timestamp -> bool) :
  (forall a b, better a b = true \/ better b a = true) ->
  (forall a b c, better a b = true -> better b c = true -> better a c = true) ->
  forall l acc,
    (forall a, acc = Some a ->
       exists m, fold_left (pick better) l acc = Some m /\ better m a = true)
    /\ (forall t, In (Some t) l ->
          exists m, fold_left (pick better) l acc = Some m /\ better m t = true)
    /\ (forall m, fold_left (pick better) l acc = Some m -> acc = Some m \/ In (Some m) l).
Proof.
  intros Tot Tr.
  assert (Rf : forall a, better a a = true) by (intros a; destruct (Tot a a); assumption).
  induction l as [|x l IH]; intros acc; simpl.
  - repeat split.
    + intros a ->. eauto.
    + intros t [].
    + auto.
  - destruct (IH (pick better acc x)) as (I1 & I2 & I3). repeat split.
    + intros a ->. destruct x as [b|]; simpl in *.
      * destruct (better a b) eqn:E.
        -- apply I1. reflexivity.
        -- destruct (I1 b eq_refl) as (m & Em & Hm). exists m. split; [exact Em|].
           apply (Tr m b a Hm). destruct (Tot a b); congruence.
      * apply I1. reflexivity.
    + intros t [->|Ht]; [|now apply I2].
      destruct acc as [a|]; simpl in *.
      * destruct (better a t) eqn:E.
        -- destruct (I1 a eq_refl) as (m & Em & Hm). exists m. split; [exact Em|].
           now apply (Tr m a t).
        -- apply I1. reflexivity.
      * apply I1. reflexivity.
    + intros m Hm. apply I3 in Hm as [Hm|Hm]; [|auto].
      destruct acc as [a|], x as [b|]; simpl in Hm; auto.
      destruct (better a b); injection Hm as <-; auto.
Qed.

Lemma ts_min_bound l t :
  In (Some t) l ->
  exists m, ts_min l = Some m /\ ts_leb m t = true /\ In (Some m) l.
Proof.
  intros H.
  destruct (fold_pick_bound ts_leb ts_leb_total ts_leb_trans l None) as (_ & I2 & I3).
  destruct (I2 t H) as (m & Em & Hm). exists m. repeat split; try assumption.
  destruct (I3 m Em) as [E|E]; [discriminate|exact E].
Qed.

Lemma ts_max_bound l t :
  In (Some t) l ->
  exists m, ts_max l = Some m /\ ts_leb t m = true /\ In (Some m) l.
Proof.
  intros H.
  destruct (fold_pick_bound (fun a b => ts_leb b a)
              (fun a b => ts_leb_total b a)
              (fun a b c H1 H2 => ts_leb_trans c b a H2 H1) l None) as (_ & I2 & I3).
  destruct (I2 t H) as (m & Em & Hm). exists m. repeat split; try assumption.
  destruct (I3 m Em) as [E|E]; [discriminate|exact E].
Qed.

(** Lines 95-100 and 130-132: when the user leaves the date range as it
    is drawn, the range runs from the day of the earliest to the day of the
    latest date of the sample, and the filter written for it lets every
    sample date pass that is at midnight. *)
Theorem default_date_range {pandas : PandasOps} (ui : Widgets) (preview_df : DataFrame)
    (dc : string) (rest : list string) (fo : FilterOptions)
    (s : Series) (ts : list (option Timestamp)) (t : Timestamp) :
  leaves_dates ui ->
  getitem preview_df dc = Ok s ->
  to_datetime s = Ok ts ->
  (forall x, In (Some x) ts -> 0 <= ts_nanos x) ->
  In (Some t) ts ->
  ts_nanos t = 0 ->
  exists lo hi,
    ts_min ts = Some lo /\ ts_max ts = Some hi
    /\ date_range_filter ui preview_df (dc :: rest) fo
       = (dict_set dc (FRange (ts_date lo) (ts_date hi)) fo, Ok tt)
    /\ date_mask (ts_date lo) (ts_date hi) (Some t) = true.
Proof.
  intros L G T N Ht Z0.
  destruct (ts_min_bound ts t Ht) as (lo & Elo & Hlo & Ilo).
  destruct (ts_max_bound ts t Ht) as (hi & Ehi & Hhi & Ihi).
  exists lo, hi. split; [exact Elo|]. split; [exact Ehi|]. split.
  - unfold date_range_filter. rewrite G. simpl. rewrite T. simpl.
    rewrite Elo, Ehi, L. reflexivity.
  - pose proof (N lo Ilo) as Nlo.
    unfold date_mask. apply andb_true_intro.
    rewrite !ts_leb_iff in *. rewrite !ts_compare_Lt in *.
    unfold timestamp_of_date. simpl. split; lia.
Qed.

Lemma default_date_range_witness :
  exists lo hi,
    date_range_filter (pandas := example_pandas) default_ui sales_df ["Date"] []
    = ([("Date", FRange lo hi)], Ok tt)
    /\ date_mask lo hi (Some (mkTs (mkDate 2024 1 20) 0)) = true.
Proof.
  destruct (default_date_range (pandas := example_pandas) default_ui sales_df "Date" [] []
              (mkSeries DtDatetime (map (cell 0) (rows sales_df)))
              (map (fun r => match cell 0 r with VDate x => Some x | _ => None end)
                   (rows sales_df))
              (mkTs (mkDate 2024 1 20) 0))
    as (lo & hi & _ & _ & E & M).
  - intros label a b. reflexivity.
  - reflexivity.
  - reflexivity.
  - simpl. intros x H. repeat (destruct H as [[= <-]|H]; [simpl; lia|]). destruct H.
  - simpl. tauto.
  - reflexivity.
  - exists (ts_date lo), (ts_date hi). split; [exact E|exact M].
Defined.

(** ** Sums over groups *)

Lemma zsum_app l l' : zsum (l ++ l') = zsum l + zsum l'.
Proof. induction l as [|a l IH]; simpl; [reflexivity|]. rewrite IH. lia. Qed.

Lemma zsum_perm l l' : Permutation l l' -> zsum l = zsum l'.
Proof. induction 1; simpl; lia. Qed.

Lemma zsum_numbers_cons v l : zsum (numbers (v :: l)) = cell_number v + zsum (numbers l).
Proof. destruct v; reflexivity. Qed.

Lemma zsum_map_add {A} (a b : A -> Z) l :
  zsum (map (fun k => a k + b k) l) = zsum (map a l) + zsum (map b l).
Proof. induction l as [|x l IH]; simpl; [reflexivity|]. rewrite IH. lia. Qed.

Lemma zsum_map_pick v x ks :
  NoDup ks ->
  zsum (map (fun k => if value_eqb v k then x else 0) ks)
  = if existsb (value_eqb v) ks then x else 0.
Proof.
  induction 1 as [|k ks Hk ND IH]; simpl; [reflexivity|].
  rewrite IH. destruct (value_eqb v k) eqn:E; simpl; [|reflexivity].
  apply value_eqb_eq in E. subst k.
  destruct (existsb (value_eqb v) ks) eqn:X; [|lia].
  apply existsb_value_In in X. contradiction.
Qed.

Lemma group_total_cons f j r rs k :
  group_total f j (r :: rs) k
  = (if value_eqb (f r) k then cell_number (cell j r) else 0) + group_total f j rs k.
Proof.
  unfold group_total, group_column. simpl.
  destruct (value_eqb (f r) k); simpl; [apply zsum_numbers_cons|reflexivity].
Qed.

(** Over distinct keys, the sums of the groups add up to the sum over the
    rows whose key is one of them. *)
Lemma group_totals_sum (f : list Value -> Value) j (rs : list (list Value)) ks :
  NoDup ks ->
  zsum (map (group_total f j rs) ks)
  = zsum (numbers (map (cell j) (filter (fun r => existsb (value_eqb (f r)) ks) rs))).
Proof.
  intros ND. induction rs as [|r rs IH].
  - simpl. induction ks as [|k ks IHk]; simpl; [reflexivity|].
    inversion ND; subst. now rewrite IHk.
  - rewrite (map_ext _ _ (group_total_cons f j r rs)), zsum_map_add, IH.
    rewrite (zsum_map_pick (f r) (cell_number (cell j r)) ks ND). cbn [filter].
    destruct (existsb (value_eqb (f r)) ks); cbn [map]; [|reflexivity].
    now rewrite zsum_numbers_cons.
Qed.

Lemma group_keys_NoDup keys : NoDup (group_keys keys).
Proof.
  eapply Permutation_NoDup; [symmetry; apply sort_by_perm|apply unique_NoDup].
Qed.

Lemma group_keys_totals (f : list Value -> Value) j (rs : list (list Value)) :
  zsum (map (group_total f j rs) (group_keys (map f rs)))
  = zsum (numbers (map (cell j) (filter (fun r => notna (f r)) rs))).
Proof.
  rewrite group_totals_sum by apply group_keys_NoDup. do 3 f_equal.
  apply filter_ext_in. intros r Hr.
  destruct (existsb (value_eqb (f r)) (group_keys (map f rs))) eqn:X.
  - apply existsb_value_In, group_keys_In in X as [_ X]. now destruct (f r).
  - destruct (f r) eqn:E; simpl; try reflexivity;
      (assert (Y : existsb (value_eqb (f r)) (group_keys (map f rs)) = true);
       [apply existsb_value_In, group_keys_In; split;
          [now apply in_map|rewrite E; discriminate]
       |congruence]).
Qed.

Lemma filter_notna_all (f : list Value -> Value) (rs : list (list Value)) :
  (forall r, In r rs -> f r <> VNull) -> filter (fun r => notna (f r)) rs = rs.
Proof.
  intros H. apply filter_all. apply Forall_forall. intros r Hr.
  specialize (H r Hr). now destruct (f r).
Qed.

Lemma points_total_numbers {K} (l : list (K * Value)) :
  points_total l = zsum (map (fun kv => cell_number (snd kv)) l).
Proof.
  unfold points_total. induction l as [|[k v] l IH]; [reflexivity|].
  simpl map. rewrite zsum_numbers_cons. simpl. now rewrite <- IH.
Qed.

Lemma points_total_totals {K} (h : Value -> K) (total : Value -> Z) keys :
  points_total (map (fun g => (h g, VNum (total g))) keys) = zsum (map total keys).
Proof.
  unfold points_total. induction keys as [|k keys IH]; [reflexivity|].
  simpl. simpl in IH. now rewrite IH.
Qed.

(** int64 addition: the sum of wrapped numbers wraps to the wrapped sum,
    and a number in the int64 range is left as it is. *)
Lemma wrap64_add_r a b : wrap64 (a + wrap64 b) = wrap64 (a + b).
Proof.
  unfold wrap64. f_equal.
  replace (a + ((b + 2 ^ 63) mod 2 ^ 64 - 2 ^ 63) + 2 ^ 63)
    with (a + (b + 2 ^ 63) mod 2 ^ 64) by lia.
  rewrite Zplus_mod_idemp_r. f_equal. lia.
Qed.

Lemma wrap64_add_l a b : wrap64 (wrap64 a + b) = wrap64 (a + b).
Proof. now rewrite Z.add_comm, wrap64_add_r, Z.add_comm. Qed.

Lemma wrap64_small z : - 2 ^ 63 <= z < 2 ^ 63 -> wrap64 z = z.
Proof. intros H. unfold wrap64. rewrite Z.mod_small; lia. Qed.

Lemma wrap64_zsum_map {A} (t : A -> Z) l :
  wrap64 (zsum (map (fun k => wrap64 (t k)) l)) = wrap64 (zsum (map t l)).
Proof.
  induction l as [|a l IH]; [reflexivity|]. simpl.
  now rewrite wrap64_add_l, <- wrap64_add_r, IH, wrap64_add_r.
Qed.

Lemma kpi_total_int64 {pandas : PandasOps} V c rest j :
  position c (schema V) = Some (j, DtInt64) ->
  kpi_total (c :: rest) V = Ok (VNum (wrap64 (zsum (numbers (map (cell j) (rows V)))))).
Proof. intros P. unfold kpi_total, getitem. rewrite P. reflexivity. Qed.

(** The monthly table of an int64 sales column. *)
Lemma monthly_sales_int64 {pandas : PandasOps} df V sales rest date_col rest' i d j
    V' series :
  sales_cols df = sales :: rest ->
  filter is_date (columns df) = date_col :: rest' ->
  position date_col (schema V) = Some (i, d) ->
  position sales (schema V) = Some (j, DtInt64) ->
  monthly_sales df V = Ok (V', series) ->
  V' = setitem V "Month" (mkSeries DtPeriod (map (row_month i) (rows V)))
  /\ series = map (fun g => (astype_str g,
                             VNum (wrap64 (group_total (row_month i) j (rows V) g))))
                  (group_keys (map (row_month i) (rows V))).
Proof.
  intros Hs Hd Pi Pj M.
  rewrite (monthly_sales_present df V sales rest date_col rest' i d Hs Hd Pi) in M.
  destruct (mapM to_datetime_cell (map (cell i) (rows V))) as [ts|e] eqn:T;
    cbn [bind] in M; [|discriminate].
  apply to_datetime_map in T. subst ts. rewrite map_map in M.
  change (map (fun x => period_of (datetime_of i x)) (rows V))
    with (map (row_month i) (rows V)) in M.
  assert (Is : is_sales sales = true).
  { assert (I : In sales (sales_cols df)) by (rewrite Hs; now left).
    unfold sales_cols in I. now apply filter_In in I. }
  rewrite (groupby_sum_int64 _ "Month" sales DtPeriod (row_month i) j (rows V)) in M.
  - cbn [bind i_items] in M. rewrite map_map in M. cbn [fst snd] in M.
    split; congruence.
  - apply getitem_setitem_same.
  - rewrite getitem_setitem_other by now apply is_sales_not_Month.
    unfold getitem. now rewrite Pj.
Qed.

(** Lines 149 and 176-177: with an int64 sales column, the points of the
    monthly chart add up, as int64 numbers do, to the sales of the rows that
    have a date; when every row of the filtered frame has a date they add
    up to the Total Sales card. *)
Theorem monthly_points_add_up {pandas : PandasOps} (df V V' : DataFrame)
    (sales date_col : string) (rest rest' : list string) (i j : nat) (d : Dtype)
    (series : list (string * Value)) :
  sales_cols df = sales :: rest ->
  filter is_date (columns df) = date_col :: rest' ->
  position date_col (schema V) = Some (i, d) ->
  position sales (schema V) = Some (j, DtInt64) ->
  monthly_sales df V = Ok (V', series) ->
  wrap64 (points_total series)
  = wrap64 (zsum (numbers (map (cell j)
                             (filter (fun r => notna (row_month i r)) (rows V)))))
  /\ ((forall r, In r (rows V) -> row_month i r <> VNull) ->
      kpi_total (sales_cols df) V = Ok (VNum (wrap64 (points_total series)))).
Proof.
  intros Hs Hd Pi Pj M.
  destruct (monthly_sales_int64 _ _ _ _ _ _ _ _ _ _ _ Hs Hd Pi Pj M) as [_ ->].
  rewrite (points_total_totals astype_str
             (fun g => wrap64 (group_total (row_month i) j (rows V) g))).
  rewrite wrap64_zsum_map, group_keys_totals. split; [reflexivity|].
  intros H. rewrite Hs, (kpi_total_int64 V sales rest j Pj).
  now rewrite (filter_notna_all _ _ H).
Qed.

Lemma monthly_points_add_up_witness :
  kpi_total (pandas := example_pandas) (sales_cols sales_df) sales_df
  = Ok (VNum (wrap64 (points_total [("2024-01", VNum 60); ("2024-02", VNum 20)]))).
Proof.
  apply (monthly_points_add_up (pandas := example_pandas) sales_df sales_df
           (setitem sales_df "Month"
              (mkSeries DtPeriod (map (row_month (pandas := example_pandas) 0)
                                      (rows sales_df))))
           "Total" "Date" [] [] 0 3 DtDatetime
           [("2024-01", VNum 60); ("2024-02", VNum 20)]
           eq_refl eq_refl eq_refl eq_refl eq_refl).
  simpl. intros r H. repeat (destruct H as [<-|H]; [discriminate|]). destruct H.
Defined.

(** Lines 155 and 197: with an int64 quantity column and at most ten
    products, no product is left out of the chart, and its bars add up, as
    int64 numbers do, to the quantities of the rows that have a product;
    when every row of the filtered frame has one they add up to the Products
    Sold card. *)
Theorem top_products_add_up {pandas : PandasOps} (V : DataFrame)
    (category qty : string) (rest rest' : list string) (i j : nat) (d : Dtype)
    (top : list (Value * Value)) :
  position category (schema V) = Some (i, d) ->
  position qty (schema V) = Some (j, DtInt64) ->
  top_products (category :: rest) (qty :: rest') V = Ok top ->
  (List.length (unique (dropna (map (cell i) (rows V)))) <= 10)%nat ->
  (forall g, In g (map fst top) <-> In g (map (cell i) (rows V)) /\ g <> VNull)
  /\ wrap64 (points_total top)
     = wrap64 (zsum (numbers (map (cell j)
                                (filter (fun r => notna (cell i r)) (rows V)))))
  /\ ((forall r, In r (rows V) -> cell i r <> VNull) ->
      kpi_total (qty :: rest') V = Ok (VNum (wrap64 (points_total top)))).
Proof.
  intros Pc Pq T L.
  set (items := map (fun g => (g, VNum (wrap64 (group_total (cell i) j (rows V) g))))
                    (group_keys (map (cell i) (rows V)))).
  assert (P : Permutation top items).
  { unfold top_products in T.
    rewrite (groupby_sum_int64 V category qty d (cell i) j (rows V)) in T;
      [|unfold getitem; now rewrite Pc|unfold getitem; now rewrite Pq].
    cbn [bind] in T. fold items in T. apply nlargest_Ok in T as [_ T].
    cbn [i_items] in T. rewrite firstn_all2 in T.
    - rewrite T. apply ranked_perm.
    - rewrite (Permutation_length (ranked_perm items)). unfold items.
      rewrite length_map, group_keys_length. exact L. }
  assert (S : wrap64 (points_total top)
              = wrap64 (zsum (numbers (map (cell j)
                                         (filter (fun r => notna (cell i r)) (rows V)))))).
  { rewrite points_total_numbers,
      (zsum_perm _ _ (Permutation_map (fun kv => cell_number (snd kv)) P)).
    rewrite <- points_total_numbers. unfold items.
    rewrite (points_total_totals (fun g => g)
               (fun g => wrap64 (group_total (cell i) j (rows V) g))).
    now rewrite wrap64_zsum_map, group_keys_totals. }
  split; [|split; [exact S|]].
  - intros g. rewrite <- group_keys_In.
    assert (K : map fst items = group_keys (map (cell i) (rows V))).
    { unfold items. rewrite map_map. apply map_id. }
    rewrite <- K. split; apply Permutation_in; [|symmetry]; now apply Permutation_map.
  - intros H. rewrite (kpi_total_int64 V qty rest' j Pq), S.
    now rewrite (filter_notna_all _ _ H).
Qed.

Lemma top_products_add_up_witness :
  kpi_total (pandas := example_pandas) ["Quantity"] sales_df
  = Ok (VNum (wrap64 (points_total [(VStr "Food", VNum 6); (VStr "Sports", VNum 6);
                                    (VStr "Health", VNum 3)]))).
Proof.
  apply (top_products_add_up (pandas := example_pandas) sales_df
           "Product line" "Quantity" [] [] 1 2 DtObject
           [(VStr "Food", VNum 6); (VStr "Sports", VNum 6); (VStr "Health", VNum 3)]
           eq_refl eq_refl eq_refl).
  - simpl. lia.
  - simpl. intros r H. repeat (destruct H as [<-|H]; [discriminate|]). destruct H.
Defined.

(** Floats are added by the library: the card of a float64 column. *)
Example kpi_total_of_priced :
  kpi_total (pandas := example_pandas) ["Total"] priced_sales
  = Ok (VFloat (Finite (121 # 4))).
Proof. vm_compute. reflexivity. Qed.

(** ** Payment methods *)

Lemma count_pick v ks :
  NoDup ks ->
  zsum (map (fun k => if value_eqb k v then 1 else 0) ks)
  = if existsb (fun k => value_eqb k v) ks then 1 else 0.
Proof.
  induction 1 as [|k ks Hk ND IH]; simpl; [reflexivity|].
  rewrite IH. destruct (value_eqb k v) eqn:E; simpl; [|reflexivity].
  apply value_eqb_eq in E. subst k.
  destruct (existsb (fun k => value_eqb k v) ks) eqn:X; [|lia].
  apply existsb_exists in X as (x & Hx & Ex). apply value_eqb_eq in Ex. subst x.
  contradiction.
Qed.

Lemma Sorted_impl {A} (R R' : A -> A -> Prop) l :
  (forall a b, R a b -> R' a b) -> Sorted R l -> Sorted R' l.
Proof.
  intros H. induction 1 as [|a l S IH Hd]; constructor; [exact IH|].
  destruct Hd; constructor. now apply H.
Qed.

(** Over distinct values, the counts add up to the number of cells equal
    to one of them. *)
Lemma occurrences_sum ks l :
  NoDup ks ->
  zsum (map (fun k => occurrences k l) ks)
  = Z.of_nat (List.length (filter (fun v => existsb (fun k => value_eqb k v) ks) l)).
Proof.
  intros ND. unfold occurrences. induction l as [|v l IH].
  - simpl. induction ks as [|k ks IHk]; simpl; [reflexivity|].
    inversion ND; subst. now rewrite IHk.
  - rewrite (map_ext _ (fun k => (if value_eqb k v then 1 else 0)
                                 + Z.of_nat (List.length (filter (value_eqb k) l)))).
    + rewrite zsum_map_add, IH, (count_pick v ks ND). cbn [filter].
      destruct (existsb (fun k => value_eqb k v) ks); cbn [List.length]; lia.
    + intros k. cbn [filter]. destruct (value_eqb k v); cbn [List.length]; lia.
Qed.

Lemma occurrences_dropna v l : v <> VNull -> occurrences v (dropna l) = occurrences v l.
Proof.
  intros N. unfold occurrences, dropna. rewrite filter_filter. do 2 f_equal.
  apply filter_ext. intros w. destruct w; simpl; try reflexivity.
  destruct v; simpl; try reflexivity. congruence.
Qed.

(** Lines 221-223: the payment table has one line per payment method that
    occurs in the filtered frame, holding the number of rows with that
    method; rows without a method are not counted, the counts add up to the
    number of rows that have one, and the lines come in decreasing order of
    their counts. *)
Theorem payment_distribution (V : DataFrame) (payment : string) (rest : list string)
    (i : nat) (d : Dtype) :
  position payment (schema V) = Some (i, d) ->
  exists dist,
    payment_methods (payment :: rest) V = Ok dist
    /\ NoDup (map fst dist)
    /\ (forall v n, In (v, n) dist <->
                    In v (map (cell i) (rows V)) /\ v <> VNull
                    /\ n = occurrences v (map (cell i) (rows V)))
    /\ zsum (map snd dist) = Z.of_nat (List.length (dropna (map (cell i) (rows V))))
    /\ StronglySorted (fun a b => snd b <= snd a) dist.
Proof.
  intros P. set (cells := map (cell i) (rows V)).
  set (counts := map (fun v => (v, occurrences v (dropna cells))) (unique (dropna cells))).
  set (leb := fun a b : Value * Z => snd b <=? snd a).
  exists (sort_by leb counts).
  assert (Pm : Permutation (sort_by leb counts) counts) by apply sort_by_perm.
  assert (Kc : map fst counts = unique (dropna cells)).
  { unfold counts. rewrite map_map. apply map_id. }
  split; [|split; [|split; [|split]]].
  - unfold payment_methods, getitem. rewrite P. reflexivity.
  - eapply Permutation_NoDup; [symmetry; apply Permutation_map, Pm|].
    rewrite Kc. apply unique_NoDup.
  - intros v n. split.
    + intros H. apply (Permutation_in _ Pm) in H.
      apply in_map_iff in H as (w & [= -> <-] & Hw).
      apply unique_In, dropna_In in Hw as [Hw Nw].
      repeat split; try assumption. now apply occurrences_dropna.
    + intros (Hv & Nv & ->). apply (Permutation_in _ (Permutation_sym Pm)).
      apply in_map_iff. exists v. split.
      * now rewrite occurrences_dropna.
      * apply unique_In, dropna_In. now split.
  - rewrite (zsum_perm _ _ (Permutation_map snd Pm)). unfold counts.
    rewrite map_map. simpl. rewrite occurrences_sum by apply unique_NoDup.
    do 2 f_equal. apply filter_all. apply Forall_forall. intros v Hv.
    apply existsb_exists. exists v. split; [now apply unique_In|apply value_eqb_refl].
  - apply Sorted_StronglySorted.
    + intros a b c. lia.
    + assert (S : Sorted (fun a b => leb a b = true) (sort_by leb counts)).
      { apply sort_by_sorted. intros a b. unfold leb.
        destruct (Z.leb_spec (snd b) (snd a)), (Z.leb_spec (snd a) (snd b)); auto; lia. }
      eapply Sorted_impl; [|exact S]. intros a b. unfold leb. lia.
Qed.

Lemma payment_distribution_witness :
  payment_methods ["Payment"] sales_df = Ok [(VStr "Cash", 3); (VStr "Ewallet", 2)].
Proof.
  destruct (payment_distribution sales_df "Payment" [] 4 DtObject eq_refl)
    as (dist & E & _).
  rewrite E. vm_compute in E. congruence.
Defined.

(** ** Rating by city *)

(** Lines 234-235: a rating table that the script gets has one line per
    city named in the filtered frame, in increasing order of the cities,
    and the line of a city holds the mean of the rating cells of the rows
    of that city; rows without a city are in no line. *)
Theorem rating_by_city_lines {pandas : PandasOps} (V : DataFrame)
    (city rating : string) (rest rest' : list string) (i j : nat) (d dj : Dtype)
    (table : list (Value * Value)) :
  position city (schema V) = Some (i, d) ->
  position rating (schema V) = Some (j, dj) ->
  rating_by_city (city :: rest) (rating :: rest') V = Ok table ->
  Forall2 (fun g line =>
             fst line = g
             /\ series_mean dj (group_column (cell i) j (rows V) g) = Ok (snd line))
          (group_keys (map (cell i) (rows V))) table
  /\ StronglySorted key_before table
  /\ (forall g, In g (map fst table) <-> In g (map (cell i) (rows V)) /\ g <> VNull).
Proof.
  intros Pc Pr T. unfold rating_by_city, getitem in T. rewrite Pc, Pr in T.
  cbn [bind s_values s_dtype] in T.
  match type of T with context [mapM ?h ?l] =>
    destruct (mapM h l) as [means|e] eqn:M end; cbn [bind] in T; [|discriminate].
  destruct (String.eqb city rating); [discriminate|].
  injection T as ->. rename M into T. apply mapM_Forall2 in T.
  assert (F : Forall2 (fun g line =>
                fst line = g
                /\ series_mean dj (group_column (cell i) j (rows V) g) = Ok (snd line))
              (group_keys (map (cell i) (rows V))) table).
  { eapply Forall2_impl; [|exact T]. intros g line. simpl.
    rewrite group_cells_rows. fold (group_column (cell i) j (rows V) g).
    destruct (series_mean dj (group_column (cell i) j (rows V) g)); simpl;
      [|discriminate].
    intros [= <-]. split; reflexivity. }
  assert (K : map fst table = group_keys (map (cell i) (rows V))).
  { clear T. induction F as [|g line gs lines [E _] _ IH]; simpl; congruence. }
  split; [exact F|]. split.
  - assert (S : StronglySorted (fun a b => value_ltb a b = true) (map fst table))
      by (rewrite K; apply group_keys_sorted).
    clear -S. induction table as [|a l IH]; [constructor|].
    inversion S as [|? ? S' Fa]; subst. constructor; [now apply IH|].
    apply Forall_forall. intros b Hb. rewrite Forall_forall in Fa.
    apply Fa. now apply in_map.
  - intros g. rewrite K. apply group_keys_In.
Qed.

Lemma rating_by_city_lines_witness :
  StronglySorted key_before [(VStr "Mandalay", VNum 7); (VStr "Yangon", VNum 7)].
Proof.
  apply (rating_by_city_lines (pandas := whole_mean_pandas)
           sales_df "City" "Rating" [] [] 5 6 DtObject DtInt64
           [(VStr "Mandalay", VNum 7); (VStr "Yangon", VNum 7)] eq_refl eq_refl).
  reflexivity.
Defined.

(** ** The Month column and the other charts *)

Lemma monthly_sales_frame {pandas : PandasOps} df V V' series :
  monthly_sales df V = Ok (V', series) ->
  V' = V \/ exists f, V' = setitem V "Month" (mkSeries DtPeriod (map f (rows V))).
Proof.
  unfold monthly_sales.
  destruct (sales_cols df) as [|sales rest]; [intros [= <- _]; now left|].
  destruct (existsb is_date (columns df)); [|intros [= <- _]; now left].
  destruct (filter is_date (columns df)) as [|date_col rest']; [discriminate|].
  unfold getitem at 1.
  destruct (position date_col (schema V)) as [[i d]|]; cbn [bind]; [|discriminate].
  unfold to_datetime. cbn [s_values].
  destruct (mapM to_datetime_cell (map (cell i) (rows V))) as [ts|e] eqn:T;
    cbn [bind]; [|discriminate].
  apply to_datetime_map in T. subst ts.
  match goal with |- context [groupby_sum ?a ?b ?c] =>
    destruct (groupby_sum a b c) as [g|e] end; cbn [bind]; [|discriminate].
  intros [= <- _]. right. exists (fun r => period_of (datetime_of i r)).
  now rewrite map_map.
Qed.

Lemma getitem_after_month {pandas : PandasOps} df V V' series c :
  monthly_sales df V = Ok (V', series) -> c <> "Month" -> getitem V' c = getitem V c.
Proof.
  intros M N. destruct (monthly_sales_frame _ _ _ _ M) as [->|[f ->]]; [reflexivity|].
  now apply getitem_setitem_other.
Qed.

Lemma groupby_sum_ext {pandas : PandasOps} A B key val :
  getitem A key = getitem B key -> getitem A val = getitem B val ->
  groupby_sum A key val = groupby_sum B key val.
Proof. intros K V. unfold groupby_sum. now rewrite K, V. Qed.

Lemma role_not_Month (c : string) :
  (is_sales c = true \/ is_qty c = true \/ is_city c = true \/ is_rating c = true
   \/ is_category c = true \/ is_payment c = true) -> c <> "Month".
Proof. intros H ->. repeat (destruct H as [H|H]; [discriminate H|]). discriminate H. Qed.

Lemma filter_head_true {A} (f : A -> bool) l x rest : filter f l = x :: rest -> f x = true.
Proof.
  intros E. assert (I : In x (filter f l)) by (rewrite E; now left).
  now apply filter_In in I.
Qed.

Lemma rows_after_month {pandas : PandasOps} df V V' series :
  monthly_sales df V = Ok (V', series) -> List.length (rows V') = List.length (rows V).
Proof.
  intros M. destruct (monthly_sales_frame _ _ _ _ M) as [->|[f ->]]; [reflexivity|].
  unfold setitem. simpl.
  destruct (position "Month" (schema V)) as [[i d]|]; simpl;
    now rewrite length_map, length_combine, length_map, Nat.min_id.
Qed.

Lemma top_products_after_month {pandas : PandasOps} df V V' series vals :
  monthly_sales df V = Ok (V', series) ->
  (forall v r, vals = v :: r -> v <> "Month") ->
  top_products (category_cols df) vals V' = top_products (category_cols df) vals V.
Proof.
  intros M Hv. unfold top_products, category_cols.
  destruct (filter is_category (columns df)) as [|c r] eqn:Ec; [reflexivity|].
  destruct vals as [|v r']; [reflexivity|].
  rewrite (groupby_sum_ext V' V c v); [reflexivity| |].
  - apply (getitem_after_month _ _ _ _ _ M), role_not_Month.
    apply filter_head_true in Ec. tauto.
  - apply (getitem_after_month _ _ _ _ _ M). eapply Hv. reflexivity.
Qed.

Lemma role_head_not_Month (f : string -> bool) l v r :
  (forall c, f c = true ->
     is_sales c = true \/ is_qty c = true \/ is_city c = true \/ is_rating c = true
     \/ is_category c = true \/ is_payment c = true) ->
  filter f l = v :: r -> v <> "Month".
Proof. intros H E. apply filter_head_true in E. apply role_not_Month. auto. Qed.

Lemma payment_after_month {pandas : PandasOps} df V V' series :
  monthly_sales df V = Ok (V', series) ->
  payment_methods (payment_cols df) V' = payment_methods (payment_cols df) V.
Proof.
  intros M. unfold payment_methods, payment_cols.
  destruct (filter is_payment (columns df)) as [|c r] eqn:Ec; [reflexivity|].
  rewrite (getitem_after_month _ _ _ _ c M); [reflexivity|].
  eapply (role_head_not_Month is_payment); [|exact Ec]. tauto.
Qed.

Lemma rating_after_month {pandas : PandasOps} df V V' series :
  monthly_sales df V = Ok (V', series) ->
  rating_by_city (city_cols df) (rating_cols df) V'
  = rating_by_city (city_cols df) (rating_cols df) V.
Proof.
  intros M. unfold rating_by_city, city_cols, rating_cols.
  destruct (filter is_city (columns df)) as [|c r] eqn:Ec; [reflexivity|].
  destruct (filter is_rating (columns df)) as [|c' r'] eqn:Er; [reflexivity|].
  rewrite (getitem_after_month _ _ _ _ c M), (getitem_after_month _ _ _ _ c' M);
    [reflexivity| |].
  - eapply (role_head_not_Month is_rating); [|exact Er]. tauto.
  - eapply (role_head_not_Month is_city); [|exact Ec]. tauto.
Qed.

(** Lines 176 and 196-238: the Month column that chart 1 writes into the
    filtered frame changes no other column and no number of rows, and the
    charts drawn after it, the two product charts, the payment chart and
    the rating chart, are those of the filtered frame as the filters left
    it. *)
Theorem month_column_leaves_charts {pandas : PandasOps} (df V : DataFrame) (d : Dashboard) :
  render df V = Ok d ->
  top_products (category_cols df) (qty_cols df) V = Ok (fig2 d)
  /\ top_products (category_cols df) (sales_cols df) V = Ok (fig3 d)
  /\ payment_methods (payment_cols df) V = Ok (fig4 d)
  /\ rating_by_city (city_cols df) (rating_cols df) V = Ok (fig5 d)
  /\ List.length (rows (raw_data d)) = List.length (rows V)
  /\ (forall c, c <> "Month" -> getitem (raw_data d) c = getitem V c).
Proof.
  intros R. apply render_Ok in R
    as (V' & f1 & f2 & f3 & f4 & f5 & _ & _ & M & T2 & T3 & T4 & T5 & E & _).
  rewrite (top_products_after_month df V V' (fig1 d) (qty_cols df) M) in T2.
  2:{ intros v r. apply (role_head_not_Month is_qty). tauto. }
  rewrite (top_products_after_month df V V' (fig1 d) (sales_cols df) M) in T3.
  2:{ intros v r. apply (role_head_not_Month is_sales). tauto. }
  rewrite (payment_after_month df V V' (fig1 d) M) in T4.
  rewrite (rating_after_month df V V' (fig1 d) M) in T5.
  rewrite E. repeat split; try assumption.
  - eapply rows_after_month, M.
  - intros c. eapply getitem_after_month, M.
Qed.

Lemma month_column_leaves_charts_witness :
  exists d,
    render (pandas := whole_mean_pandas) sales_df sales_df = Ok d
    /\ columns (raw_data d) = columns sales_df ++ ["Month"]
    /\ top_products (pandas := whole_mean_pandas) (category_cols sales_df)
         (qty_cols sales_df) sales_df = Ok (fig2 d).
Proof.
  eexists. split; [vm_compute; reflexivity|]. split; [reflexivity|].
  apply (month_column_leaves_charts (pandas := whole_mean_pandas) sales_df sales_df).
  vm_compute. reflexivity.
Defined.

(** ** An empty filtered frame *)

Lemma setitem_no_rows df c s : rows df = [] -> rows (setitem df c s) = [].
Proof.
  intros E. unfold setitem. rewrite E.
  destruct (position c (schema df)) as [[i d]|]; reflexivity.
Qed.

Lemma monthly_sales_no_rows {pandas : PandasOps} df V :
  schema V = schema df -> rows V = [] ->
  (forall sales rest j d,
     sales_cols df = sales :: rest -> position sales (schema V) = Some (j, d) ->
     d = DtInt64 \/ d = DtFloat64) ->
  exists V', monthly_sales df V = Ok (V', []) /\ rows V' = [].
Proof.
  intros ES E Hn.
  destruct (sales_cols df) as [|sales rest] eqn:Hs.
  { exists V. split; [|exact E]. apply monthly_sales_absent. now left. }
  destruct (filter is_date (columns df)) as [|date_col rest'] eqn:Hd.
  { exists V. split; [|exact E]. apply monthly_sales_absent. now right. }
  assert (Id : In date_col (columns V)).
  { unfold columns. rewrite ES. fold (columns df).
    assert (I : In date_col (filter is_date (columns df))) by (rewrite Hd; now left).
    now apply filter_In in I. }
  assert (Is : In sales (columns V) /\ is_sales sales = true).
  { unfold columns. rewrite ES. fold (columns df).
    assert (I : In sales (sales_cols df)) by (rewrite Hs; now left).
    unfold sales_cols in I. now apply filter_In in I. }
  destruct Is as [Is Ss].
  destruct (position_In _ _ Id) as (i & d & Pi).
  destruct (position_In _ _ Is) as (j & dj & Pj).
  rewrite (monthly_sales_present df V sales rest date_col rest' i d Hs Hd Pi).
  rewrite E. cbn [map mapM bind].
  set (V' := setitem V "Month" (mkSeries DtPeriod [])).
  assert (G1 : getitem V' "Month" = Ok (mkSeries DtPeriod [])).
  { pose proof (getitem_setitem_same V "Month" DtPeriod (fun _ => VNull)) as G.
    rewrite E in G. exact G. }
  assert (G2 : getitem V' sales = Ok (mkSeries dj [])).
  { pose proof (getitem_setitem_other V "Month" sales DtPeriod (fun _ => VNull)
                  (is_sales_not_Month _ Ss)) as G.
    rewrite E in G. unfold V'. simpl in G. rewrite G.
    unfold getitem. now rewrite Pj, E. }
  exists V'. split.
  - unfold groupby_sum. rewrite G1, G2.
    destruct (Hn sales rest j dj eq_refl Pj) as [->| ->]; reflexivity.
  - now apply setitem_no_rows.
Qed.

Lemma top_products_no_rows {pandas : PandasOps} V c rc v rv j d :
  rows V = [] ->
  In c (columns V) ->
  position v (schema V) = Some (j, d) ->
  d = DtInt64 \/ d = DtFloat64 ->
  top_products (c :: rc) (v :: rv) V = Ok [].
Proof.
  intros E Hc Pj N. unfold top_products.
  destruct (position_In _ _ Hc) as (i & dc & Pi).
  unfold groupby_sum, getitem. rewrite Pi, Pj, E.
  destruct N as [->| ->]; reflexivity.
Qed.

Lemma filter_head_In {A} (f : A -> bool) l x rest : filter f l = x :: rest -> In x l.
Proof.
  intros E. assert (I : In x (filter f l)) by (rewrite E; now left).
  now apply filter_In in I.
Qed.

Lemma kpi_total_no_rows {pandas : PandasOps} V c rest j d :
  rows V = [] ->
  position c (schema V) = Some (j, d) ->
  d = DtInt64 \/ d = DtFloat64 ->
  kpi_total (c :: rest) V = Ok (empty_total d).
Proof.
  intros E P N. unfold kpi_total, getitem. rewrite P, E.
  destruct N as [->| ->]; cbn; [reflexivity|].
  now destruct (float_sum []).
Qed.

Lemma list_eqb_eq {A} (eqb : A -> A -> bool) l l' :
  (forall a b, eqb a b = true -> a = b) -> list_eqb eqb l l' = true -> l = l'.
Proof.
  intros H. revert l'. induction l as [|a l IH]; intros [|b l']; simpl; try discriminate.
  - reflexivity.
  - intros E. apply andb_prop in E as [E1 E2]. now rewrite (H a b E1), (IH l' E2).
Qed.

Lemma figure_eqb_eq f g : figure_eqb f g = true -> f = g.
Proof.
  assert (Pv : forall a b : Value * Value,
            (value_eqb (fst a) (fst b) && value_eqb (snd a) (snd b))%bool = true -> a = b).
  { intros [a1 a2] [b1 b2] E. simpl in E. apply andb_prop in E as [E1 E2].
    apply value_eqb_eq in E1, E2. congruence. }
  assert (Ps : forall a b : string * Value,
            (String.eqb (fst a) (fst b) && value_eqb (snd a) (snd b))%bool = true -> a = b).
  { intros [a1 a2] [b1 b2] E. simpl in E. apply andb_prop in E as [E1 E2].
    apply String.eqb_eq in E1. apply value_eqb_eq in E2. congruence. }
  assert (Pz : forall a b : Value * Z,
            (value_eqb (fst a) (fst b) && Z.eqb (snd a) (snd b))%bool = true -> a = b).
  { intros [a1 a2] [b1 b2] E. simpl in E. apply andb_prop in E as [E1 E2].
    apply value_eqb_eq in E1. apply Z.eqb_eq in E2. congruence. }
  destruct f, g; simpl; try discriminate; try reflexivity; intros E.
  - now rewrite (list_eqb_eq _ _ _ Ps E).
  - apply andb_prop in E as [E1 E2]. apply String.eqb_eq in E1.
    now rewrite E1, (list_eqb_eq _ _ _ Pv E2).
  - apply andb_prop in E as [E1 E3]. apply andb_prop in E1 as [E1 E2].
    apply String.eqb_eq in E1, E2.
    now rewrite E1, E2, (list_eqb_eq _ _ _ Pv E3).
  - now rewrite (list_eqb_eq _ _ _ Pz E).
Qed.

Lemma unique_element_ids_draws drawn fig :
  ~ In fig drawn -> unique_element_ids drawn fig = Ok tt.
Proof.
  intros H. unfold unique_element_ids.
  destruct (existsb (figure_eqb fig) drawn) eqn:E; [|reflexivity].
  apply existsb_exists in E as (g & Hg & E). apply figure_eqb_eq in E. now subst.
Qed.

(** Lines 147-253: when the filters leave no row, as after deselecting
    every value of a multiselect, and the dataset has a category column and
    numeric sales and quantity columns, and its city and rating columns are
    not one column, the page is drawn without an exception, also by a
    Streamlit that draws only figures not drawn before: both cards show the
    sum of no cells, 0 for an int64 column, the five charts have no points,
    and the file holds the header line only. *)
Theorem empty_view_dashboard {pandas : PandasOps} (df V : DataFrame)
    (sales qty category : string) (rs rq rc : list string)
    (js jq : nat) (ds dq : Dtype) :
  schema V = schema df ->
  rows V = [] ->
  draws_new_figures pandas ->
  sales_cols df = sales :: rs ->
  qty_cols df = qty :: rq ->
  category_cols df = category :: rc ->
  position sales (schema df) = Some (js, ds) ->
  position qty (schema df) = Some (jq, dq) ->
  ds = DtInt64 \/ ds = DtFloat64 ->
  dq = DtInt64 \/ dq = DtFloat64 ->
  (forall c r c' r', city_cols df = c :: r -> rating_cols df = c' :: r' -> c <> c') ->
  exists V',
    render df V
    = Ok (mkDashboard (empty_total ds) (empty_total dq) [] [] [] [] [] V'
                      (csv_line (columns V')))
    /\ rows V' = [].
Proof.
  intros ES E Dn Hs Hq Hc Ps Pq Ns Nq Hcr.
  assert (Ecol : columns V = columns df) by (unfold columns; now rewrite ES).
  rewrite <- ES in Ps, Pq.
  destruct (monthly_sales_no_rows df V ES E) as (V' & M & E').
  { intros sales' rest' j d Hs' Pj. rewrite Hs in Hs'. injection Hs' as <- _.
    rewrite Ps in Pj. injection Pj as _ <-. exact Ns. }
  assert (Ic : In category (columns V)).
  { rewrite Ecol. eapply filter_head_In, Hc. }
  assert (T : forall v rv j d, position v (schema V) = Some (j, d) ->
                d = DtInt64 \/ d = DtFloat64 ->
                top_products (category :: rc) (v :: rv) V = Ok []).
  { intros v rv j d P N. now apply (top_products_no_rows V category rc v rv j d). }
  assert (Pm : payment_methods (payment_cols df) V = Ok []).
  { unfold payment_methods, payment_cols.
    destruct (filter is_payment (columns df)) as [|c r] eqn:Ec; [reflexivity|].
    apply filter_head_In in Ec. rewrite <- Ecol in Ec.
    destruct (position_In _ _ Ec) as (i & d & Pi).
    unfold getitem. rewrite Pi, E. reflexivity. }
  assert (Rc : rating_by_city (city_cols df) (rating_cols df) V = Ok []).
  { destruct (city_cols df) as [|c r] eqn:Ec; [reflexivity|].
    destruct (rating_cols df) as [|c' r'] eqn:Er; [reflexivity|].
    pose proof (Hcr c r c' r' eq_refl eq_refl) as Ncr.
    apply filter_head_In in Ec, Er. rewrite <- Ecol in Ec, Er.
    destruct (position_In _ _ Ec) as (i & d & Pi).
    destruct (position_In _ _ Er) as (j & dj & Pj).
    unfold rating_by_city, getitem. rewrite Pi, Pj, E. cbn.
    destruct (String.eqb_spec c c'); [contradiction|reflexivity]. }
  assert (K1 : kpi_total (sales_cols df) V = Ok (empty_total ds))
    by (rewrite Hs; now apply (kpi_total_no_rows V sales rs js ds)).
  assert (K2 : kpi_total (qty_cols df) V = Ok (empty_total dq))
    by (rewrite Hq; now apply (kpi_total_no_rows V qty rq jq dq)).
  assert (T2 : top_products (category_cols df) (qty_cols df) V = Ok [])
    by (rewrite Hc, Hq; now apply (T qty rq jq dq)).
  assert (T3 : top_products (category_cols df) (sales_cols df) V = Ok [])
    by (rewrite Hc, Hs; now apply (T sales rs js ds)).
  assert (F2 : products_figure "Quantity" (category_cols df) (qty_cols df) []
               = Bar "Quantity" []) by now rewrite Hc, Hq.
  assert (F3 : products_figure "Sales" (category_cols df) (sales_cols df) []
               = Bar "Sales" []) by now rewrite Hc, Hs.
  assert (F1 : monthly_figure df [] = EmptyLine \/ monthly_figure df [] = Scatter []).
  { unfold monthly_figure. destruct (sales_cols df); [|destruct (existsb _ _)]; auto. }
  assert (F4 : payment_figure (payment_cols df) [] = EmptyPie
               \/ payment_figure (payment_cols df) [] = Pie []).
  { unfold payment_figure. destruct (payment_cols df); auto. }
  assert (F5 : rating_figure (city_cols df) (rating_cols df) [] = EmptyBar
               \/ exists x y, rating_figure (city_cols df) (rating_cols df) []
                              = BarXY x y []).
  { unfold rating_figure. destruct (city_cols df); [|destruct (rating_cols df)]; eauto. }
  exists V'. split; [|exact E'].
  unfold render. rewrite K1. cbn [bind]. rewrite K2. cbn [bind].
  rewrite M. cbn [bind fst snd].
  rewrite Dn by (intros []). cbn [bind].
  rewrite (top_products_after_month df V V' [] (qty_cols df) M), T2.
  2:{ intros v r. apply (role_head_not_Month is_qty). tauto. }
  cbn [bind]. rewrite F2.
  rewrite Dn by (destruct F1 as [-> | ->]; simpl; intuition discriminate).
  cbn [bind].
  rewrite (top_products_after_month df V V' [] (sales_cols df) M), T3.
  2:{ intros v r. apply (role_head_not_Month is_sales). tauto. }
  cbn [bind]. rewrite F3.
  rewrite Dn by (destruct F1 as [-> | ->]; simpl; intuition discriminate).
  cbn [bind]. rewrite (payment_after_month df V V' [] M), Pm. cbn [bind].
  rewrite Dn
    by (destruct F1 as [-> | ->], F4 as [-> | ->]; simpl; intuition discriminate).
  cbn [bind]. rewrite (rating_after_month df V V' [] M), Rc. cbn [bind].
  rewrite Dn.
  2:{ destruct F1 as [-> | ->], F4 as [-> | ->], F5 as [-> |(x & y & ->)];
      simpl; intuition discriminate. }
  cbn [bind]. do 2 f_equal.
  unfold to_csv. rewrite E'. reflexivity.
Qed.

Lemma empty_view_dashboard_witness :
  exists V',
    render (pandas := example_pandas_unique_ids) sales_df (mkDF (schema sales_df) [])
    = Ok (mkDashboard (VNum 0) (VNum 0) [] [] [] [] [] V'
                      (csv_line (columns V')))
    /\ rows V' = [].
Proof.
  apply (empty_view_dashboard (pandas := example_pandas_unique_ids) sales_df
           (mkDF (schema sales_df) []) "Total" "Quantity" "Product line" [] [] []
           3 2 DtInt64 DtInt64); try reflexivity.
  - intros drawn fig. apply unique_element_ids_draws.
  - now left.
  - now left.
  - intros c r c' r' [= <- _] [= <- _]. discriminate.
Defined.

(** ** The three lists of the probing loop *)

(** Lines 72-82: the probing loop does not raise; each of its three lists
    holds columns of the sample only, in the order of the sheet, and no
    column is in two of the lists, so the column of the date filter is
    never the column of a multiselect. *)
Theorem schema_prober_lists (preview_df : DataFrame) :
  exists p,
    schema_prober preview_df = Ok p
    /\ (forall c, In c (categorical_cols p ++ date_cols p ++ numeric_cols p) ->
          In c (columns preview_df))
    /\ (forall c, In c (categorical_cols p) ->
          ~ In c (date_cols p) /\ ~ In c (numeric_cols p))
    /\ (forall c, In c (date_cols p) -> ~ In c (numeric_cols p))
    /\ (forall k l, In (k, l) [(categorical, categorical_cols p); (date, date_cols p);
                              (numeric, numeric_cols p)] ->
          l = filter (fun c => kind_eqb (kind_of p c) k) (columns preview_df)).
Proof.
  eexists. split; [apply schema_prober_Ok|].
  set (p := mkProbe _ _ _).
  assert (P : schema_prober preview_df = Ok p) by apply schema_prober_Ok.
  assert (M : forall k c, In c (filter (of_kind preview_df k) (columns preview_df)) ->
              probe_kind preview_df c = k).
  { intros k c H. apply filter_In in H as [_ H]. unfold of_kind in H.
    destruct (probe_kind preview_df c), k; (reflexivity || discriminate). }
  split; [|split; [|split]].
  - intros c H. simpl in H. rewrite !in_app_iff, !filter_In in H. tauto.
  - intros c H. simpl in *. apply M in H.
    split; intros H'; apply M in H'; congruence.
  - intros c H. simpl in *. apply M in H. intros H'. apply M in H'. congruence.
  - intros k l H. simpl in H.
    assert (X : forall k', filter (of_kind preview_df k') (columns preview_df)
                = filter (fun c => kind_eqb (kind_of p c) k') (columns preview_df)).
    { intros k'. apply filter_ext. intros c. unfold of_kind.
      now rewrite (kind_of_probe preview_df p c P). }
    destruct H as [[= <- <-]|[[= <- <-]|[[= <- <-]|[]]]]; apply X.
Qed.

Lemma schema_prober_lists_witness :
  exists p,
    schema_prober sales_df = Ok p
    /\ ~ In "Date" (categorical_cols p) /\ In "Date" (date_cols p).
Proof.
  destruct (schema_prober_lists sales_df) as (p & P & _ & H & _).
  exists p. split; [exact P|].
  assert (D : In "Date" (date_cols p)).
  { vm_compute in P. injection P as <-. simpl. tauto. }
  split; [|exact D]. intros C. destruct (H "Date" C) as [Hd _]. exact (Hd D).
Defined.

Lemma role_lists_keywords_witness : In "Total" (sales_cols sales_df).
Proof.
  apply (proj2 (proj1 (role_lists_keywords sales_df "Total"))). split.
  - simpl. tauto.
  - right. exists EmptyString, EmptyString. reflexivity.
Defined.
